(** * Soil-crop nutrient balance and timing engine (server.js)

    A shallow embedding of the calculation core of [server.js]: the raster
    sampler, the soil-nutrient resolver, the nutrient balance calculator,
    the split-ratio adjuster, the request validation of [/calculate] and
    the timing advisor.

    Numbers.  A JavaScript number is modelled by [num]: a real number, one
    of the two infinities, or NaN.  The special values follow IEEE-754
    (division by zero, [0 * Infinity], comparisons with NaN).  Finite
    results are exact reals, except where the rounding decides what the
    code does next: the raster sampler computes its cell sizes and its
    pixel with results rounded to binary64 ([binary64], [fsub], [fdiv]).
    The sign of zero is not tracked (a zero divisor counts as [+0]).  The
    arithmetic of the split ratios is evaluated in binary64 as well
    ([ratios_binary64]).

    Objects.  Objects with a fixed set of keys are records, string labels
    that the code only compares are kept as strings, null is [None].

    State.  The loaded rasters and point features are a value [Env] passed
    to every function that reads them.  [Math.random] is a generator state
    passed through the functions that draw from it; [Date.now()] is an
    argument.  The ids of the store are integers; the counter that [init]
    restores is rounded as binary64 rounds it.  The builtin [Date] and [parseFloat] on strings are
    parameters of the section [Host]. *)

From Stdlib Require Import PrimFloat.
From Stdlib Require Import Reals Lra Lia ZArith Bool Ascii String List.
From Stdlib Require Import Decimal DecimalString.
Import ListNotations.

Open Scope R_scope.

(* decimal constants are read as the nearest binary64 value *)
Set Warnings "-inexact-float".

(** ** Numbers *)

Inductive num : Type :=
| Fin (r : R)
| PInf
| NInf
| NaN.

Coercion Fin : R >-> num.

Definition Rltb (a b : R) : bool := if Rlt_dec a b then true else false.
Definition Rleb (a b : R) : bool := if Rle_dec a b then true else false.
Definition Reqb (a b : R) : bool := if Req_dec_T a b then true else false.

Definition inf_of (positive : bool) : num := if positive then PInf else NInf.

Definition nneg (a : num) : num :=
  match a with
  | Fin r => Fin (- r)
  | PInf => NInf
  | NInf => PInf
  | NaN => NaN
  end.

Definition nadd (a b : num) : num :=
  match a, b with
  | NaN, _ | _, NaN => NaN
  | Fin x, Fin y => Fin (x + y)
  | PInf, NInf | NInf, PInf => NaN
  | PInf, _ | _, PInf => PInf
  | NInf, _ | _, NInf => NInf
  end.

Definition nsub (a b : num) : num := nadd a (nneg b).

(* an infinity of the given sign times the finite [y] *)
Definition inf_times (positive : bool) (y : R) : num :=
  if Reqb y 0 then NaN else inf_of (Bool.eqb positive (Rltb 0 y)).

Definition nmul (a b : num) : num :=
  match a, b with
  | NaN, _ | _, NaN => NaN
  | Fin x, Fin y => Fin (x * y)
  | PInf, Fin y | Fin y, PInf => inf_times true y
  | NInf, Fin y | Fin y, NInf => inf_times false y
  | PInf, PInf | NInf, NInf => PInf
  | PInf, NInf | NInf, PInf => NInf
  end.

Definition ndiv (a b : num) : num :=
  match a, b with
  | NaN, _ | _, NaN => NaN
  | Fin x, Fin y =>
      if Reqb y 0
      then (if Reqb x 0 then NaN else inf_of (Rltb 0 x))
      else Fin (x / y)
  | Fin _, (PInf | NInf) => Fin 0
  | PInf, Fin y => inf_of (Rleb 0 y)
  | NInf, Fin y => inf_of (negb (Rleb 0 y))
  | (PInf | NInf), (PInf | NInf) => NaN
  end.

(* [a < b]; every comparison with NaN is false *)
Definition nlt (a b : num) : bool :=
  match a, b with
  | NaN, _ | _, NaN => false
  | Fin x, Fin y => Rltb x y
  | NInf, (Fin _ | PInf) => true
  | Fin _, PInf => true
  | _, _ => false
  end.

Definition nle (a b : num) : bool :=
  match a, b with
  | NaN, _ | _, NaN => false
  | Fin x, Fin y => Rleb x y
  | NInf, _ => true
  | _, PInf => true
  | _, _ => false
  end.

Definition ngt (a b : num) : bool := nlt b a.
Definition nge (a b : num) : bool := nle b a.

(* [a === b] on numbers *)
Definition neqb (a b : num) : bool :=
  match a, b with
  | Fin x, Fin y => Reqb x y
  | PInf, PInf | NInf, NInf => true
  | _, _ => false
  end.

Definition Math_max (a b : num) : num :=
  match a, b with
  | NaN, _ | _, NaN => NaN
  | _, _ => if nlt a b then b else a
  end.

Definition Math_min (a b : num) : num :=
  match a, b with
  | NaN, _ | _, NaN => NaN
  | _, _ => if nlt b a then b else a
  end.

Definition Math_floor (a : num) : num :=
  match a with
  | Fin r => Fin (IZR (Int_part r))
  | _ => a
  end.

(* Math.round rounds half up: floor(x + 0.5) *)
Definition Math_round (a : num) : num :=
  match a with
  | Fin r => Fin (IZR (Int_part (r + 1 / 2)))
  | _ => a
  end.

Definition Math_exp (a : num) : num :=
  match a with
  | Fin r => Fin (exp r)
  | PInf => PInf
  | NInf => Fin 0
  | NaN => NaN
  end.

(* truthiness of a number: 0 and NaN are falsy *)
Definition truthy (a : num) : bool :=
  match a with
  | Fin r => negb (Reqb r 0)
  | NaN => false
  | _ => true
  end.

(* [a || d] on numbers *)
Definition num_or (a d : num) : num := if truthy a then a else d.

(* [a ?? d] *)
Definition nullish {A} (a : option A) (d : A) : A :=
  match a with Some x => x | None => d end.

Definition is_finite (a : num) : bool :=
  match a with Fin _ => true | _ => false end.

(* a number that is not NaN and not negative *)
Definition nonneg (a : num) : Prop :=
  match a with
  | Fin r => 0 <= r
  | PInf => True
  | _ => False
  end.

Declare Scope num_scope.
Delimit Scope num_scope with num.
Bind Scope num_scope with num.
Infix "+" := nadd : num_scope.
Infix "-" := nsub : num_scope.
Infix "*" := nmul : num_scope.
Infix "/" := ndiv : num_scope.
Infix "<?" := nlt (at level 70) : num_scope.
Infix "<=?" := nle (at level 70) : num_scope.
Infix ">?" := ngt (at level 70) : num_scope.
Infix ">=?" := nge (at level 70) : num_scope.
Infix "===" := neqb (at level 70) : num_scope.
Notation "a '||n' d" := (num_or a d) (at level 50, left associativity) : num_scope.
Notation "a '??' d" := (nullish a d) (at level 50, left associativity).

(* Math.round(x * 10) / 10 *)
Definition round1 (x : num) : num := (Math_round (x * 10) / 10)%num.

(** ** Rounding to binary64 *)

(* The largest exponent e' with 2^e' <= a among e, e - 1, ..., e - n + 1,
   and e - n when there is none. *)
Fixpoint exponent_below (n : nat) (e : Z) (a : R) : Z :=
  match n with
  | O => e
  | S n => if Rleb (powerRZ 2 e) a then e else exponent_below n (e - 1) a
  end.

(* The exponent of the unit in the last place of the binary64 numbers of
   magnitude [a]: e - 52 for 2^e <= a < 2^(e+1) with e from -1022 to 1023,
   and -1074 for the subnormal numbers. *)
Definition ulp_exponent (a : R) : Z := (exponent_below 2045 1023 a - 52)%Z.

(* the nearest integer, the even one of two nearest *)
Definition round_half_even (q : R) : Z :=
  let f := Int_part q in
  let d := q - IZR f in
  if Rltb d (1 / 2) then f
  else if Rltb (1 / 2) d then (f + 1)%Z
  else if Z.even f then f else (f + 1)%Z.

(* The binary64 number nearest to a real (ties to even); a result of
   magnitude 2^1024 is an infinity. *)
Definition binary64 (x : R) : num :=
  let e := ulp_exponent (Rabs x) in
  let r := IZR (round_half_even (x / powerRZ 2 e)) * powerRZ 2 e in
  if Rleb (powerRZ 2 1024) (Rabs r) then inf_of (Rltb 0 x) else Fin r.

Definition fl (a : num) : num :=
  match a with
  | Fin r => binary64 r
  | _ => a
  end.

(* [a - b] and [a / b] as the machine computes them *)
Definition fsub (a b : num) : num := fl (a - b)%num.
Definition fdiv (a b : num) : num := fl (a / b)%num.

(** Tactics that evaluate the arithmetic of [num] on constants. *)

(* decide every comparison of reals in the goal that [lra] can decide *)
Ltac decide_real_test :=
  let H := fresh in
  match goal with
  | |- context [Rlt_dec ?a ?b] =>
      first [ assert (H : a < b) by lra;
              destruct (Rlt_dec a b) as [_|]; [clear H | contradiction]
            | assert (H : ~ a < b) by lra;
              destruct (Rlt_dec a b) as [|_]; [contradiction | clear H] ]
  | |- context [Rle_dec ?a ?b] =>
      first [ assert (H : a <= b) by lra;
              destruct (Rle_dec a b) as [_|]; [clear H | contradiction]
            | assert (H : ~ a <= b) by lra;
              destruct (Rle_dec a b) as [|_]; [contradiction | clear H] ]
  | |- context [Req_dec_T ?a ?b] =>
      first [ assert (H : a = b) by lra;
              destruct (Req_dec_T a b) as [_|]; [clear H | contradiction]
            | assert (H : a <> b) by lra;
              destruct (Req_dec_T a b) as [|_]; [contradiction | clear H] ]
  end.

Ltac decide_reals :=
  unfold inf_times, Rltb, Rleb, Reqb; repeat decide_real_test.

Ltac num_cbn :=
  cbn [nadd nsub nneg nmul ndiv nlt nle ngt nge neqb Math_max Math_min
       inf_times inf_of Bool.eqb negb andb orb truthy num_or nullish
       fst snd].

Ltac num_eval := repeat (num_cbn; decide_reals).

(* split on every comparison of reals *)
Ltac decide_days :=
  repeat match goal with
  | |- context [Rlt_dec ?a ?b] => destruct (Rlt_dec a b); try lra
  end.

(* Math.round on a constant: the integer part is [z] *)
Ltac round_to z :=
  match goal with
  | |- context [Int_part ?x] =>
      replace (Int_part x) with z by (apply Int_part_spec; lra)
  end.

(* the exponential of a negative constant lies between 0 and 1 *)
Ltac bound_exp :=
  repeat match goal with
  | |- context [exp ?x] =>
      lazymatch goal with
      | _ : 0 < exp x < 1 |- _ => fail
      | _ => assert (0 < exp x < 1)
               by (split; [apply exp_pos
                          | rewrite <- exp_0; apply exp_increasing; lra])
      end
  end.

(** ** Model parameters: [CropRotationFertilizerModel.defaultParams] *)

Inductive crop : Type := rice | wheat.

Definition crop_eqb (a b : crop) : bool :=
  match a, b with
  | rice, rice | wheat, wheat => true
  | _, _ => false
  end.

Record CropParams : Type := {
  N_per_100kg : num;
  P_per_100kg : num;
  K_per_100kg : num;
  normal_sowing_date : string;
  straw_N : num;
  straw_P : num;
  straw_K : num;
  straw_moisture : num;
  straw_CN_ratio : num;
  N_release_rate : num;
  P_release_rate : num;
  K_release_rate : num;
  N_fertilizer_efficiency : num;
  P_fertilizer_efficiency : num;
  K_fertilizer_efficiency : num
}.

Definition urea_N_content : num := 0.46.
Definition superphosphate_P_content : num := 0.12.
Definition potassium_chloride_K_content : num := 0.60.

Definition rice_params : CropParams := {|
  N_per_100kg := 2.2; P_per_100kg := 1.2; K_per_100kg := 2.5;
  normal_sowing_date := "06-17";
  straw_N := 0.6; straw_P := 0.1; straw_K := 1.8;
  straw_moisture := 40; straw_CN_ratio := 80;
  N_release_rate := -0.6; P_release_rate := 0.65; K_release_rate := 0.80;
  N_fertilizer_efficiency := 0.30;
  P_fertilizer_efficiency := 0.25;
  K_fertilizer_efficiency := 0.45
|}.

Definition wheat_params : CropParams := {|
  N_per_100kg := 3.0; P_per_100kg := 1.5; K_per_100kg := 2.8;
  normal_sowing_date := "11-01";
  straw_N := 0.5; straw_P := 0.1; straw_K := 1.2;
  straw_moisture := 15; straw_CN_ratio := 70;
  N_release_rate := 0.35; P_release_rate := 0.75; K_release_rate := 0.90;
  N_fertilizer_efficiency := 0.40;
  P_fertilizer_efficiency := 0.18;
  K_fertilizer_efficiency := 0.50
|}.

(* defaultParams[cropType] *)
Definition defaultParams (c : crop) : CropParams :=
  match c with rice => rice_params | wheat => wheat_params end.

(* wheat.yield_levels: min, max, base_fertilizer range, urea_tillering range *)
Record YieldLevel : Type := {
  yl_min : num;
  yl_max : num;
  base_fertilizer : num * num;
  urea_tillering : num * num
}.

Definition yield_levels : list YieldLevel := [
  {| yl_min := 0; yl_max := 300; base_fertilizer := (Fin 25, Fin 30);
     urea_tillering := (Fin 6, Fin 8) |};
  {| yl_min := 300; yl_max := 400; base_fertilizer := (Fin 30, Fin 40);
     urea_tillering := (Fin 8, Fin 10) |};
  {| yl_min := 400; yl_max := 500; base_fertilizer := (Fin 40, Fin 50);
     urea_tillering := (Fin 10, Fin 12) |};
  {| yl_min := 500; yl_max := PInf; base_fertilizer := (Fin 50, Fin 55);
     urea_tillering := (Fin 12, Fin 14) |}
].

(* the level used when [find] finds none: levels[levels.length - 1] *)
Definition last_yield_level : YieldLevel :=
  {| yl_min := 500; yl_max := PInf; base_fertilizer := (Fin 50, Fin 55);
     urea_tillering := (Fin 12, Fin 14) |}.

(* wheat.formula_ratio *)
Definition formula_ratio : num * num * num := (Fin 20, Fin 15, Fin 10).

(* soil_impact.organic_matter_impact *)
Definition om_impact_N (om : num) : num := (1 + 0.015 * (om - 20))%num.
Definition om_impact_P (om : num) : num := (1 + 0.01 * (om - 20))%num.
Definition om_impact_K (om : num) : num := (1 + 0.008 * (om - 20))%num.

(* soil_impact.ph_impact_on_p.adjustment *)
Definition ph_adjustment (ph : num) : num :=
  if ((ph >=? 6.0) && (ph <=? 7.0))%num then 1.0 else 0.7.

(** ** Raster layers: [geotiffCache] and [extractValueFromGeoTIFF] *)

(* what [image] gives [loadGeoTIFFs]: rasters[0], getWidth(), getHeight()
   and getBoundingBox() = [minX, minY, maxX, maxY] *)
Record Image : Type := {
  img_data : list num;
  img_width : Z;
  img_height : Z;
  bbox0 : R;
  bbox1 : R;
  bbox2 : R;
  bbox3 : R
}.

Record Layer : Type := {
  data : list num;
  width : num;
  height : num;
  minX : num;
  maxY : num;
  maxX : num;
  minY : num;
  cellWidth : num;
  cellHeight : num
}.

(* the cache entry built by [loadGeoTIFFs] for one file; the two cell
   sizes are rounded quotients of rounded differences *)
Definition loadLayer (image : Image) : Layer := {|
  data := img_data image;
  width := Fin (IZR (img_width image));
  height := Fin (IZR (img_height image));
  minX := Fin (bbox0 image);
  maxY := Fin (bbox3 image);
  maxX := Fin (bbox2 image);
  minY := Fin (bbox1 image);
  cellWidth :=
    fdiv (fsub (Fin (bbox2 image)) (Fin (bbox0 image))) (Fin (IZR (img_width image)));
  cellHeight :=
    fdiv (fsub (Fin (bbox3 image)) (Fin (bbox1 image))) (Fin (IZR (img_height image)))
|}.

Inductive layer_key : Type := AN | AP | AK.

(* the data shared by all requests: the three raster layers and the two
   point-feature collections, loaded once at start *)
Record FertilizerFeature : Type := {
  f_coords : num * num;
  f_crop : string;
  f_N : option num;
  f_P : option num;
  f_K : option num
}.

Record FarmingFeature : Type := {
  g_coords : num * num;
  g_crop : string;
  sowing_date_start : option string;
  sowing_date_end : option string
}.

Record Env : Type := {
  cache_AN : option Layer;
  cache_AP : option Layer;
  cache_AK : option Layer;
  fertilizerFeatures : list FertilizerFeature;
  farmingFeatures : list FarmingFeature
}.

(* geotiffCache[layer] *)
Definition geotiffCache (env : Env) (layer : layer_key) : option Layer :=
  match layer with
  | AN => cache_AN env
  | AP => cache_AP env
  | AK => cache_AK env
  end.

(* the value of the sampler: null, undefined (a read past the end of the
   array) or a number *)
Inductive sample : Type :=
| SNull
| SUndefined
| SValue (v : num).

(* data[idx]: an element for an integer index inside the array, undefined
   for any other key *)
Definition array_get (d : list num) (idx : num) : option num :=
  match idx with
  | Fin r =>
      let z := Int_part r in
      if Reqb (IZR z) r && (0 <=? z)%Z then nth_error d (Z.to_nat z) else None
  | _ => None
  end.

Definition is_nodata (value : num) : bool :=
  ((value <? -9999) || (value >? 100000)
   || (value === -9999) || (value === -32768))%num.

(* the bounds check, the read and the NODATA test; the index is a sum of
   integers, exact in binary64 below 2^53 *)
Definition readPixel (cache : Layer) (col row : num) : sample :=
  if ((col <? 0) || (col >=? width cache)
      || (row <? 0) || (row >=? height cache))%num
  then SNull
  else
    let idx := (row * width cache + col)%num in
    match array_get (data cache) idx with
    | None => SUndefined
    | Some value => if is_nodata value then SNull else SValue value
    end.

Definition extractValueFromGeoTIFF (env : Env) (lon lat : num) (layer : layer_key)
  : sample :=
  match geotiffCache env layer with
  | None => SNull
  | Some cache =>
      if ((lon <? minX cache) || (lon >? maxX cache)
          || (lat <? minY cache) || (lat >? maxY cache))%num
      then SNull
      else
        let col := Math_floor (fdiv (fsub lon (minX cache)) (cellWidth cache)) in
        let row := Math_floor (fdiv (fsub (maxY cache) lat) (cellHeight cache)) in
        readPixel cache col row
  end.

(** ** Nutrient levels *)

(* the labels of [getNutrientLevel], with the two placeholders used by the
   resolver: low, medium, high, very high, unknown, default *)
Inductive level : Type :=
| L_low
| L_medium
| L_high
| L_very_high
| L_unknown
| L_default.

(* ranges[type]: the thresholds low, medium, high *)
Definition ranges (type : layer_key) : num * num * num :=
  match type with
  | AN => (Fin 50, Fin 90, Fin 120)
  | AP => (Fin 5, Fin 10, Fin 20)
  | AK => (Fin 50, Fin 100, Fin 150)
  end.

Definition getNutrientLevel (value : num) (type : layer_key) : level :=
  let '(lo, mid, hi) := ranges type in
  if (value <? lo)%num then L_low
  else if (value <? mid)%num then L_medium
  else if (value <? hi)%num then L_high
  else L_very_high.

(* arithmetic on a sampler value: undefined converts to NaN *)
Definition sample_num (s : sample) : num :=
  match s with
  | SValue v => v
  | SNull => Fin 0
  | SUndefined => NaN
  end.

Record GeoEntry : Type := {
  ge_value : num;
  ge_raw_value : sample;
  ge_nutrient_level : level
}.

Record GeoTiffData : Type := {
  gt_AN : option GeoEntry;
  gt_AP : option GeoEntry;
  gt_AK : option GeoEntry;
  has_valid_data : bool
}.

(* [s !== null] *)
Definition not_null (s : sample) : bool :=
  match s with SNull => false | _ => true end.

Definition getSoilNutrientsFromGeoTIFF (env : Env) (lon lat : num) : GeoTiffData :=
  let vAN := extractValueFromGeoTIFF env lon lat AN in
  let vAP := extractValueFromGeoTIFF env lon lat AP in
  let vAK := extractValueFromGeoTIFF env lon lat AK in
  let hasValidData := not_null vAN || not_null vAP || not_null vAK in
  let scale_AN : num := 10 in
  let scale_AP : num := 100 in
  let scale_AK : num := 10 in
  {| gt_AN := if not_null vAN then Some {|
         ge_value := (Math_round (sample_num vAN) / 10)%num;
         ge_raw_value := vAN;
         ge_nutrient_level := getNutrientLevel (sample_num vAN / scale_AN) AN |}
       else None;
     gt_AP := if not_null vAP then Some {|
         ge_value := (Math_round (sample_num vAP) / 100)%num;
         ge_raw_value := vAP;
         ge_nutrient_level := getNutrientLevel (sample_num vAP / scale_AP) AP |}
       else None;
     gt_AK := if not_null vAK then Some {|
         ge_value := (Math_round (sample_num vAK) / 10)%num;
         ge_raw_value := vAK;
         ge_nutrient_level := getNutrientLevel (sample_num vAK / scale_AK) AK |}
       else None;
     has_valid_data := hasValidData |}.

(** ** Point features: fertilizer efficiency and sowing dates *)

Definition sqdist (a b : num * num) : num :=
  ((fst a - fst b) * (fst a - fst b) + (snd a - snd b) * (snd a - snd b))%num.

(* cropMap *)
Definition cropMap (c : crop) : string :=
  match c with
  | rice => "水稻"
  | wheat => "冬小麦"
  end.

Definition is_some {A} (o : option A) : bool :=
  match o with Some _ => true | None => false end.

(* candidates.reduce((best, f) => d(f) < d(best) ? f : best) *)
Definition nearest {A} (coords : A -> num * num) (p : num * num)
  (first : A) (rest : list A) : A :=
  fold_left
    (fun best f => if (sqdist (coords f) p <? sqdist (coords best) p)%num
                   then f else best)
    rest first.

Definition getFertilizerEfficiency (env : Env) (lon lat : num) (cropType : crop)
  : option num * option num * option num :=
  match fertilizerFeatures env with
  | [] => (None, None, None)
  | _ =>
      let targetCrop := cropMap cropType in
      let candidates :=
        filter (fun f => String.eqb (f_crop f) targetCrop && is_some (f_N f))
               (fertilizerFeatures env) in
      let candidates :=
        match candidates with
        | [] => filter (fun f => is_some (f_N f)) (fertilizerFeatures env)
        | _ => candidates
        end in
      match candidates with
      | [] => (None, None, None)
      | f0 :: fs =>
          let n := nearest f_coords (lon, lat) f0 fs in
          (f_N n, f_P n, f_K n)
      end
  end.

(* truthiness of a string or null: null and the empty string are falsy *)
Definition truthy_str (o : option string) : bool :=
  match o with
  | Some s => negb (String.eqb s "")
  | None => false
  end.

Definition getSowingDate (env : Env) (lon lat : num) (cropType : crop)
  : option (option string * option string) :=
  match farmingFeatures env with
  | [] => None
  | _ =>
      let targetCrop := cropMap cropType in
      let candidates :=
        filter (fun f => String.eqb (g_crop f) targetCrop
                         && truthy_str (sowing_date_start f))
               (farmingFeatures env) in
      let candidates :=
        match candidates with
        | [] => filter (fun f => truthy_str (sowing_date_start f)) (farmingFeatures env)
        | _ => candidates
        end in
      match candidates with
      | [] => None
      | f0 :: fs =>
          let n := nearest g_coords (lon, lat) f0 fs in
          Some (sowing_date_start n, sowing_date_end n)
      end
  end.

(** ** The simulated fallback and [Math.random] *)

(* The state of the global generator behind Math.random: the values it
   will return, in order.  A call returns the head and leaves the rest. *)
Definition rng : Type := nat -> R.

Definition Math_random (s : rng) : num * rng :=
  (Fin (s 0%nat), fun n => s (S n)).

(* where a soil value comes from: GeoTIFF, simulated data, manual input,
   default value *)
Inductive source : Type :=
| SRC_GeoTIFF
| SRC_simulated
| SRC_manual
| SRC_default.

Record SoilData : Type := {
  soil_N : option num;
  soil_P : option num;
  soil_K : option num;
  level_AN : level;
  level_AP : level;
  level_AK : level;
  source_AN : source;
  source_AP : source;
  source_AK : source;
  is_default : bool;
  use_custom : bool
}.

(* const rand = (min, max) => Math.random() * (max - min) + min *)
Definition rand (min max : num) (s : rng) : num * rng :=
  let '(u, s') := Math_random s in
  ((u * (max - min) + min)%num, s').

Definition getSimulatedSoilNutrients (lon lat : num) (s : rng) : SoilData * rng :=
  let baseAN := (89.2 + (lon - 114) * 2 + (lat - 30) * 3)%num in
  let baseAP := (23.8 + (lon - 114) * 0.5 + (lat - 30) * 0.8)%num in
  let baseAK := (105.0 + (lon - 114) * 1.5 + (lat - 30) * 2)%num in
  let '(r1, s1) := rand (-10) 10 s in
  let vAN := Math_max 50 (Math_min 150 (baseAN + r1)) in
  let '(r2, s2) := rand (-5) 5 s1 in
  let vAP := Math_max 5 (Math_min 40 (baseAP + r2)) in
  let '(r3, s3) := rand (-20) 20 s2 in
  let vAK := Math_max 60 (Math_min 200 (baseAK + r3)) in
  ({| soil_N := Some (Math_round (vAN * 10) / 10)%num;
      soil_P := Some (Math_round (vAP * 10) / 10)%num;
      soil_K := Some (Math_round (vAK * 10) / 10)%num;
      level_AN := getNutrientLevel vAN AN;
      level_AP := getNutrientLevel vAP AP;
      level_AK := getNutrientLevel vAK AK;
      source_AN := SRC_simulated;
      source_AP := SRC_simulated;
      source_AK := SRC_simulated;
      is_default := true;
      use_custom := false |}, s3).

(** ** The soil-nutrient resolver: [getSoilNutrientsWithCustom] *)

Record CustomSoil : Type := {
  custom_N : option num;
  custom_P : option num;
  custom_K : option num
}.

(* the assignments of the resolver to the fields of [baseData] *)
Definition set_N (v : option num) (l : level) (src : source) (b : SoilData) :=
  {| soil_N := v; soil_P := soil_P b; soil_K := soil_K b;
     level_AN := l; level_AP := level_AP b; level_AK := level_AK b;
     source_AN := src; source_AP := source_AP b; source_AK := source_AK b;
     is_default := is_default b; use_custom := use_custom b |}.

Definition set_P (v : option num) (l : level) (src : source) (b : SoilData) :=
  {| soil_N := soil_N b; soil_P := v; soil_K := soil_K b;
     level_AN := level_AN b; level_AP := l; level_AK := level_AK b;
     source_AN := source_AN b; source_AP := src; source_AK := source_AK b;
     is_default := is_default b; use_custom := use_custom b |}.

Definition set_K (v : option num) (l : level) (src : source) (b : SoilData) :=
  {| soil_N := soil_N b; soil_P := soil_P b; soil_K := v;
     level_AN := level_AN b; level_AP := level_AP b; level_AK := l;
     source_AN := source_AN b; source_AP := source_AP b; source_AK := src;
     is_default := is_default b; use_custom := use_custom b |}.

Definition set_is_default (v : bool) (b : SoilData) :=
  {| soil_N := soil_N b; soil_P := soil_P b; soil_K := soil_K b;
     level_AN := level_AN b; level_AP := level_AP b; level_AK := level_AK b;
     source_AN := source_AN b; source_AP := source_AP b; source_AK := source_AK b;
     is_default := v; use_custom := use_custom b |}.

Definition set_use_custom (v : bool) (b : SoilData) :=
  {| soil_N := soil_N b; soil_P := soil_P b; soil_K := soil_K b;
     level_AN := level_AN b; level_AP := level_AP b; level_AK := level_AK b;
     source_AN := source_AN b; source_AP := source_AP b; source_AK := source_AK b;
     is_default := is_default b; use_custom := v |}.

Definition getNutrientLevelFromValue (value : num) (type : layer_key) : level :=
  getNutrientLevel value type.

(* the values read from the raster layers *)
Definition apply_geotiff (geo : GeoTiffData) (b : SoilData) : SoilData :=
  if has_valid_data geo then
    let b :=
      match gt_AN geo with
      | Some e => set_is_default false
                    (set_N (Some (ge_value e)) (ge_nutrient_level e) SRC_GeoTIFF b)
      | None => b
      end in
    let b :=
      match gt_AP geo with
      | Some e => set_is_default false
                    (set_P (Some (ge_value e)) (ge_nutrient_level e) SRC_GeoTIFF b)
      | None => b
      end in
    match gt_AK geo with
    | Some e => set_is_default false
                  (set_K (Some (ge_value e)) (ge_nutrient_level e) SRC_GeoTIFF b)
    | None => b
    end
  else b.

(* what the raster did not give is filled with simulated values *)
Definition apply_simulated (simulated : SoilData) (b : SoilData) : SoilData :=
  let b :=
    match soil_N b with
    | None => set_N (soil_N simulated) (level_AN simulated) SRC_simulated b
    | Some _ => b
    end in
  let b :=
    match soil_P b with
    | None => set_P (soil_P simulated) (level_AP simulated) SRC_simulated b
    | Some _ => b
    end in
  match soil_K b with
  | None => set_K (soil_K simulated) (level_AK simulated) SRC_simulated b
  | Some _ => b
  end.

(* manual input has the highest priority *)
Definition apply_custom (customSoilData : option CustomSoil) (b : SoilData)
  : SoilData :=
  match customSoilData with
  | None => b
  | Some c =>
      let useCustom := false in
      let '(b, useCustom) :=
        match custom_N c with
        | Some v => (set_N (Some v) (getNutrientLevelFromValue v AN) SRC_manual b, true)
        | None => (b, useCustom)
        end in
      let '(b, useCustom) :=
        match custom_P c with
        | Some v => (set_P (Some v) (getNutrientLevelFromValue v AP) SRC_manual b, true)
        | None => (b, useCustom)
        end in
      let '(b, useCustom) :=
        match custom_K c with
        | Some v => (set_K (Some v) (getNutrientLevelFromValue v AK) SRC_manual b, true)
        | None => (b, useCustom)
        end in
      set_use_custom useCustom b
  end.

Definition getSoilNutrientsWithCustom (env : Env) (lon lat : num)
  (customSoilData : option CustomSoil) (s : rng) : SoilData * rng :=
  let geoTiffData := getSoilNutrientsFromGeoTIFF env lon lat in
  let baseData := {|
    soil_N := None; soil_P := None; soil_K := None;
    level_AN := L_unknown; level_AP := L_unknown; level_AK := L_unknown;
    source_AN := SRC_simulated; source_AP := SRC_simulated;
    source_AK := SRC_simulated;
    is_default := true; use_custom := false |} in
  let baseData := apply_geotiff geoTiffData baseData in
  let '(simulated, s') := getSimulatedSoilNutrients lon lat s in
  let baseData := apply_simulated simulated baseData in
  let baseData := apply_custom customSoilData baseData in
  (baseData, s').

(** ** The nutrient balance calculator *)

Definition calculateNutrientRequirement (targetYield : num) (cropType : crop)
  : num * num * num :=
  let p := defaultParams cropType in
  ((targetYield / 100) * N_per_100kg p,
   (targetYield / 100) * P_per_100kg p,
   (targetYield / 100) * K_per_100kg p)%num.

Record SoilImpact : Type := {
  om_N : num;
  om_P : num;
  om_K : num;
  ph_impact_on_p : num
}.

Definition calculateSoilSupply (soilN soilP soilK organicMatter soilPh : num)
  (cropType : crop) : num * num * num * SoilImpact :=
  let convFactor : num := 0.15 in
  let '(nCorr, pCorr, kCorr) :=
    match cropType with
    | rice =>
        ((3.2164 + 4799.9239 / soilN) / 100,
         (17.4898 + 2235.9674 / soilP) / 100,
         (10.7412 + 6147.1032 / soilK) / 100)%num
    | wheat =>
        (0.821222 * Math_exp (-0.005429 * soilN),
         1.976 * Math_exp (-0.041744 * soilP),
         1.1038 * Math_exp (-0.006362 * soilK))%num
    end in
  let phImpact := ph_adjustment soilPh in
  let nSupply := (soilN * convFactor * nCorr * om_impact_N organicMatter)%num in
  let pSupply := (soilP * convFactor * pCorr * om_impact_P organicMatter * phImpact)%num in
  let kSupply := (soilK * convFactor * kCorr * om_impact_K organicMatter)%num in
  (nSupply, pSupply, kSupply,
   {| om_N := om_impact_N organicMatter;
      om_P := om_impact_P organicMatter;
      om_K := om_impact_K organicMatter;
      ph_impact_on_p := phImpact |}).

Definition calculateStrawSupply (amount : num) (strawType : crop)
  : num * num * num * num :=
  if (amount <=? 0)%num then (Fin 0, Fin 0, Fin 0, Fin 0)
  else
    let p := defaultParams strawType in
    let dryWeight := (amount * (1 - straw_moisture p / 100))%num in
    let nTotal := (dryWeight * (straw_N p / 100))%num in
    let pTotal := (dryWeight * (straw_P p / 100))%num in
    let kTotal := (dryWeight * (straw_K p / 100))%num in
    (nTotal * N_release_rate p,
     pTotal * P_release_rate p,
     kTotal * K_release_rate p,
     dryWeight * 0.005)%num.

Definition getWheatFertilizerByYield (targetYield : num) : num * num :=
  let lv :=
    match find (fun l => (targetYield >=? yl_min l)%num
                         && (targetYield <=? yl_max l)%num) yield_levels with
    | Some l => l
    | None => last_yield_level
    end in
  ((fst (base_fertilizer lv) + snd (base_fertilizer lv)) / 2,
   (fst (urea_tillering lv) + snd (urea_tillering lv)) / 2)%num.

(** ** A host for the builtin [Date]: date-only ISO strings, UTC

    The engine is stated over any implementation of the builtin (the
    section below takes it as a parameter).  This one reads the format
    [YYYY-MM-DD], which is what the engine itself writes, as midnight UTC,
    and takes every other string for an Invalid Date. *)

Definition digit_of (c : ascii) : option Z :=
  let n := Z.of_nat (nat_of_ascii c) in
  if ((48 <=? n) && (n <=? 57))%Z then Some (n - 48)%Z else None.

(* days from 1970-01-01 to the date y-m-d *)
Definition days_from_civil (y m d : Z) : Z :=
  (let y' := if m <=? 2 then y - 1 else y in
   let era := y' / 400 in
   let yoe := y' - era * 400 in
   let mp := (m + 9) mod 12 in
   let doy := (153 * mp + 2) / 5 + d - 1 in
   let doe := yoe * 365 + yoe / 4 - yoe / 100 + doy in
   era * 146097 + doe - 719468)%Z.

(* the year of the day that is [z] days after 1970-01-01 *)
Definition year_from_days (z : Z) : Z :=
  (let z := z + 719468 in
   let era := z / 146097 in
   let doe := z - era * 146097 in
   let yoe := (doe - doe / 1460 + doe / 36524 - doe / 146096) / 365 in
   let y := yoe + era * 400 in
   let doy := doe - (365 * yoe + yoe / 4 - yoe / 100) in
   let mp := (5 * doy + 2) / 153 in
   let m := if mp <? 10 then mp + 3 else mp - 9 in
   if m <=? 2 then y + 1 else y)%Z.

Definition iso_fields (s : string) : option (Z * Z * Z) :=
  match s with
  | String y1 (String y2 (String y3 (String y4 (String "-"%char
      (String m1 (String m2 (String "-"%char (String d1 (String d2 EmptyString))))))))) =>
      match digit_of y1, digit_of y2, digit_of y3, digit_of y4,
            digit_of m1, digit_of m2, digit_of d1, digit_of d2 with
      | Some a, Some b, Some c, Some d, Some e, Some f, Some g, Some h =>
          Some (1000 * a + 100 * b + 10 * c + d, 10 * e + f, 10 * g + h)%Z
      | _, _, _, _, _, _, _, _ => None
      end
  | _ => None
  end.

Definition iso_Date_parse (s : string) : num :=
  match iso_fields s with
  | Some (y, m, d) =>
      if ((1 <=? m) && (m <=? 12) && (1 <=? d) && (d <=? 31))%Z
      then Fin (IZR (days_from_civil y m d * 86400000))
      else NaN
  | None => NaN
  end.

Definition utc_getFullYear (t : num) : num :=
  match t with
  | Fin r => Fin (IZR (year_from_days (Int_part (r / 86400000))))
  | _ => NaN
  end.

Definition int_toString (a : num) : string :=
  match a with
  | Fin r => NilZero.string_of_int (Z.to_int (Int_part r))
  | PInf => "Infinity"
  | NInf => "-Infinity"
  | NaN => "NaN"
  end.

(* parseFloat restricted to the decimal integers *)
Definition int_parseFloat (s : string) : num :=
  if String.eqb s "" then NaN
  else match NilZero.int_of_string s with
       | Some i => Fin (IZR (Z.of_int i))
       | None => NaN
       end.

(* parseInt restricted to the decimal integers *)
Definition int_parseInt (s : string) : num := int_parseFloat s.

(** ** The calculation store: [DatabaseManager] (database_js.js) *)

Module Database.

(* The argument of [saveCalculation]; a key that is absent or null is
   [None].  [/calculate] passes 1 or 0 for the two flags. *)
Record CalcData : Type := {
  data_crop_type : string;
  data_target_yield : num;
  data_longitude : num;
  data_latitude : num;
  data_sowing_date : option string;
  data_soil_n : option num;
  data_soil_p : option num;
  data_soil_k : option num;
  data_use_custom_soil : num;
  data_organic_matter : option num;
  data_soil_ph : option num;
  data_straw_return_amount : option num;
  data_fertilizer_recommendation : string;
  data_user_session : option string;
  data_user_ip : option string;
  data_user_agent : option string;
  data_data_source : option string;
  data_is_default_data : num
}.

(* an element of [_data.calculations] *)
Record CalcRecord : Type := {
  id : Z;
  timestamp : string;
  crop_type : string;
  target_yield : num;
  longitude : num;
  latitude : num;
  sowing_date : option string;
  soil_n : option num;
  soil_p : option num;
  soil_k : option num;
  use_custom_soil : bool;
  organic_matter : option num;
  soil_ph : option num;
  straw_return_amount : option num;
  fertilizer_recommendation : string;
  user_session : option string;
  user_ip : option string;
  user_agent : option string;
  data_source : string;
  is_default_data : bool
}.

(* an element of [_data.user_sessions] *)
Record UserSession : Type := {
  session_id : string;
  created_at : string;
  last_activity : string;
  ip_address : option string;
  session_user_agent : option string;
  calculation_count : num
}.

(* the fields [_data] and [_nextId] of the manager *)
Record Db : Type := {
  calculations : list CalcRecord;
  user_sessions : list UserSession;
  nextId : Z
}.

(* The clock behind [new Date().toISOString()]: the strings it will
   return, in order. *)
Definition clock : Type := nat -> string.

Definition toISOString (c : clock) : string * clock :=
  (c 0%nat, fun n => c (S n)).

(* the constructor *)
Definition empty : Db :=
  {| calculations := []; user_sessions := []; nextId := 1 |}.

(* [s || null] on a string *)
Definition or_null (o : option string) : option string :=
  if truthy_str o then o else None.

(* An integer rounded to binary64: an integer of magnitude up to 2^53 is a
   binary64 number, a larger one is rounded to 53 significant bits, ties
   to even. *)
Definition binary64_int (z : Z) : Z :=
  let a := Z.abs z in
  if (a <=? 2 ^ 53)%Z then z
  else
    let e := (Z.log2 a - 52)%Z in
    let q := Z.shiftr a e in
    let r := (a - Z.shiftl q e)%Z in
    let half := Z.shiftl 1 (e - 1) in
    let q' :=
      if (r <? half)%Z then q
      else if (half <? r)%Z then (q + 1)%Z
      else if Z.even q then q else (q + 1)%Z in
    (Z.sgn z * Z.shiftl q' e)%Z.

(* [init], when the file exists and parses: the two arrays of the file,
   and the restored counter: Math.max(...ids) + 1, a sum of binary64
   numbers, or 1 for no record *)
Definition init (file_calculations : list CalcRecord)
  (file_sessions : list UserSession) : Db :=
  let ids := map id file_calculations in
  {| calculations := file_calculations;
     user_sessions := file_sessions;
     nextId := match ids with
               | [] => 1
               | i :: rest => binary64_int (fold_left Z.max rest i + 1)
               end |}.

(* [user_sessions.find(s => s.id === sessionId)] and the update of the
   session found: its last activity, and its count (count || 0) + 1 *)
Fixpoint touch_session (sessionId now : string) (l : list UserSession)
  : option (list UserSession) :=
  match l with
  | [] => None
  | s :: rest =>
      if String.eqb (session_id s) sessionId then
        Some ({| session_id := session_id s;
                 created_at := created_at s;
                 last_activity := now;
                 ip_address := ip_address s;
                 session_user_agent := session_user_agent s;
                 calculation_count := ((calculation_count s ||n 0) + 1)%num |}
              :: rest)
      else option_map (cons s) (touch_session sessionId now rest)
  end.

Definition _updateUserSession (sessionId ipAddress userAgent : option string)
  (db : Db) (c : clock) : Db * clock :=
  if negb (truthy_str sessionId) then (db, c)
  else
    let sid := nullish sessionId ""%string in
    match touch_session sid (fst (toISOString c)) (user_sessions db) with
    | Some sessions =>
        ({| calculations := calculations db;
            user_sessions := sessions;
            nextId := nextId db |}, snd (toISOString c))
    | None =>
        let '(created, c) := toISOString c in
        let '(last, c) := toISOString c in
        ({| calculations := calculations db;
            user_sessions :=
              user_sessions db
              ++ [{| session_id := sid;
                     created_at := created;
                     last_activity := last;
                     ip_address := or_null ipAddress;
                     session_user_agent := or_null userAgent;
                     calculation_count := 1 |}];
            nextId := nextId db |}, c)
    end.

(* The try block; for a record of data none of its statements throws, so
   the id is returned.  The counter is incremented as an integer, which is
   what binary64 does below 2^53. *)
Definition saveCalculation (data : CalcData) (db : Db) (c : clock)
  : Z * Db * clock :=
  let record_id := nextId db in
  let '(now, c) := toISOString c in
  let record := {|
    id := record_id;
    timestamp := now;
    crop_type := data_crop_type data;
    target_yield := data_target_yield data;
    longitude := data_longitude data;
    latitude := data_latitude data;
    sowing_date := or_null (data_sowing_date data);
    soil_n := data_soil_n data;
    soil_p := data_soil_p data;
    soil_k := data_soil_k data;
    use_custom_soil := truthy (data_use_custom_soil data);
    organic_matter := data_organic_matter data;
    soil_ph := data_soil_ph data;
    straw_return_amount := data_straw_return_amount data;
    fertilizer_recommendation := data_fertilizer_recommendation data;
    user_session := or_null (data_user_session data);
    user_ip := or_null (data_user_ip data);
    user_agent := or_null (data_user_agent data);
    data_source :=
      if truthy_str (data_data_source data)
      then nullish (data_data_source data) ""%string
      else "online"%string;
    is_default_data := truthy (data_is_default_data data)
  |} in
  let db := {| calculations := calculations db ++ [record];
               user_sessions := user_sessions db;
               nextId := (nextId db + 1)%Z |} in
  let '(db, c) :=
    _updateUserSession (data_user_session data) (data_user_ip data)
      (data_user_agent data) db c in
  (id record, db, c).

(* [calculations.find(r => r.id === id) || null] *)
Definition getCalculationById (i : Z) (db : Db) : option CalcRecord :=
  find (fun r => (id r =? i)%Z) (calculations db).

(* Array.prototype.slice on integer arguments: a negative index counts
   from the end *)
Definition slice {A} (l : list A) (start end_ : Z) : list A :=
  let len := Z.of_nat (length l) in
  let k := if (start <? 0)%Z then Z.max (len + start) 0 else Z.min start len in
  let final := if (end_ <? 0)%Z then Z.max (len + end_) 0 else Z.min end_ len in
  firstn (Z.to_nat (final - k)) (skipn (Z.to_nat k) l).

Definition option_string_eqb (a b : option string) : bool :=
  match a, b with
  | Some x, Some y => String.eqb x y
  | None, None => true
  | _, _ => false
  end.

Definition getRecentCalculations (limit offset : Z) (userSession : option string)
  (db : Db) : list CalcRecord :=
  let store := List.rev (calculations db) in
  let store :=
    if truthy_str userSession
    then filter (fun r => option_string_eqb (user_session r) userSession) store
    else store in
  slice store offset (offset + limit).

End Database.

(* the store after a sequence of calls of [saveCalculation] *)
Fixpoint save_all (l : list Database.CalcData) (db : Database.Db)
  (c : Database.clock) : Database.Db * Database.clock :=
  match l with
  | [] => (db, c)
  | data :: rest =>
      let '(_, db, c) := Database.saveCalculation data db c in
      save_all rest db c
  end.

(* the ids n, n + 1, ... of [len] records *)
Fixpoint ids_from (n : Z) (len : nat) : list Z :=
  match len with
  | O => []
  | S len => n :: ids_from (n + 1) len
  end.

(* the number of stored calculations of a session *)
Definition calculations_of (sid : string) (db : Database.Db) : nat :=
  length (filter (fun r => Database.option_string_eqb (Database.user_session r)
                             (Some sid))
                 (Database.calculations db)).

(* an integer that binary64 counts exactly: n + 1 and n - 1 are not
   rounded *)
Definition safe_integer (z : Z) : Prop := (- 2 ^ 53 < z < 2 ^ 53)%Z.

(* every stored id is below the counter *)
Definition ids_below (db : Database.Db) : Prop :=
  Forall (fun r => (Database.id r < Database.nextId db)%Z)
         (Database.calculations db).

(* the sessions are consistent with the calculations: one entry per
   session id, which counts the stored calculations of that session, and
   an entry for every session that has a stored calculation *)
Definition sessions_consistent (db : Database.Db) : Prop :=
  NoDup (map Database.session_id (Database.user_sessions db))
  /\ (forall s, In s (Database.user_sessions db) ->
        Database.calculation_count s
        = Fin (INR (calculations_of (Database.session_id s) db)))
  /\ (forall r sid, In r (Database.calculations db) ->
        Database.user_session r = Some sid ->
        In sid (map Database.session_id (Database.user_sessions db))).

(* [_updateUserSession] on the session with the given id: its last
   activity and its count are updated, every other session is kept *)
Definition bump (sid now : string) (s : Database.UserSession) : Database.UserSession :=
  if String.eqb (Database.session_id s) sid then
    {| Database.session_id := Database.session_id s;
       Database.created_at := Database.created_at s;
       Database.last_activity := now;
       Database.ip_address := Database.ip_address s;
       Database.session_user_agent := Database.session_user_agent s;
       Database.calculation_count :=
         ((Database.calculation_count s ||n 0) + 1)%num |}
  else s.

(* a file with one record, whose id is 2^53 *)
Definition file_at_2_53 : list Database.CalcRecord := [{|
  Database.id := 2 ^ 53;
  Database.timestamp := "2026-06-17T00:00:00.000Z";
  Database.crop_type := "水稻";
  Database.target_yield := 500;
  Database.longitude := 114.305;
  Database.latitude := 30.592;
  Database.sowing_date := None;
  Database.soil_n := None;
  Database.soil_p := None;
  Database.soil_k := None;
  Database.use_custom_soil := false;
  Database.organic_matter := None;
  Database.soil_ph := None;
  Database.straw_return_amount := None;
  Database.fertilizer_recommendation := "{}";
  Database.user_session := None;
  Database.user_ip := None;
  Database.user_agent := None;
  Database.data_source := "online";
  Database.is_default_data := true
|}].

(* a record of calculation data and a clock, for the instances *)
Definition sample_calc (session : option string) : Database.CalcData := {|
  Database.data_crop_type := "水稻";
  Database.data_target_yield := 500;
  Database.data_longitude := 114.305;
  Database.data_latitude := 30.592;
  Database.data_sowing_date := Some "2026-06-17"%string;
  Database.data_soil_n := None;
  Database.data_soil_p := None;
  Database.data_soil_k := None;
  Database.data_use_custom_soil := 0;
  Database.data_organic_matter := Some (Fin 20.7);
  Database.data_soil_ph := Some (Fin 8.18);
  Database.data_straw_return_amount := Some (Fin 600);
  Database.data_fertilizer_recommendation := "{}";
  Database.data_user_session := session;
  Database.data_user_ip := None;
  Database.data_user_agent := Some ""%string;
  Database.data_data_source := Some "online"%string;
  Database.data_is_default_data := 1
|}.

Definition sample_clock : Database.clock :=
  fun _ => "2026-06-17T00:00:00.000Z"%string.

(** ** The split-ratio adjuster, the recommendation, the request handler
       and the timing advisor *)

(* the three fractions: base, then tiller (rice) or jointing (wheat), then
   panicle (rice) or booting (wheat) *)
Record Ratios : Type := {
  base_ratio : num;
  mid_ratio : num;
  late_ratio : num
}.

(* the result of a try block *)
Inductive outcome (A : Type) : Type :=
| Returned (a : A)
| Thrown.
Arguments Returned {A} a.
Arguments Thrown {A}.

Definition try_catch {A} (body : outcome A) (handler : A) : A :=
  match body with
  | Returned a => a
  | Thrown => handler
  end.

Record InputParams : Type := {
  target_yield : option num;
  custom_soil_data : option CustomSoil;
  ip_lon : option num;
  ip_lat : option num;
  use_custom_soil : bool;
  organic_matter : option num;
  soil_ph : option num;
  straw_return_amount : option num;
  sowing_date : option string;
  temperature_forecast : option num
}.

(* the locals of steps 1 to 6 of [calculateFertilizerRecommendation] *)
Record Balance : Type := {
  nReq : num; pReq : num; kReq : num;
  nSoil : num; pSoil : num; kSoil : num;
  soilImpact : SoilImpact;
  nStraw : num; pStraw : num; kStraw : num;
  nAdditional : num;
  nEff : num; pEfficiency : num; kEff : num;
  nFertilizer : num; pFertilizer : num; kFertilizer : num
}.

(* the entries of the fertilizer-usage and nutrient-usage objects (kg per
   mu); rice: urea at base, tillering and panicle stage, superphosphate,
   potassium chloride at base and panicle stage *)
Record RiceUsage : Type := {
  urea_base : num;
  urea_tiller : num;
  urea_panicle : num;
  superphosphate_base : num;
  kcl_base : num;
  kcl_panicle : num;
  N_base : num;
  N_tiller : num;
  N_panicle : num;
  P2O5_total : num;
  K2O_total : num
}.

(* wheat: formula fertilizer at base, urea at jointing, superphosphate,
   potassium chloride *)
Record WheatUsage : Type := {
  formula_base : num;
  urea_jointing : num;
  w_superphosphate_base : num;
  w_kcl_base : num;
  w_N_base : num;
  w_N_jointing : num;
  w_P2O5_total : num;
  w_K2O_total : num
}.

Inductive Plan : Type :=
| RicePlan (u : RiceUsage)
| WheatPlan (u : WheatUsage).

(* the recommendation object; the fixed advice texts per stage are left
   out *)
Record Recommendation : Type := {
  plan : Plan;
  nitrogen_split_percent : num * num * num;
  rec_target_yield : num;
  rec_demand : num * num * num;
  rec_soil_supply : num * num * num;
  rec_straw_supply : num * num * num;
  rec_soil_content : num * num * num;
  rec_levels : level * level * level;
  rec_sources : source * source * source;
  rec_efficiency : num * num * num;
  rec_sowing_date : string;
  rec_sowing_date_start : option string;
  rec_sowing_date_end : option string;
  rec_organic_matter : num;
  rec_soil_ph : num;
  rec_soil_impact : SoilImpact;
  rec_is_default : bool;
  rec_use_custom : bool;
  rec_crop : crop
}.

(* null in arithmetic converts to 0 *)
Definition to_number (o : option num) : num := nullish o (Fin 0).

(* parseFloat of a number or of undefined *)
Definition parseFloat_opt (o : option num) : num := nullish o NaN.

Definition other_crop (c : crop) : crop :=
  match c with rice => wheat | wheat => rice end.

Section Host.

(* [Date_parse s] is the time value of [new Date(s)] (NaN for an Invalid
   Date), [Date_getFullYear t] the result of getFullYear() on a date with
   time value [t], [Number_toString] the conversion used by the template
   literal. *)
Variable Date_parse : string -> num.
Variable Date_getFullYear : num -> num.
Variable Number_toString : num -> string.

(* The try block.  For a string and one of the two crops none of its
   statements throws: an unparseable string gives an Invalid Date, whose
   time value and year are NaN. *)
Definition adjustFertilizerRatio_try (sowingDate : string) (cropType : crop)
  (tempForecast : num) : outcome Ratios :=
  let actualDate := Date_parse sowingDate in
  let year := Date_getFullYear actualDate in
  let normalDateStr := normal_sowing_date (defaultParams cropType) in
  let normalDate := Date_parse (Number_toString year ++ "-" ++ normalDateStr) in
  let daysDiff := Math_round ((actualDate - normalDate) / 86400000) in
  match cropType with
  | rice =>
      let '(base, tiller, panicle) :=
        if (daysDiff <? -7)%num then (Fin 0.40, Fin 0.25, Fin 0.35)
        else if (daysDiff >? 7)%num then (Fin 0.55, Fin 0.30, Fin 0.15)
        else (Fin 0.50, Fin 0.25, Fin 0.25) in
      let '(base, panicle) :=
        if (tempForecast <? 20)%num then (base + 0.05, panicle - 0.05)%num
        else (base, panicle) in
      Returned {| base_ratio := Math_max 0 (Math_min 1 base);
                  mid_ratio := Math_max 0 (Math_min 1 tiller);
                  late_ratio := Math_max 0 (Math_min 1 panicle) |}
  | wheat =>
      let '(base, joint, boot) :=
        if (daysDiff <? -7)%num then (Fin 0.60, Fin 0.25, Fin 0.15)
        else if (daysDiff >? 7)%num then (Fin 0.70, Fin 0.20, Fin 0.10)
        else (Fin 0.65, Fin 0.25, Fin 0.10) in
      let '(base, boot) :=
        if (tempForecast <? 10)%num then (base + 0.05, boot - 0.05)%num
        else (base, boot) in
      Returned {| base_ratio := Math_max 0 (Math_min 1 base);
                  mid_ratio := Math_max 0 (Math_min 1 joint);
                  late_ratio := Math_max 0 (Math_min 1 boot) |}
  end.

(* the catch block *)
Definition adjustFertilizerRatio_catch (cropType : crop) : Ratios :=
  match cropType with
  | rice => {| base_ratio := 0.50; mid_ratio := 0.25; late_ratio := 0.25 |}
  | wheat => {| base_ratio := 0.65; mid_ratio := 0.25; late_ratio := 0.10 |}
  end.

Definition adjustFertilizerRatio (sowingDate : string) (cropType : crop)
  (tempForecast : num) : Ratios :=
  try_catch (adjustFertilizerRatio_try sowingDate cropType tempForecast)
            (adjustFertilizerRatio_catch cropType).

(* The arithmetic of the try block in binary64, on the day difference.
   Math.max and Math.min return NaN when an argument is NaN. *)
Definition f64_min (a b : float) : float :=
  if (is_nan a || is_nan b)%bool then nan
  else if (b <? a)%float then b else a.

Definition f64_max (a b : float) : float :=
  if (is_nan a || is_nan b)%bool then nan
  else if (a <? b)%float then b else a.

Definition ratios_binary64 (daysDiff tempForecast : float) (cropType : crop)
  : float * float * float :=
  match cropType with
  | rice =>
      let '(base, tiller, panicle) :=
        if (daysDiff <? -7)%float then (0.40, 0.25, 0.35)%float
        else if (7 <? daysDiff)%float then (0.55, 0.30, 0.15)%float
        else (0.50, 0.25, 0.25)%float in
      let '(base, panicle) :=
        if (tempForecast <? 20)%float
        then (base + 0.05, panicle - 0.05)%float
        else (base, panicle) in
      (f64_max 0 (f64_min 1 base), f64_max 0 (f64_min 1 tiller),
       f64_max 0 (f64_min 1 panicle))
  | wheat =>
      let '(base, joint, boot) :=
        if (daysDiff <? -7)%float then (0.60, 0.25, 0.15)%float
        else if (7 <? daysDiff)%float then (0.70, 0.20, 0.10)%float
        else (0.65, 0.25, 0.10)%float in
      let '(base, boot) :=
        if (tempForecast <? 10)%float
        then (base + 0.05, boot - 0.05)%float
        else (base, boot) in
      (f64_max 0 (f64_min 1 base), f64_max 0 (f64_min 1 joint),
       f64_max 0 (f64_min 1 boot))
  end.

(* The required nitrogen mass for rice in binary64: demand, soil supply
   with the rice correction, and the clamped quotient of step 6. *)
Definition rice_nitrogen_binary64
  (targetYield soilN organicMatter nStraw nEff : float) : float :=
  let nReq := ((targetYield / 100) * 2.2)%float in
  let nCorr := ((3.2164 + 4799.9239 / soilN) / 100)%float in
  let nSupply :=
    (soilN * 0.15 * nCorr * (1 + 0.015 * (organicMatter - 20)))%float in
  f64_max 0 ((nReq - nSupply - nStraw) / nEff)%float.

(* steps 1 to 6: demand, soil supply, straw supply, efficiencies and the
   required fertilizer nutrient masses *)
Definition nutrientBalance (targetYield : num) (soil : SoilData)
  (organicMatter soilPh strawAmount : num) (strawSourceType cropType : crop)
  (effGeo : option num * option num * option num) : Balance :=
  let '(nReq, pReq, kReq) := calculateNutrientRequirement targetYield cropType in
  let '(nSoil, pSoil, kSoil, soilImpact) :=
    calculateSoilSupply (to_number (soil_N soil)) (to_number (soil_P soil))
      (to_number (soil_K soil)) organicMatter soilPh cropType in
  let '(nStraw, pStraw, kStraw, nAdditional) :=
    calculateStrawSupply strawAmount strawSourceType in
  let phImpactOnP := ph_adjustment soilPh in
  let '(nEffGeo, pEffGeo, kEffGeo) := effGeo in
  let cropP := defaultParams cropType in
  let nEff := nEffGeo ?? N_fertilizer_efficiency cropP in
  let pEff := pEffGeo ?? P_fertilizer_efficiency cropP in
  let kEff := kEffGeo ?? K_fertilizer_efficiency cropP in
  let pEfficiency := (pEff * phImpactOnP)%num in
  {| nReq := nReq; pReq := pReq; kReq := kReq;
     nSoil := nSoil; pSoil := pSoil; kSoil := kSoil;
     soilImpact := soilImpact;
     nStraw := nStraw; pStraw := pStraw; kStraw := kStraw;
     nAdditional := nAdditional;
     nEff := nEff; pEfficiency := pEfficiency; kEff := kEff;
     nFertilizer := Math_max 0 ((nReq - nSoil - nStraw) / nEff);
     pFertilizer := Math_max 0 ((pReq - pSoil - pStraw) / pEfficiency);
     kFertilizer := Math_max 0 ((kReq - kSoil - kStraw) / kEff) |}.

(* the soil record of the three branches of the recommendation *)
Definition resolveSoil (env : Env) (inputParams : InputParams) (cropType : crop)
  (s : rng) : SoilData * rng :=
  let customSoilData := custom_soil_data inputParams in
  let lon := num_or (parseFloat_opt (ip_lon inputParams)) 114.305 in
  let lat := num_or (parseFloat_opt (ip_lat inputParams)) 30.592 in
  if is_some (ip_lon inputParams) && is_some (ip_lat inputParams) then
    getSoilNutrientsWithCustom env lon lat customSoilData s
  else
    match customSoilData, use_custom_soil inputParams with
    | Some c, true =>
        ({| soil_N := Some (custom_N c ?? Fin 89.2);
            soil_P := Some (custom_P c ?? Fin 23.8);
            soil_K := Some (custom_K c ?? Fin 105.0);
            level_AN := getNutrientLevelFromValue (custom_N c ?? Fin 89.2) AN;
            level_AP := getNutrientLevelFromValue (custom_P c ?? Fin 23.8) AP;
            level_AK := getNutrientLevelFromValue (custom_K c ?? Fin 105.0) AK;
            source_AN := SRC_manual; source_AP := SRC_manual;
            source_AK := SRC_manual;
            is_default := true; use_custom := true |}, s)
    | _, _ =>
        let dN : num := match cropType with rice => 89.2 | wheat => 89 end in
        let dP : num := match cropType with rice => 23.83 | wheat => 23 end in
        let dK : num := match cropType with rice => 105 | wheat => 90 end in
        ({| soil_N := Some dN; soil_P := Some dP; soil_K := Some dK;
            level_AN := L_default; level_AP := L_default; level_AK := L_default;
            source_AN := SRC_default; source_AP := SRC_default;
            source_AK := SRC_default;
            is_default := true; use_custom := false |}, s)
    end.

(* [!s] on a string or null *)
Definition falsy_str (o : option string) : bool := negb (truthy_str o).

(* the sowing date, and the recommended sowing window *)
Definition resolveSowingDate (env : Env) (inputParams : InputParams)
  (cropType : crop) (lon lat : num)
  : string * option string * option string :=
  let sowingDate := sowing_date inputParams in
  let '(sowingDate, sowingDateStart, sowingDateEnd) :=
    if is_some (ip_lon inputParams) && is_some (ip_lat inputParams) then
      match getSowingDate env lon lat cropType with
      | Some (start, end_) =>
          (if falsy_str sowingDate then start else sowingDate, start, end_)
      | None => (sowingDate, None, None)
      end
    else (sowingDate, None, None) in
  if falsy_str sowingDate then
    let d : string :=
      (match cropType with rice => "2026-06-17" | wheat => "2026-11-01" end)%string in
    (d,
     if falsy_str sowingDateStart then Some d else sowingDateStart,
     if falsy_str sowingDateEnd then Some d else sowingDateEnd)
  else (nullish sowingDate ""%string, sowingDateStart, sowingDateEnd).

(* step 8: the amounts per stage *)
Definition ricePlan (b : Balance) (ratioParams : Ratios) : RiceUsage :=
  let nBase := (nFertilizer b * (base_ratio ratioParams ||n 0.50) + nAdditional b)%num in
  let nTiller := (nFertilizer b * (mid_ratio ratioParams ||n 0.25))%num in
  let nPanicle := (nFertilizer b * (late_ratio ratioParams ||n 0.25))%num in
  {| urea_base := round1 (nBase / urea_N_content);
     urea_tiller := round1 (nTiller / urea_N_content);
     urea_panicle := round1 (nPanicle / urea_N_content);
     superphosphate_base := round1 (pFertilizer b / superphosphate_P_content);
     kcl_base := round1 (kFertilizer b * 0.6 / potassium_chloride_K_content);
     kcl_panicle := round1 (kFertilizer b * 0.4 / potassium_chloride_K_content);
     N_base := round1 nBase;
     N_tiller := round1 nTiller;
     N_panicle := round1 nPanicle;
     P2O5_total := round1 (pFertilizer b);
     K2O_total := round1 (kFertilizer b) |}.

Definition wheatPlan (targetYield : num) : WheatUsage :=
  let '(formulaKg, ureaTilleringKg) := getWheatFertilizerByYield targetYield in
  let '(fr0, fr1, fr2) := formula_ratio in
  let formulaN := (formulaKg * (fr0 / 100))%num in
  let formulaP := (formulaKg * (fr1 / 100))%num in
  let formulaK := (formulaKg * (fr2 / 100))%num in
  {| formula_base := round1 formulaKg;
     urea_jointing := round1 ureaTilleringKg;
     w_superphosphate_base := round1 (formulaP / superphosphate_P_content);
     w_kcl_base := round1 (formulaK / potassium_chloride_K_content);
     w_N_base := round1 formulaN;
     w_N_jointing := round1 (ureaTilleringKg * urea_N_content);
     w_P2O5_total := round1 formulaP;
     w_K2O_total := round1 formulaK |}.

(* Math.round(x * 1000) / 10 *)
Definition percent1 (x : num) : num := (Math_round (x * 1000) / 10)%num.

(* the inputs of the balance as the recommendation resolves them *)
Definition recommendationBalance (env : Env) (inputParams : InputParams)
  (cropType : crop) (strawSourceType : option crop) (soilData : SoilData)
  : Balance :=
  let targetYield := num_or (nullish (target_yield inputParams) NaN) 500 in
  let lon := num_or (parseFloat_opt (ip_lon inputParams)) 114.305 in
  let lat := num_or (parseFloat_opt (ip_lat inputParams)) 30.592 in
  let organicMatter := organic_matter inputParams ?? Fin 20.7 in
  let soilPh := soil_ph inputParams ?? Fin 8.18 in
  let strawAmount :=
    straw_return_amount inputParams
      ?? (match cropType with rice => Fin 600 | wheat => Fin 700 end) in
  let strawSourceType := strawSourceType ?? other_crop cropType in
  let effGeo :=
    if is_some (ip_lon inputParams) && is_some (ip_lat inputParams)
    then getFertilizerEfficiency env lon lat cropType
    else (None, None, None) in
  nutrientBalance targetYield soilData organicMatter soilPh strawAmount
    strawSourceType cropType effGeo.

Definition calculateFertilizerRecommendation (env : Env)
  (inputParams : InputParams) (cropType : crop) (strawSourceType : option crop)
  (s : rng) : Recommendation * rng :=
  let targetYield := num_or (nullish (target_yield inputParams) NaN) 500 in
  let lon := num_or (parseFloat_opt (ip_lon inputParams)) 114.305 in
  let lat := num_or (parseFloat_opt (ip_lat inputParams)) 30.592 in
  let '(soilData, s') := resolveSoil env inputParams cropType s in
  let organicMatter := organic_matter inputParams ?? Fin 20.7 in
  let soilPh := soil_ph inputParams ?? Fin 8.18 in
  let '(sowingDate, sowingDateStart, sowingDateEnd) :=
    resolveSowingDate env inputParams cropType lon lat in
  let tempForecast :=
    temperature_forecast inputParams
      ?? (match cropType with rice => Fin 22.5 | wheat => Fin 12.0 end) in
  let b := recommendationBalance env inputParams cropType strawSourceType soilData in
  let ratioParams := adjustFertilizerRatio sowingDate cropType tempForecast in
  let recommendation_plan :=
    match cropType with
    | rice => RicePlan (ricePlan b ratioParams)
    | wheat => WheatPlan (wheatPlan targetYield)
    end in
  let split :=
    match cropType with
    | rice => (percent1 (base_ratio ratioParams ||n 0.50),
               percent1 (mid_ratio ratioParams ||n 0.25),
               percent1 (late_ratio ratioParams ||n 0.25))%num
    | wheat => (percent1 (base_ratio ratioParams ||n 0.65),
                percent1 (mid_ratio ratioParams ||n 0.25),
                percent1 (late_ratio ratioParams ||n 0.10))%num
    end in
  ({| plan := recommendation_plan;
      nitrogen_split_percent := split;
      rec_target_yield := targetYield;
      rec_demand := (round1 (nReq b), round1 (pReq b), round1 (kReq b));
      rec_soil_supply := (round1 (nSoil b), round1 (pSoil b), round1 (kSoil b));
      rec_straw_supply := (round1 (nStraw b), round1 (pStraw b), round1 (kStraw b));
      rec_soil_content := (round1 (to_number (soil_N soilData)),
                           round1 (to_number (soil_P soilData)),
                           round1 (to_number (soil_K soilData)));
      rec_levels := (level_AN soilData, level_AP soilData, level_AK soilData);
      rec_sources := (source_AN soilData, source_AP soilData, source_AK soilData);
      rec_efficiency := (percent1 (nEff b), percent1 (pEfficiency b),
                         percent1 (kEff b));
      rec_sowing_date := sowingDate;
      rec_sowing_date_start := sowingDateStart;
      rec_sowing_date_end := sowingDateEnd;
      rec_organic_matter := organicMatter;
      rec_soil_ph := soilPh;
      rec_soil_impact := soilImpact b;
      rec_is_default := is_default soilData;
      rec_use_custom := use_custom soilData;
      rec_crop := cropType |}, s').

(* every fertilizer mass and nutrient mass of a recommendation *)
Definition masses (r : Recommendation) : list num :=
  match plan r with
  | RicePlan u =>
      [urea_base u; urea_tiller u; urea_panicle u; superphosphate_base u;
       kcl_base u; kcl_panicle u;
       N_base u; N_tiller u; N_panicle u; P2O5_total u; K2O_total u]
  | WheatPlan u =>
      [formula_base u; urea_jointing u; w_superphosphate_base u; w_kcl_base u;
       w_N_base u; w_N_jointing u; w_P2O5_total u; w_K2O_total u]
  end.

(** *** The handler of [POST /calculate] *)

(* a field of the request body; an absent key reads as null *)
Inductive json : Type :=
| JNull
| JNumber (n : num)
| JString (s : string)
| JBool (b : bool).

(* the builtin [parseFloat] on a string *)
Variable parseFloat_string : string -> num.

Definition parseFloat (v : json) : num :=
  match v with
  | JNumber n => n
  | JString s => parseFloat_string s
  | JNull | JBool _ => NaN
  end.

Definition truthy_json (v : json) : bool :=
  match v with
  | JNull => false
  | JNumber n => truthy n
  | JString s => negb (String.eqb s "")
  | JBool b => b
  end.

Definition is_null (v : json) : bool :=
  match v with JNull => true | _ => false end.

Record RawCustomSoil : Type := {
  raw_N : json;
  raw_P : json;
  raw_K : json
}.

(* req.body: crop, yield, date, lon, lat, custom_soil_data, use_custom_soil *)
Record Request : Type := {
  rq_crop : json;
  rq_yield : json;
  rq_date : option string;
  rq_lon : json;
  rq_lat : json;
  rq_custom_soil_data : option RawCustomSoil;
  rq_use_custom_soil : bool
}.

(* res.status(400).json({ error }) or res.json(response).  Of the
   response only the recommendation it is built from is kept: the guidance
   texts, the record id and the session cookie are left out. *)
Inductive Response : Type :=
| Rejected (status : Z) (error : string)
| Computed (r : Recommendation).

(* what a request makes the server do besides answering *)
Inductive event : Type :=
| EvRecommendation
| EvSaveCalculation.

(* ['水稻', '小麦'].includes(cropType) *)
Definition valid_crop (v : json) : bool :=
  match v with
  | JString s => String.eqb s "水稻" || String.eqb s "小麦"
  | _ => false
  end.

(* the loop over the keys N, P, K: a value that is present is parsed, and
   one that does not parse becomes null *)
Definition parse_custom_value (v : json) : option num :=
  if is_null v then None
  else match parseFloat v with
       | NaN => None
       | n => Some n
       end.

Definition parse_custom (c : option RawCustomSoil) : CustomSoil :=
  match c with
  | Some c => {| custom_N := parse_custom_value (raw_N c);
                 custom_P := parse_custom_value (raw_P c);
                 custom_K := parse_custom_value (raw_K c) |}
  | None => {| custom_N := None; custom_P := None; custom_K := None |}
  end.

(* [v != null && (v < lo || v > hi)] *)
Definition out_of_range (v : option num) (lo hi : num) : bool :=
  match v with
  | Some x => ((x <? lo) || (x >? hi))%num
  | None => false
  end.

Definition in_window (lon lat : num) : bool :=
  ((lon >=? 110) && (lon <=? 122) && (lat >=? 28) && (lat <=? 33))%num.

Definition calculate_handler (env : Env) (body : option Request) (s : rng)
  : Response * list event * rng :=
  match body with
  | None => (Rejected 400 "未收到数据", [], s)
  | Some data =>
      let cropType := rq_crop data in
      let sowingDate := rq_date data in
      let customSoilData := parse_custom (rq_custom_soil_data data) in
      let useCustomSoil := rq_use_custom_soil data in
      if negb (truthy_json cropType) || negb (valid_crop cropType) then
        (* the message of the source puts the two crop names in quotes *)
        (Rejected 400 "作物类型必须是水稻或小麦", [], s)
      else if negb (truthy_json (rq_yield data)) then
        (Rejected 400 "缺少目标产量参数", [], s)
      else if negb (is_some sowingDate)
              && (is_null (rq_lon data) || is_null (rq_lat data)) then
        (Rejected 400 "缺少播种日期参数或经纬度参数", [], s)
      else
        let targetYield := parseFloat (rq_yield data) in
        let lon := parseFloat (rq_lon data) in
        let lat := parseFloat (rq_lat data) in
        if ((targetYield <=? 0) || (targetYield >? 1000))%num then
          (Rejected 400 "产量必须在1-1000之间", [], s)
        else if negb (in_window lon lat) then
          (Rejected 400 "经纬度超出长江中下游地区范围", [], s)
        else if out_of_range (custom_N customSoilData) 0 300 then
          (Rejected 400 "碱解氮(N)值必须在0-300之间", [], s)
        else if out_of_range (custom_P customSoilData) 0 100 then
          (Rejected 400 "有效磷(P)值必须在0-100之间", [], s)
        else if out_of_range (custom_K customSoilData) 0 500 then
          (Rejected 400 "有效钾(K)值必须在0-500之间", [], s)
        else
          let isRice :=
            match cropType with
            | JString c => String.eqb c "水稻"
            | _ => false
            end in
          let params := {|
            target_yield := Some targetYield;
            sowing_date := sowingDate;
            ip_lon := Some lon;
            ip_lat := Some lat;
            organic_matter := Some (Fin 20.7);
            soil_ph := Some (Fin 8.18);
            straw_return_amount := Some (if isRice then Fin 600 else Fin 700);
            temperature_forecast := Some (if isRice then Fin 22.5 else Fin 12.0);
            custom_soil_data := if useCustomSoil then Some customSoilData else None;
            use_custom_soil := useCustomSoil |} in
          let internalCrop := if isRice then rice else wheat in
          let strawSourceType := other_crop internalCrop in
          let '(recommendation, s') :=
            calculateFertilizerRecommendation env params internalCrop
              (Some strawSourceType) s in
          (Computed recommendation, [EvRecommendation; EvSaveCalculation], s')
  end.

(** *** The timing advisor *)

Record GrowthStage : Type := {
  stage : string;
  description : string
}.

Definition mkStage (st d : string) : GrowthStage :=
  {| stage := st; description := d |}.

(* [now] is the value of Date.now().  The try block does not throw for a
   string: an unparseable one makes [days] NaN, and every comparison with
   it is false. *)
Definition calculateGrowthStage_try (now : num) (cropType : string)
  (sowingDate : string) : outcome GrowthStage :=
  let sowing := Date_parse sowingDate in
  let days := Math_round ((now - sowing) / 86400000) in
  if String.eqb cropType "水稻" then
    if (days <? 0)%num then Returned (mkStage "播种前" "尚未播种")
    else if (days <? 7)%num then Returned (mkStage "播种期" "播种至出苗")
    else if (days <? 21)%num then Returned (mkStage "幼苗期" "秧苗生长")
    else if (days <? 45)%num then Returned (mkStage "分蘖期" "分蘖生长")
    else if (days <? 65)%num then Returned (mkStage "拔节期" "茎秆拔节")
    else if (days <? 85)%num then Returned (mkStage "孕穗期" "穗分化")
    else if (days <? 105)%num then Returned (mkStage "抽穗扬花期" "抽穗开花")
    else Returned (mkStage "成熟期" "灌浆成熟")
  else
    if (days <? 0)%num then Returned (mkStage "播种前" "尚未播种")
    else if (days <? 15)%num then Returned (mkStage "播种期" "播种出苗")
    else if (days <? 60)%num then Returned (mkStage "分蘖期" "分蘖生长")
    else if (days <? 120)%num then Returned (mkStage "越冬期" "冬季休眠")
    else if (days <? 150)%num then Returned (mkStage "返青期" "春季返青")
    else if (days <? 180)%num then Returned (mkStage "拔节期" "茎秆拔节")
    else if (days <? 210)%num then Returned (mkStage "孕穗期" "穗分化")
    else if (days <? 240)%num then Returned (mkStage "抽穗扬花期" "抽穗开花")
    else Returned (mkStage "成熟期" "灌浆成熟").

Definition calculateGrowthStage (now : num) (cropType : string)
  (sowingDate : option string) : GrowthStage :=
  if falsy_str sowingDate then mkStage "播种期" "请提供播种日期"
  else
    try_catch (calculateGrowthStage_try now cropType (nullish sowingDate ""%string))
              (mkStage "未知" "日期解析错误").

(* the fields of the weather analysis that the advisor reads *)
Record WeatherAnalysis : Type := {
  suitable : bool;
  warning : option string
}.

Record TimingAdvice : Type := {
  can_fertilize : bool;
  best_timing : list string;
  general_advice : list string;
  weather_warning : option string
}.

(* s.includes(pat) *)
Definition includes (s pat : string) : bool := is_some (String.index 0 pat s).

Definition string_in (s : string) (l : list string) : bool :=
  existsb (String.eqb s) l.

Definition generateTimingAdvice (cropType : string) (growthStage : GrowthStage)
  (weather : WeatherAnalysis) : TimingAdvice :=
  let stage := stage growthStage in
  let suitable := suitable weather in
  let can := suitable && negb (string_in stage ["成熟期"; "收获期"]%string) in
  let '(can, best, general) :=
    if String.eqb cropType "水稻" then
      if String.eqb stage "播种期" then
        (can, ["基肥：播种前结合整地施入"]%string, ["基肥占总施肥量40-50%"]%string)
      else if String.eqb stage "分蘖期" then
        (can, ["分蘖肥：移栽后7-10天施用"]%string, [])
      else if string_in stage ["拔节期"; "孕穗期"]%string then
        (can, ["穗肥：幼穗分化初期施用"]%string, [])
      else if String.eqb stage "成熟期" then
        (false, [], ["已进入成熟期，不再建议施肥"]%string)
      else (can, [], [])
    else
      if String.eqb stage "播种期" then
        (can, ["基肥：播种前结合整地施入"]%string, ["基肥占总施肥量60-70%"]%string)
      else if String.eqb stage "越冬期" then
        (false, [], ["冬季低温，不建议施肥"]%string)
      else if String.eqb stage "返青期" then
        (can, ["返青肥：春季返青后施用"]%string, [])
      else if String.eqb stage "拔节期" then
        (can, ["拔节肥：起身期施用"]%string, [])
      else if String.eqb stage "成熟期" then (false, [], [])
      else (can, [], []) in
  match warning weather with
  | Some w =>
      if negb (String.eqb w "") then
        let general :=
          if includes w "降水"
          then general ++ ["建议深施或水肥一体化，避免雨前撒施"]%string
          else general in
        let general :=
          if includes w "高温"
          then general ++ ["建议傍晚施肥，减少挥发"]%string
          else general in
        {| can_fertilize := can; best_timing := best;
           general_advice := general; weather_warning := Some w |}
      else
        {| can_fertilize := can; best_timing := best;
           general_advice := general; weather_warning := None |}
  | None =>
      {| can_fertilize := can; best_timing := best;
         general_advice := general; weather_warning := None |}
  end.

(** *** The weather analysis: [analyzeRainRisk] and [analyzeWeather] *)

(* the builtin [parseInt] on a string *)
Variable parseInt_string : string -> num.

(* parseInt converts its argument to a string first *)
Definition parseInt (v : json) : num :=
  match v with
  | JString s => parseInt_string s
  | JNumber n => parseInt_string (Number_toString n)
  | JNull | JBool _ => NaN
  end.

(* the levels 'low', 'medium' and 'high' *)
Inductive risk : Type := risk_low | risk_medium | risk_high.

Definition risk_eqb (a b : risk) : bool :=
  match a, b with
  | risk_low, risk_low | risk_medium, risk_medium | risk_high, risk_high => true
  | _, _ => false
  end.

(* the result of [analyzeRainRisk]: level, advice, details *)
Record RainResult : Type := {
  rain_level : risk;
  rain_advice : string;
  rain_details : list string
}.

(* qweatherData.current: the fields precip and pop *)
Record CurrentWeather : Type := {
  current_precip : json;
  current_pop : json
}.

Record QWeatherData : Type := {
  current : option CurrentWeather
}.

(* an entry of the daily forecast: the fields pop and precip; the texts
   and temperatures it carries for display are left out *)
Record DailyEntry : Type := {
  pop : json;
  precip : json
}.

(* rainKeywords, in the order of Object.entries *)
Definition rainKeywords : list (string * risk) := [
  ("暴雨", risk_high);
  ("大暴雨", risk_high);
  ("特大暴雨", risk_high);
  ("大雨", risk_high);
  ("中雨", risk_medium);
  ("小雨", risk_low);
  ("雷阵雨", risk_medium);
  ("阵雨", risk_low);
  ("冻雨", risk_high);
  ("雨夹雪", risk_medium)
]%string.

(* step 1: the current observation *)
Definition rain_current (cur : CurrentWeather) (result : RainResult) : RainResult :=
  let currentPrecip := (parseFloat (current_precip cur) ||n 0)%num in
  let currentPop := (parseFloat (current_pop cur) ||n 0)%num in
  let result :=
    if (currentPrecip >? 10)%num then
      {| rain_level := risk_high;
         rain_details :=
           rain_details result
           ++ [("当前降雨量" ++ Number_toString currentPrecip ++ "mm，属于大雨级别")%string];
         rain_advice := "当前降雨量较大，严禁施肥作业" |}
    else if (currentPrecip >? 5)%num then
      {| rain_level :=
           if negb (risk_eqb (rain_level result) risk_high)
           then risk_medium else rain_level result;
         rain_details :=
           rain_details result
           ++ [("当前降雨量" ++ Number_toString currentPrecip ++ "mm，属于中雨级别")%string];
         rain_advice := "当前有中雨，不建议撒施肥料" |}
    else if (currentPrecip >? 0.1)%num then
      {| rain_level :=
           if risk_eqb (rain_level result) risk_low
           then risk_low else rain_level result;
         rain_details :=
           rain_details result
           ++ [("当前降雨量" ++ Number_toString currentPrecip ++ "mm，属于小雨级别")%string];
         rain_advice := "当前有小雨，建议深施或雨后施肥" |}
    else result in
  if (currentPop >? 70)%num && negb (risk_eqb (rain_level result) risk_high) then
    let result :=
      {| rain_level := risk_medium;
         rain_details :=
           rain_details result
           ++ [("当前降雨概率" ++ Number_toString currentPop ++ "%")%string];
         rain_advice := rain_advice result |} in
    if risk_eqb (rain_level result) risk_low then
      {| rain_level := rain_level result;
         rain_details := rain_details result;
         rain_advice := "降雨概率较高，建议关注天气变化" |}
    else result
  else result.

(* step 2: today's forecast *)
Definition rain_today (today : DailyEntry) (result : RainResult) : RainResult :=
  let todayPop := (parseFloat (pop today) ||n 0)%num in
  let todayPrecip := (parseFloat (precip today) ||n 0)%num in
  let result :=
    if (todayPop >? 80)%num then
      {| rain_level :=
           if negb (risk_eqb (rain_level result) risk_high)
           then risk_medium else rain_level result;
         rain_details :=
           rain_details result
           ++ [("今日降雨概率" ++ Number_toString todayPop ++ "%")%string];
         rain_advice := "今日降雨概率很高，建议暂缓施肥或深施覆土" |}
    else if (todayPop >? 60)%num then
      {| rain_level :=
           if risk_eqb (rain_level result) risk_low
           then risk_low else rain_level result;
         rain_details :=
           rain_details result
           ++ [("今日降雨概率" ++ Number_toString todayPop ++ "%")%string];
         rain_advice := rain_advice result |}
    else result in
  if (todayPrecip >? 15)%num then
    {| rain_level := risk_high;
       rain_details :=
         rain_details result
         ++ [("今日预报降雨量" ++ Number_toString todayPrecip ++ "mm")%string];
       rain_advice := "今日预报有大雨，不建议施肥" |}
  else result.

(* the body of the loop over tomorrow (i = 1) and the day after (i = 2) *)
Definition rain_day (i : nat) (day : DailyEntry) (result : RainResult) : RainResult :=
  let dayPop := (parseFloat (pop day) ||n 0)%num in
  if (dayPop >? 70)%num then
    let result :=
      {| rain_level := rain_level result;
         rain_details :=
           rain_details result
           ++ [((if (i =? 1)%nat then "明天" else "后天")
                ++ "降雨概率" ++ Number_toString dayPop ++ "%")%string];
         rain_advice := rain_advice result |} in
    if risk_eqb (rain_level result) risk_low then
      {| rain_level := rain_level result;
         rain_details := rain_details result;
         rain_advice := "未来1-2天可能有降雨，如需施肥建议深施覆土" |}
    else result
  else result.

(* step 3: the first keyword found in the description of the weather *)
Definition rain_keyword (weatherDesc : string) (result : RainResult) : RainResult :=
  match find (fun e => includes weatherDesc (fst e)) rainKeywords with
  | Some (kw, info_level) =>
      let result :=
        {| rain_level := rain_level result;
           rain_details := rain_details result ++ [("天气描述：" ++ kw)%string];
           rain_advice := rain_advice result |} in
      if risk_eqb info_level risk_high
         && negb (risk_eqb (rain_level result) risk_high) then
        {| rain_level := risk_high;
           rain_details := rain_details result;
           rain_advice := kw ++ "天气，严禁施肥作业" |}
      else if risk_eqb info_level risk_medium
              && risk_eqb (rain_level result) risk_low then
        {| rain_level := risk_medium;
           rain_details := rain_details result;
           rain_advice := kw ++ "天气，建议深施或暂缓施肥" |}
      else result
  | None => result
  end.

(* [weather] is weather.weather_desc, None when there is no weather object
   or no description *)
Definition analyzeRainRisk (weather : option string)
  (dailyForecast : list DailyEntry) (qweatherData : option QWeatherData)
  : RainResult :=
  let result :=
    {| rain_level := risk_low; rain_advice := "适宜施肥"; rain_details := [] |} in
  let result :=
    match qweatherData with
    | Some q =>
        match current q with
        | Some cur => rain_current cur result
        | None => result
        end
    | None => result
    end in
  let result :=
    match dailyForecast with
    | today :: rest =>
        let result := rain_today today result in
        (* for (i = 1; i < Math.min(3, dailyForecast.length); i++) *)
        fold_left (fun r '(i, day) => rain_day i day r)
                  (combine [1%nat; 2%nat] rest) result
    | [] => result
    end in
  let weatherDesc := if truthy_str weather then nullish weather ""%string else ""%string in
  rain_keyword weatherDesc result.

(* lives[0]: the fields weather, temperature, humidity and windpower *)
Record Live : Type := {
  live_weather : option string;
  live_temperature : json;
  live_humidity : json;
  live_windpower : json
}.

(* the object {} *)
Definition empty_live : Live :=
  {| live_weather := None; live_temperature := JNull; live_humidity := JNull;
     live_windpower := JNull |}.

(* an element of forecasts[0].casts: the fields pop and precip *)
Record Cast : Type := {
  cast_pop : json;
  cast_precip : json
}.

Record Forecast : Type := {
  casts : option (list Cast)
}.

(* open_meteo_data: the array daily.time *)
Record OpenMeteoData : Type := {
  daily_time : option (list string)
}.

Record WeatherData : Type := {
  lives : option (list Live);
  forecasts : option (list Forecast);
  open_meteo_data : option OpenMeteoData;
  qweather_data : option QWeatherData
}.

Inductive alert_type : Type :=
| alert_rain
| alert_temperature
| alert_humidity
| alert_wind.

Definition alert_type_eqb (a b : alert_type) : bool :=
  match a, b with
  | alert_rain, alert_rain | alert_temperature, alert_temperature
  | alert_humidity, alert_humidity | alert_wind, alert_wind => true
  | _, _ => false
  end.

(* an alert: its type and level; title, message and icon are left out *)
Record Alert : Type := {
  a_type : alert_type;
  a_level : risk
}.

(* The result of [analyzeWeather].  [analysis] holds the two fields that
   the timing advisor reads, [suitable] and [warning]; the fields that
   only repeat the input (current_weather, wind_direction, wind_power) are
   left out.  The result for missing data has no warning level,
   temperature, humidity or temperature risk. *)
Record WeatherReport : Type := {
  analysis : WeatherAnalysis;
  warnings : list string;
  alerts : list Alert;
  warning_level : option risk;
  report_temperature : option num;
  report_humidity : option num;
  rain_risk : option string;
  temperature_risk : option string;
  daily_forecast : list DailyEntry
}.

(* [v || null] *)
Definition json_or_null (v : json) : json :=
  if truthy_json v then v else JNull.

(* warnings.join('；') *)
Fixpoint join (sep : string) (l : list string) : string :=
  match l with
  | [] => ""%string
  | [x] => x
  | x :: rest => (x ++ sep ++ join sep rest)%string
  end.

(* [if (warningLevel !== 'high') warningLevel = 'medium'] *)
Definition raise_to_medium (warningLevel : risk) : risk :=
  if negb (risk_eqb warningLevel risk_high) then risk_medium else warningLevel.

(* the daily forecast built from forecasts[0].casts, or else from the
   dates of the Open-Meteo data *)
Definition buildDailyForecast (weatherData : WeatherData) : list DailyEntry :=
  let dailyForecast :=
    match nullish (forecasts weatherData) [] with
    | f :: _ =>
        map (fun cast => {| pop := json_or_null (cast_pop cast);
                            precip := json_or_null (cast_precip cast) |})
            (firstn 7 (nullish (casts f) []))
    | [] => []
    end in
  match dailyForecast, open_meteo_data weatherData with
  | [], Some om =>
      let dates := nullish (daily_time om) [] in
      repeat {| pop := JNull; precip := JNull |} (Nat.min (length dates) 7)
  | _, _ => dailyForecast
  end.

(* the result for missing data *)
Definition no_weather_report : WeatherReport :=
  {| analysis := {| suitable := true; warning := None |};
     warnings := []; alerts := [];
     warning_level := None;
     report_temperature := None; report_humidity := None;
     rain_risk := Some "低"%string; temperature_risk := None;
     daily_forecast := [] |}.

(* the locals warnings, alerts and warningLevel *)
Record Findings : Type := {
  found_warnings : list string;
  found_alerts : list Alert;
  found_level : risk
}.

(* the warning and the alert of the rain analysis *)
Definition rain_findings (rainAnalysis : RainResult) (f : Findings) : Findings :=
  match rain_level rainAnalysis with
  | risk_high =>
      {| found_warnings :=
           found_warnings f
           ++ [("🌧️ 降雨预警：" ++ rain_advice rainAnalysis)%string];
         found_alerts :=
           found_alerts f ++ [{| a_type := alert_rain; a_level := risk_high |}];
         found_level := risk_high |}
  | risk_medium =>
      {| found_warnings :=
           found_warnings f
           ++ [("🌧️ 降雨提醒：" ++ rain_advice rainAnalysis)%string];
         found_alerts :=
           found_alerts f ++ [{| a_type := alert_rain; a_level := risk_medium |}];
         found_level := raise_to_medium (found_level f) |}
  | risk_low =>
      if (0 <? length (rain_details rainAnalysis))%nat then
        {| found_warnings := found_warnings f;
           found_alerts :=
             found_alerts f ++ [{| a_type := alert_rain; a_level := risk_low |}];
           found_level := found_level f |}
      else f
  end.

(* [if (temp > 35) ... else if (temp > 30) ...] *)
Definition heat_findings (temp : num) (f : Findings) : Findings :=
  if (temp >? 35)%num then
    {| found_warnings := found_warnings f ++ ["🔥 高温预警：气温超过35°C，肥料易挥发损失，建议傍晚或清晨施肥"%string];
       found_alerts :=
         found_alerts f ++ [{| a_type := alert_temperature; a_level := risk_high |}];
       found_level := risk_high |}
  else if (temp >? 30)%num then
    {| found_warnings := found_warnings f ++ ["🌡️ 温度偏高：建议避开中午高温时段施肥"%string];
       found_alerts :=
         found_alerts f
         ++ [{| a_type := alert_temperature; a_level := risk_medium |}];
       found_level := raise_to_medium (found_level f) |}
  else f.

(* [if (temp < 5) ... else if (temp < 10) ...] *)
Definition cold_findings (temp : num) (f : Findings) : Findings :=
  if (temp <? 5)%num then
    {| found_warnings := found_warnings f ++ ["❄️ 低温预警：气温低于5°C，肥料效果受限，建议气温回升后施肥"%string];
       found_alerts :=
         found_alerts f ++ [{| a_type := alert_temperature; a_level := risk_high |}];
       found_level := risk_high |}
  else if (temp <? 10)%num then
    {| found_warnings := found_warnings f ++ ["🥶 温度偏低：肥料效果可能受影响"%string];
       found_alerts :=
         found_alerts f
         ++ [{| a_type := alert_temperature; a_level := risk_medium |}];
       found_level := raise_to_medium (found_level f) |}
  else f.

(* [if (humidity > 85) ... else if (humidity < 40) ...]: the warning
   level is not changed *)
Definition humidity_findings (humidity : num) (f : Findings) : Findings :=
  if (humidity >? 85)%num then
    {| found_warnings := found_warnings f ++ ["💧 湿度高：空气湿度大，注意肥料结块，建议现配现用"%string];
       found_alerts :=
         found_alerts f ++ [{| a_type := alert_humidity; a_level := risk_medium |}];
       found_level := found_level f |}
  else if (humidity <? 40)%num then
    {| found_warnings := found_warnings f ++ ["☀️ 干燥：空气干燥，施肥后建议适量灌溉"%string];
       found_alerts :=
         found_alerts f ++ [{| a_type := alert_humidity; a_level := risk_low |}];
       found_level := found_level f |}
  else f.

(* [if (windLevel >= 5) ... else if (windLevel >= 3) ...]: from level 3
   an alert and no warning *)
Definition wind_findings (windLevel : num) (f : Findings) : Findings :=
  if (windLevel >=? 5)%num then
    {| found_warnings := found_warnings f ++ ["💨 大风预警：风力较大，不建议撒施肥料"%string];
       found_alerts :=
         found_alerts f ++ [{| a_type := alert_wind; a_level := risk_high |}];
       found_level := risk_high |}
  else if (windLevel >=? 3)%num then
    {| found_warnings := found_warnings f;
       found_alerts :=
         found_alerts f ++ [{| a_type := alert_wind; a_level := risk_low |}];
       found_level := found_level f |}
  else f.

(* the label of rain_risk (type rain) and of temperature_risk (type
   temperature) *)
Definition alerts_risk (type : alert_type) (alerts : list Alert) : string :=
  if existsb (fun a => alert_type_eqb (a_type a) type
                       && risk_eqb (a_level a) risk_high) alerts then "高"
  else if existsb (fun a => alert_type_eqb (a_type a) type) alerts then "中"
  else "低".

(* The try block; with the fields typed as above none of its statements
   throws. *)
Definition analyzeWeather_try (weatherData : WeatherData) (ls : list Live)
  : outcome WeatherReport :=
  let live := match ls with l :: _ => l | [] => empty_live end in
  let weather :=
    if truthy_str (live_weather live)
    then nullish (live_weather live) ""%string else "未知"%string in
  let temp := (parseInt (live_temperature live) ||n 20)%num in
  let humidity := (parseInt (live_humidity live) ||n 60)%num in
  let windPower :=
    if truthy_json (live_windpower live) then live_windpower live else JString "0" in
  let dailyForecast := buildDailyForecast weatherData in
  let f := {| found_warnings := []; found_alerts := []; found_level := risk_low |} in
  let rainAnalysis :=
    analyzeRainRisk (Some weather) dailyForecast (qweather_data weatherData) in
  let f := rain_findings rainAnalysis f in
  let f := heat_findings temp f in
  let f := cold_findings temp f in
  let f := humidity_findings humidity f in
  let windLevel := (parseInt windPower ||n 0)%num in
  let f := wind_findings windLevel f in
  let rainRisk := alerts_risk alert_rain (found_alerts f) in
  let tempRisk := alerts_risk alert_temperature (found_alerts f) in
  Returned
    {| analysis :=
         {| suitable := (length (found_warnings f) =? 0)%nat;
            warning := if (0 <? length (found_warnings f))%nat
                       then Some (join "；"%string (found_warnings f)) else None |};
       warnings := found_warnings f;
       alerts := found_alerts f;
       warning_level := Some (found_level f);
       report_temperature := Some temp;
       report_humidity := Some humidity;
       rain_risk := Some rainRisk;
       temperature_risk := Some tempRisk;
       daily_forecast := dailyForecast |}.

Definition analyzeWeather (weatherData : option WeatherData) : WeatherReport :=
  match weatherData with
  | None => no_weather_report
  | Some wd =>
      match lives wd with
      | None => no_weather_report
      | Some ls =>
          try_catch (analyzeWeather_try wd ls)
            {| analysis := {| suitable := true; warning := None |};
               warnings := []; alerts := [];
               warning_level := None;
               report_temperature := None; report_humidity := None;
               rain_risk := None; temperature_risk := None;
               daily_forecast := [] |}
      end
  end.

(* The calculation of [POST /api/fertilizer_timing] once the weather data
   have arrived: growth stage, weather analysis and timing advice.
   [crop] is data.crop. *)
Definition fertilizer_timing (now : num) (crop : option string)
  (sowingDate : option string) (weatherData : option WeatherData)
  : GrowthStage * WeatherReport * TimingAdvice :=
  let cropType := if truthy_str crop then nullish crop ""%string else "水稻"%string in
  let growthStage := calculateGrowthStage now cropType sowingDate in
  let weatherAnalysis := analyzeWeather weatherData in
  let timingAdvice :=
    generateTimingAdvice cropType growthStage (analysis weatherAnalysis) in
  (growthStage, weatherAnalysis, timingAdvice).

(** *** Simulated weather and the nearest city *)

(* arr[idx]: an element for an integer index inside the array, undefined
   for any other key *)
Definition list_get {A} (l : list A) (idx : num) : option A :=
  match idx with
  | Fin r =>
      let z := Int_part r in
      if Reqb (IZR z) r && (0 <=? z)%Z then nth_error l (Z.to_nat z) else None
  | _ => None
  end.

Definition conditions : list string := ["晴"; "多云"; "阴"; "小雨"; "中雨"]%string.

(* the weather data of [generateSimulatedWeather]; the four calls of
   Math.random are made in this order *)
Definition generateSimulatedWeather (s : rng) : WeatherData * rng :=
  let '(u1, s) := Math_random s in
  let weather := list_get conditions (Math_floor (u1 * 5)) in
  let '(u2, s) := Math_random s in
  let temp := (15 + Math_floor (u2 * 20))%num in
  let '(u3, s) := Math_random s in
  let '(u4, s) := Math_random s in
  ({| lives := Some [
        {| live_weather := weather;
           live_temperature := JString (Number_toString temp);
           live_humidity := JString (Number_toString (40 + Math_floor (u3 * 50)));
           live_windpower := JString (Number_toString (Math_floor (u4 * 4))) |}];
      forecasts := Some [{| casts := Some [{| cast_pop := JNull;
                                              cast_precip := JNull |}] |}];
      open_meteo_data := None;
      qweather_data := None |}, s).




(** ** Sample data *)

(* no raster file and no feature collection was loaded *)
Definition no_data : Env := {|
  cache_AN := None; cache_AP := None; cache_AK := None;
  fertilizerFeatures := []; farmingFeatures := []
|}.

(* a generator that returns [u] until call [k] and [v] from then on *)
Definition rng_switch (k : nat) (u v : R) : rng :=
  fun n => if (n <? k)%nat then u else v.

(* Scenario C: the coordinate (200, 50) *)
Definition request_200_50 : Request := {|
  rq_crop := JString "水稻";
  rq_yield := JNumber 500;
  rq_date := Some "2026-06-17"%string;
  rq_lon := JNumber 200;
  rq_lat := JNumber 50;
  rq_custom_soil_data := None;
  rq_use_custom_soil := false
|}.

(* a sowing date and no coordinates *)
Definition request_date_only : Request := {|
  rq_crop := JString "小麦";
  rq_yield := JNumber 400;
  rq_date := Some "2026-11-01"%string;
  rq_lon := JNull;
  rq_lat := JNull;
  rq_custom_soil_data := None;
  rq_use_custom_soil := false
|}.

(* rice at Wuhan with a measured soil nitrogen of 0 mg/kg *)
Definition request_zero_N : Request := {|
  rq_crop := JString "水稻";
  rq_yield := JNumber 500;
  rq_date := Some "2026-06-17"%string;
  rq_lon := JNumber 114.305;
  rq_lat := JNumber 30.592;
  rq_custom_soil_data :=
    Some {| raw_N := JNumber 0; raw_P := JNull; raw_K := JNull |};
  rq_use_custom_soil := true
|}.

(* direct calls of the model: wheat on default soil, and manual soil
   values without coordinates *)
Definition params_default (targetYield : num) : InputParams := {|
  target_yield := Some targetYield;
  custom_soil_data := None;
  ip_lon := None; ip_lat := None;
  use_custom_soil := false;
  organic_matter := None; soil_ph := None; straw_return_amount := None;
  sowing_date := None;
  temperature_forecast := None
|}.

Definition params_manual : InputParams := {|
  target_yield := Some (Fin 500);
  custom_soil_data :=
    Some {| custom_N := Some (Fin 200); custom_P := None; custom_K := None |};
  ip_lon := None; ip_lat := None;
  use_custom_soil := true;
  organic_matter := None; soil_ph := None; straw_return_amount := None;
  sowing_date := None;
  temperature_forecast := None
|}.


(** ** Vocabulary of the properties *)

(* the fractions are three numbers in [0,1] whose sum is within 1e-6 of 1 *)
Definition ratios_ok (r : Ratios) : Prop :=
  exists b m l : R,
    base_ratio r = Fin b /\ mid_ratio r = Fin m /\ late_ratio r = Fin l /\
    Rabs (b + m + l - 1) <= 1 / 1000000 /\
    0 <= b <= 1 /\ 0 <= m <= 1 /\ 0 <= l <= 1.

(* the same in binary64, the sum taken from left to right *)
Definition ratios_binary64_ok (r : float * float * float) : bool :=
  let '(b, m, l) := r in
  (PrimFloat.abs (b + m + l - 1) <=? 1e-6)%float
  && (0 <=? b)%float && (b <=? 1)%float
  && (0 <=? m)%float && (m <=? 1)%float
  && (0 <=? l)%float && (l <=? 1)%float.

(* the fractions of the normal regime, with the cold adjustment when the
   forecast is below the threshold of the crop *)
Definition normal_regime_ratios (cropType : crop) (tempForecast : num) : Ratios :=
  match cropType with
  | rice =>
      if (tempForecast <? 20)%num
      then {| base_ratio := 0.55; mid_ratio := 0.25; late_ratio := 0.20 |}
      else {| base_ratio := 0.50; mid_ratio := 0.25; late_ratio := 0.25 |}
  | wheat =>
      if (tempForecast <? 10)%num
      then {| base_ratio := 0.70; mid_ratio := 0.25; late_ratio := 0.05 |}
      else {| base_ratio := 0.65; mid_ratio := 0.25; late_ratio := 0.10 |}
  end.

(* Math.round((Date.now() - sowing.getTime()) / 86400000) *)
Definition daysSinceSowing (now : num) (sowingDate : option string) : num :=
  Math_round ((now - Date_parse (nullish sowingDate ""%string)) / 86400000).

(* the day threshold of maturity *)
Definition maturity_days (cropType : string) : num :=
  if String.eqb cropType "水稻" then 105 else 240.

(* the coordinates of a request as the handler reads them *)
Definition coordinates_in_window (data : Request) : bool :=
  in_window (parseFloat (rq_lon data)) (parseFloat (rq_lat data)).

Definition is_GeoTIFF (x : source) : bool :=
  match x with SRC_GeoTIFF => true | _ => false end.

Definition simulated_or_default (x : source) : bool :=
  match x with SRC_simulated | SRC_default => true | _ => false end.

(* coordinates were given and the sampler returned a value for one
   nutrient at least *)
Definition raster_hit (env : Env) (inputParams : InputParams) : bool :=
  let lon := num_or (parseFloat_opt (ip_lon inputParams)) 114.305 in
  let lat := num_or (parseFloat_opt (ip_lat inputParams)) 30.592 in
  is_some (ip_lon inputParams) && is_some (ip_lat inputParams)
  && has_valid_data (getSoilNutrientsFromGeoTIFF env lon lat).

(* the target yield, and the fractions of step 7, as the recommendation
   resolves them *)
Definition resolvedYield (inputParams : InputParams) : num :=
  num_or (nullish (target_yield inputParams) NaN) 500.

Definition resolvedRatios (env : Env) (inputParams : InputParams)
  (cropType : crop) : Ratios :=
  let lon := num_or (parseFloat_opt (ip_lon inputParams)) 114.305 in
  let lat := num_or (parseFloat_opt (ip_lat inputParams)) 30.592 in
  let tempForecast :=
    temperature_forecast inputParams
      ?? (match cropType with rice => Fin 22.5 | wheat => Fin 12.0 end) in
  adjustFertilizerRatio
    (fst (fst (resolveSowingDate env inputParams cropType lon lat)))
    cropType tempForecast.

(* a positive number, not an infinity *)
Definition positive_finite (a : num) : Prop := exists r : R, a = Fin r /\ 0 < r.

(* A raster file as the loader expects it: a grid of at least one cell
   over a box that is not degenerate, one sample per cell, fewer than 2^53
   cells (the arithmetic of the index is then exact), and two cell sizes
   that the loader computes as positive numbers. *)
Definition image_ok (image : Image) : Prop :=
  (0 < img_width image)%Z /\ (0 < img_height image)%Z
  /\ bbox0 image < bbox2 image /\ bbox1 image < bbox3 image
  /\ length (img_data image) = Z.to_nat (img_width image * img_height image)
  /\ (img_width image * img_height image < 2 ^ 53)%Z
  /\ positive_finite (cellWidth (loadLayer image))
  /\ positive_finite (cellHeight (loadLayer image)).

(* the floor of a quotient as an index; an infinite quotient has none *)
Definition floor_index (q : num) : option Z :=
  match q with
  | Fin r => Some (Int_part r)
  | _ => None
  end.

(* col = floor((lon - minX) / cellWidth), row = floor((maxY - lat) /
   cellHeight), each operation rounded to binary64 as in the code *)
Definition pixel_col (image : Image) (lon : R) : option Z :=
  floor_index (fdiv (fsub (Fin lon) (Fin (bbox0 image)))
                    (cellWidth (loadLayer image))).

Definition pixel_row (image : Image) (lat : R) : option Z :=
  floor_index (fdiv (fsub (Fin (bbox3 image)) (Fin lat))
                    (cellHeight (loadLayer image))).

Definition outside_bbox (image : Image) (lon lat : R) : Prop :=
  lon < bbox0 image \/ bbox2 image < lon \/ lat < bbox1 image \/ bbox3 image < lat.

Definition pixel_in_grid (image : Image) (col row : option Z) : Prop :=
  match col, row with
  | Some c, Some r =>
      (0 <= c < img_width image)%Z /\ (0 <= r < img_height image)%Z
  | _, _ => False
  end.

(* Soil supply as the specification words it (section 4.4, step 2):
   supply_X = soil.X * 0.15 * correction_X(soil) * organicMatterFactor_X(om),
   times the pH factor for phosphorus. *)
Definition spec_correction (cropType : crop) (x : layer_key) (soil : num) : num :=
  match cropType, x with
  | rice, AN => ((3.2164 + 4799.9239 / soil) / 100)%num
  | rice, AP => ((17.4898 + 2235.9674 / soil) / 100)%num
  | rice, AK => ((10.7412 + 6147.1032 / soil) / 100)%num
  | wheat, AN => (0.821222 * Math_exp (-0.005429 * soil))%num
  | wheat, AP => (1.976 * Math_exp (-0.041744 * soil))%num
  | wheat, AK => (1.1038 * Math_exp (-0.006362 * soil))%num
  end.

Definition spec_om_slope (x : layer_key) : R :=
  match x with AN => 0.015 | AP => 0.01 | AK => 0.008 end.

Definition spec_om_factor (x : layer_key) (om : num) : num :=
  (1 + spec_om_slope x * (om - 20))%num.

Definition spec_ph_factor (ph : num) : num :=
  match ph with
  | Fin p => if Rleb 6.0 p && Rleb p 7.0 then Fin 1.0 else Fin 0.7
  | _ => Fin 0.7
  end.

Definition spec_soil_supply (cropType : crop) (x : layer_key)
  (soil om ph : num) : num :=
  let supply :=
    (soil * 0.15 * spec_correction cropType x soil * spec_om_factor x om)%num in
  match x with
  | AP => (supply * spec_ph_factor ph)%num
  | _ => supply
  end.

(* a finite number that is not negative *)
Definition fin_nonneg (a : num) : Prop := exists r : R, a = Fin r /\ 0 <= r.

Definition is_NaN (a : num) : bool :=
  match a with NaN => true | _ => false end.

(* an efficiency read from the point features: absent, or a positive number *)
Definition efficiency_ok (o : option num) : Prop :=
  match o with
  | None => True
  | Some (Fin e) => 0 < e
  | Some _ => False
  end.

(* a manual value, when given, is not zero *)
Definition nonzero_opt (o : option num) : Prop :=
  match o with
  | Some (Fin x) => x <> 0
  | _ => True
  end.

(* the efficiencies and the straw amount as the recommendation resolves
   them *)
Definition resolvedEfficiency (env : Env) (inputParams : InputParams)
  (cropType : crop) : option num * option num * option num :=
  let lon := num_or (parseFloat_opt (ip_lon inputParams)) 114.305 in
  let lat := num_or (parseFloat_opt (ip_lat inputParams)) 30.592 in
  if is_some (ip_lon inputParams) && is_some (ip_lat inputParams)
  then getFertilizerEfficiency env lon lat cropType
  else (None, None, None).

Definition resolvedStrawAmount (inputParams : InputParams) (cropType : crop) : num :=
  straw_return_amount inputParams
    ?? (match cropType with rice => Fin 600 | wheat => Fin 700 end).

(* a 2 x 2 raster over [110,112] x [28,30] with one NODATA cell *)
Definition sample_image : Image := {|
  img_data := [Fin 850; Fin (-9999); Fin 910; Fin 1200];
  img_width := 2;
  img_height := 2;
  bbox0 := 110; bbox1 := 28; bbox2 := 112; bbox3 := 30
|}.

Definition sample_env : Env := {|
  cache_AN := Some (loadLayer sample_image);
  cache_AP := None; cache_AK := None;
  fertilizerFeatures := []; farmingFeatures := []
|}.

(* one row of 59 cells over [110,122] x [28,33]: the cell width 12/59 is
   not a binary64 number *)
Definition edge_image : Image := {|
  img_data := repeat (Fin 850) 59;
  img_width := 59;
  img_height := 1;
  bbox0 := 110; bbox1 := 28; bbox2 := 122; bbox3 := 33
|}.

Definition edge_env : Env := {|
  cache_AN := Some (loadLayer edge_image);
  cache_AP := None; cache_AK := None;
  fertilizerFeatures := []; farmingFeatures := []
|}.

(* manual soil nitrogen at Wuhan *)
Definition params_manual_wuhan : InputParams := {|
  target_yield := Some (Fin 500);
  custom_soil_data :=
    Some {| custom_N := Some (Fin 200); custom_P := None; custom_K := None |};
  ip_lon := Some (Fin 114.305); ip_lat := Some (Fin 30.592);
  use_custom_soil := true;
  organic_matter := None; soil_ph := None; straw_return_amount := None;
  sowing_date := None;
  temperature_forecast := None
|}.

(** ** Vocabulary of the further properties *)

(* the order of the labels of [getNutrientLevel]; the two placeholders
   come last *)
Definition level_rank (l : level) : nat :=
  match l with
  | L_low => 0 | L_medium => 1 | L_high => 2 | L_very_high => 3
  | L_unknown | L_default => 4
  end.

(* a soil value that is a number in [lo, hi] *)
Definition in_range (o : option num) (lo hi : R) : Prop :=
  exists x : R, o = Some (Fin x) /\ lo <= x <= hi.

(* the fields of the soil record and of the manual input, by nutrient *)
Definition soil_value (k : layer_key) (d : SoilData) : option num :=
  match k with AN => soil_N d | AP => soil_P d | AK => soil_K d end.

Definition soil_level (k : layer_key) (d : SoilData) : level :=
  match k with AN => level_AN d | AP => level_AP d | AK => level_AK d end.

Definition soil_source (k : layer_key) (d : SoilData) : source :=
  match k with AN => source_AN d | AP => source_AP d | AK => source_AK d end.

Definition custom_value (k : layer_key) (c : option CustomSoil) : option num :=
  match c with
  | Some c => match k with AN => custom_N c | AP => custom_P c | AK => custom_K c end
  | None => None
  end.

(* scaleFactors *)
Definition scaleFactor (k : layer_key) : num :=
  match k with AN => 10 | AP => 100 | AK => 10 end.



Definition has_sowing_date (f : FarmingFeature) : bool :=
  truthy_str (sowing_date_start f).

Definition sowing_date_for (cropType : crop) (f : FarmingFeature) : bool :=
  String.eqb (g_crop f) (cropMap cropType) && truthy_str (sowing_date_start f).

(* the default sowing date of a crop *)
Definition default_sowing_date (cropType : crop) : string :=
  match cropType with rice => "2026-06-17" | wheat => "2026-11-01" end.

(* the sowing date of the request, when it is not empty *)
Definition given_sowing_date (inputParams : InputParams) : option string :=
  if truthy_str (sowing_date inputParams) then sowing_date inputParams else None.

(* the window looked up for the coordinates, when both were given *)
Definition sowing_window (env : Env) (inputParams : InputParams)
  (cropType : crop) (lon lat : num) : option (option string * option string) :=
  if is_some (ip_lon inputParams) && is_some (ip_lat inputParams)
  then getSowingDate env lon lat cropType
  else None.

(* the checks of [/calculate] on a request body *)
Definition request_accepted (data : Request) : bool :=
  let customSoilData := parse_custom (rq_custom_soil_data data) in
  let targetYield := parseFloat (rq_yield data) in
  valid_crop (rq_crop data) && truthy_json (rq_yield data)
  && negb ((targetYield <=? 0) || (targetYield >? 1000))%num
  && in_window (parseFloat (rq_lon data)) (parseFloat (rq_lat data))
  && negb (out_of_range (custom_N customSoilData) 0 300)
  && negb (out_of_range (custom_P customSoilData) 0 100)
  && negb (out_of_range (custom_K customSoilData) 0 500).










(* the higher of two levels *)
Definition risk_max (a b : risk) : risk :=
  match a, b with
  | risk_high, _ | _, risk_high => risk_high
  | risk_medium, _ | _, risk_medium => risk_medium
  | risk_low, risk_low => risk_low
  end.

(* the level that each source of rain information asks for: the current
   observation, today's forecast, and the description of the weather *)
Definition current_risk (qweatherData : option QWeatherData) : risk :=
  match qweatherData with
  | Some q =>
      match current q with
      | Some cur =>
          let currentPrecip := (parseFloat (current_precip cur) ||n 0)%num in
          let currentPop := (parseFloat (current_pop cur) ||n 0)%num in
          if (currentPrecip >? 10)%num then risk_high
          else if (currentPrecip >? 5)%num || (currentPop >? 70)%num
               then risk_medium
               else risk_low
      | None => risk_low
      end
  | None => risk_low
  end.

Definition today_risk (dailyForecast : list DailyEntry) : risk :=
  match dailyForecast with
  | today :: _ =>
      if ((parseFloat (precip today) ||n 0) >? 15)%num then risk_high
      else if ((parseFloat (pop today) ||n 0) >? 80)%num then risk_medium
      else risk_low
  | [] => risk_low
  end.

Definition keyword_risk (weather : option string) : risk :=
  let weatherDesc := if truthy_str weather then nullish weather ""%string else ""%string in
  match find (fun e => includes weatherDesc (fst e)) rainKeywords with
  | Some (_, info_level) => info_level
  | None => risk_low
  end.

(* the advice texts of [analyzeRainRisk]: the initial one, those of the
   current observation and of the forecast, and those of the keywords *)
Definition rain_advice_options : list string :=
  ["适宜施肥"; "当前降雨量较大，严禁施肥作业"; "当前有中雨，不建议撒施肥料";
   "当前有小雨，建议深施或雨后施肥"; "今日降雨概率很高，建议暂缓施肥或深施覆土";
   "今日预报有大雨，不建议施肥"; "未来1-2天可能有降雨，如需施肥建议深施覆土"]%string
  ++ map (fun e => (fst e ++ "天气，严禁施肥作业")%string) rainKeywords
  ++ map (fun e => (fst e ++ "天气，建议深施或暂缓施肥")%string) rainKeywords.

(* what [analyzeWeather] reads from lives[0]: the description of the
   weather, the temperature, the humidity and the wind level *)
Definition first_live (ls : list Live) : Live :=
  match ls with l :: _ => l | [] => empty_live end.

Definition read_weather (ls : list Live) : string :=
  if truthy_str (live_weather (first_live ls))
  then nullish (live_weather (first_live ls)) ""%string else "未知"%string.

Definition read_temperature (ls : list Live) : num :=
  (parseInt (live_temperature (first_live ls)) ||n 20)%num.

Definition read_humidity (ls : list Live) : num :=
  (parseInt (live_humidity (first_live ls)) ||n 60)%num.

Definition read_wind (ls : list Live) : num :=
  (parseInt (if truthy_json (live_windpower (first_live ls))
             then live_windpower (first_live ls) else JString "0") ||n 0)%num.

(* the rain analysis inside [analyzeWeather] *)
Definition read_rain (weatherData : WeatherData) (ls : list Live) : RainResult :=
  analyzeRainRisk (Some (read_weather ls)) (buildDailyForecast weatherData)
    (qweather_data weatherData).

(* the level that the temperature and the wind ask for *)
Definition temperature_level (temp : num) : risk :=
  if ((temp >? 35) || (temp <? 5))%num then risk_high
  else if ((temp >? 30) || (temp <? 10))%num then risk_medium
  else risk_low.

Definition wind_level (windLevel : num) : risk :=
  if (windLevel >=? 5)%num then risk_high else risk_low.

(* the labels of rain_risk and temperature_risk *)
Definition risk_label (r : risk) : string :=
  match r with risk_high => "高" | risk_medium => "中" | risk_low => "低" end.

(* the findings of [analyzeWeather] after its five blocks *)
Definition weather_findings (weatherData : WeatherData) (ls : list Live) : Findings :=
  wind_findings (read_wind ls)
    (humidity_findings (read_humidity ls)
       (cold_findings (read_temperature ls)
          (heat_findings (read_temperature ls)
             (rain_findings (read_rain weatherData ls)
                {| found_warnings := []; found_alerts := [];
                   found_level := risk_low |})))).

(* what a block adds to the findings: [n] warnings, the level [lv], and
   whether an alert of the given type (and of level high) is added *)
Definition step_adds (f f' : Findings) (n : nat) (lv : risk)
  (type : alert_type) (any high : bool) : Prop :=
  length (found_warnings f') = (length (found_warnings f) + n)%nat
  /\ found_level f' = risk_max (found_level f) lv
  /\ existsb (fun a => alert_type_eqb (a_type a) type) (found_alerts f')
     = existsb (fun a => alert_type_eqb (a_type a) type) (found_alerts f) || any
  /\ existsb (fun a => alert_type_eqb (a_type a) type
                       && risk_eqb (a_level a) risk_high) (found_alerts f')
     = existsb (fun a => alert_type_eqb (a_type a) type
                         && risk_eqb (a_level a) risk_high) (found_alerts f)
       || high.

(* the general advice that the timing advisor gives for the stage *)
Definition stage_advice_options : list (list string) :=
  [[]; ["基肥占总施肥量40-50%"]; ["已进入成熟期，不再建议施肥"]; ["基肥占总施肥量60-70%"]; ["冬季低温，不建议施肥"]]%string.

(* the two advices that the timing advisor adds for the weather warning *)
Definition rain_general_advice : string := "建议深施或水肥一体化，避免雨前撒施".
Definition heat_general_advice : string := "建议傍晚施肥，减少挥发".

(* the warnings that each block of [analyzeWeather] can add; for the
   temperature above 30 the flag is set *)
Definition rain_warning_options : list (list string) :=
  [[]]
  ++ map (fun a => [("🌧️ 降雨预警：" ++ a)%string]) rain_advice_options
  ++ map (fun a => [("🌧️ 降雨提醒：" ++ a)%string]) rain_advice_options.

Definition heat_options : list (bool * list string) :=
  [(false, []);
   (true, ["🔥 高温预警：气温超过35°C，肥料易挥发损失，建议傍晚或清晨施肥"]);
   (true, ["🌡️ 温度偏高：建议避开中午高温时段施肥"])]%string.

Definition cold_options : list (list string) :=
  [[];
   ["❄️ 低温预警：气温低于5°C，肥料效果受限，建议气温回升后施肥"];
   ["🥶 温度偏低：肥料效果可能受影响"]]%string.

Definition humidity_options : list (list string) :=
  [[];
   ["💧 湿度高：空气湿度大，注意肥料结块，建议现配现用"];
   ["☀️ 干燥：空气干燥，施肥后建议适量灌溉"]]%string.

Definition wind_options : list (list string) :=
  [[]; ["💨 大风预警：风力较大，不建议撒施肥料"]]%string.

(* every list of warnings that [analyzeWeather] can build, with the flag *)
Definition warning_options : list (bool * list string) :=
  flat_map (fun r =>
    flat_map (fun h =>
      flat_map (fun c =>
        flat_map (fun u =>
          map (fun w => (fst h, r ++ snd h ++ c ++ u ++ w)) wind_options)
          humidity_options)
        cold_options)
      heat_options)
    rain_warning_options.

(* the joined warning mentions neither of the two words the advisor looks
   for, except the heat word exactly when the flag is set *)
Definition advice_check (o : bool * list string) : bool :=
  let w := join "；" (snd o) in
  negb (includes w "降水") && Bool.eqb (includes w "高温") (fst o).

(** ** Sample data of the further properties *)

(* two efficiency features for rice and one for wheat *)
Definition sample_features : Env := {|
  cache_AN := None; cache_AP := None; cache_AK := None;
  fertilizerFeatures := [
    {| f_coords := (Fin 114, Fin 30); f_crop := "水稻";
       f_N := Some (Fin 0.35); f_P := Some (Fin 0.2); f_K := None |};
    {| f_coords := (Fin 120, Fin 31); f_crop := "水稻";
       f_N := Some (Fin 0.3); f_P := None; f_K := None |};
    {| f_coords := (Fin 120, Fin 31); f_crop := "冬小麦";
       f_N := Some (Fin 0.4); f_P := None; f_K := None |} ];
  farmingFeatures := []
|}.

(* steady rain at 0 degrees, humid, wind of level 3 *)
Definition rainy_weather : WeatherData := {|
  lives := Some [
    {| live_weather := Some "中雨"%string;
       live_temperature := JString "0";
       live_humidity := JString "90";
       live_windpower := JString "3" |}];
  forecasts := None;
  open_meteo_data := None;
  qweather_data := None
|}.

(* a generator that always returns one half *)
Definition rng_half : rng := fun _ => 1 / 2.

(** * Properties *)

(** ** Deciding comparisons of reals *)

Lemma Rltb_true (a b : R) : a < b -> Rltb a b = true.
Proof. intros H. unfold Rltb. destruct (Rlt_dec a b); [reflexivity | contradiction]. Qed.

Lemma Rltb_false (a b : R) : b <= a -> Rltb a b = false.
Proof. intros H. unfold Rltb. destruct (Rlt_dec a b); [lra | reflexivity]. Qed.

Lemma Rleb_true (a b : R) : a <= b -> Rleb a b = true.
Proof. intros H. unfold Rleb. destruct (Rle_dec a b); [reflexivity | contradiction]. Qed.

Lemma Rleb_false (a b : R) : b < a -> Rleb a b = false.
Proof. intros H. unfold Rleb. destruct (Rle_dec a b); [lra | reflexivity]. Qed.

Lemma Reqb_true (a b : R) : a = b -> Reqb a b = true.
Proof. intros H. unfold Reqb. destruct (Req_dec_T a b); [reflexivity | contradiction]. Qed.

Lemma Reqb_false (a b : R) : a <> b -> Reqb a b = false.
Proof. intros H. unfold Reqb. destruct (Req_dec_T a b); [contradiction | reflexivity]. Qed.

Lemma Rltb_spec (a b : R) : Rltb a b = true <-> a < b.
Proof. unfold Rltb. destruct (Rlt_dec a b); split; intros; try lra; try discriminate; auto. Qed.

Lemma Rleb_spec (a b : R) : Rleb a b = true <-> a <= b.
Proof. unfold Rleb. destruct (Rle_dec a b); split; intros; try lra; try discriminate; auto. Qed.

Lemma Reqb_spec (a b : R) : Reqb a b = true <-> a = b.
Proof. unfold Reqb. destruct (Req_dec_T a b); split; intros; try lra; try discriminate; auto. Qed.

(** ** Arithmetic of [num] *)

Lemma nadd_NaN_l (a : num) : nadd NaN a = NaN.
Proof. destruct a; reflexivity. Qed.

Lemma nadd_NaN_r (a : num) : nadd a NaN = NaN.
Proof. destruct a; reflexivity. Qed.

Lemma nsub_NaN_l (a : num) : nsub NaN a = NaN.
Proof. destruct a; reflexivity. Qed.

Lemma nsub_NaN_r (a : num) : nsub a NaN = NaN.
Proof. destruct a; reflexivity. Qed.

Lemma nmul_NaN_l (a : num) : nmul NaN a = NaN.
Proof. destruct a; reflexivity. Qed.

Lemma ndiv_NaN_l (a : num) : ndiv NaN a = NaN.
Proof. destruct a; reflexivity. Qed.

Lemma Int_part_IZR (z : Z) : Int_part (IZR z) = z.
Proof. symmetry. apply Int_part_spec. lra. Qed.

Lemma Rltb_IZR (a b : Z) : Rltb (IZR a) (IZR b) = (a <? b)%Z.
Proof.
  unfold Rltb. destruct (Rlt_dec (IZR a) (IZR b)) as [H|H].
  - apply lt_IZR in H. symmetry. apply Z.ltb_lt. exact H.
  - symmetry. apply Z.ltb_ge. apply Z.le_ngt. intros L. apply H, IZR_lt, L.
Qed.

Lemma Rleb_IZR (a b : Z) : Rleb (IZR a) (IZR b) = (a <=? b)%Z.
Proof.
  unfold Rleb. destruct (Rle_dec (IZR a) (IZR b)) as [H|H].
  - apply le_IZR in H. symmetry. apply Z.leb_le. exact H.
  - symmetry. apply Z.leb_gt. apply Z.lt_nge. intros L. apply H, IZR_le, L.
Qed.

(** ** Soil supply *)

(** C3. The soil supply of each nutrient is soil.X * 0.15 * corr_X *
    omFactor_X(organicMatter), with the rice corrections
    (3.2164 + 4799.9239/soil.N)/100, (17.4898 + 2235.9674/soil.P)/100 and
    (10.7412 + 6147.1032/soil.K)/100 (and the exponential ones for wheat);
    the organic-matter factor is linear with value 1 at om = 20; the
    phosphorus supply is multiplied by the pH factor, which is 1.0 for a
    pH in [6.0, 7.0] and 0.7 otherwise. *)
Theorem calculateSoilSupply_formula :
  forall (soilN soilP soilK organicMatter soilPh : num) (cropType : crop),
    (let '(nSupply, pSupply, kSupply, _) :=
       calculateSoilSupply soilN soilP soilK organicMatter soilPh cropType in
     nSupply = spec_soil_supply cropType AN soilN organicMatter soilPh
     /\ pSupply = spec_soil_supply cropType AP soilP organicMatter soilPh
     /\ kSupply = spec_soil_supply cropType AK soilK organicMatter soilPh)
    /\ (forall (x : layer_key) (om : R),
          spec_om_factor x (Fin om) = Fin (1 + spec_om_slope x * (om - 20)))
    /\ (forall x : layer_key, spec_om_factor x (Fin 20) = Fin 1)
    /\ (forall ph : R,
          spec_ph_factor (Fin ph)
          = if Rleb 6.0 ph && Rleb ph 7.0 then Fin 1.0 else Fin 0.7)
    /\ (forall x : R,
          spec_correction rice AN (Fin x)
          = ((Fin 3.2164 + Fin 4799.9239 / Fin x) / Fin 100)%num
          /\ spec_correction rice AP (Fin x)
             = ((Fin 17.4898 + Fin 2235.9674 / Fin x) / Fin 100)%num
          /\ spec_correction rice AK (Fin x)
             = ((Fin 10.7412 + Fin 6147.1032 / Fin x) / Fin 100)%num).
Proof.
  intros soilN soilP soilK organicMatter soilPh cropType.
  split; [|split; [|split; [|split]]].
  - unfold calculateSoilSupply, spec_soil_supply, spec_correction,
      spec_om_factor, spec_om_slope, om_impact_N, om_impact_P, om_impact_K.
    assert (Hph : ph_adjustment soilPh = spec_ph_factor soilPh).
    { unfold ph_adjustment, spec_ph_factor, nge.
      destruct soilPh as [p| | |]; reflexivity. }
    rewrite Hph. destruct cropType; repeat split; reflexivity.
  - intros x om. unfold spec_om_factor. cbn [nadd nsub nneg nmul].
    f_equal; lra.
  - intros x. unfold spec_om_factor. cbn [nadd nsub nneg nmul].
    f_equal; lra.
  - intros ph. reflexivity.
  - intros x. repeat split; reflexivity.
Qed.

(** ** Rounding to binary64 *)

Lemma pow2_pos (e : Z) : 0 < powerRZ 2 e.
Proof. apply powerRZ_lt. lra. Qed.

Lemma pow2_ge_1 (e : Z) : (0 <= e)%Z -> 1 <= powerRZ 2 e.
Proof.
  intros H. rewrite <- (Z2Nat.id e H), <- pow_powerRZ.
  apply pow_R1_Rle. lra.
Qed.

Lemma pow2_le (k m : Z) : (k <= m)%Z -> powerRZ 2 k <= powerRZ 2 m.
Proof.
  intros H. replace m with (k + (m - k))%Z by lia.
  rewrite powerRZ_add by lra.
  pose proof (pow2_pos k). pose proof (pow2_ge_1 (m - k) ltac:(lia)). nra.
Qed.

Lemma pow2_succ (k : Z) : powerRZ 2 (k + 1) = 2 * powerRZ 2 k.
Proof. rewrite powerRZ_add by lra. rewrite powerRZ_1. lra. Qed.

Lemma pow2_lt (k m : Z) : (k < m)%Z -> powerRZ 2 k < powerRZ 2 m.
Proof.
  intros H. pose proof (pow2_le (k + 1) m ltac:(lia)) as L.
  rewrite pow2_succ in L. pose proof (pow2_pos k). lra.
Qed.

Lemma pow2_IZR (k : Z) : (0 <= k)%Z -> powerRZ 2 k = IZR (2 ^ k).
Proof.
  intros H. rewrite <- (Z2Nat.id k H) at 1. rewrite <- pow_powerRZ.
  rewrite pow_IZR. rewrite Z2Nat.id by exact H. reflexivity.
Qed.

Lemma exponent_below_spec (n : nat) (e k : Z) (a : R) :
  (e - Z.of_nat n <= k <= e)%Z ->
  powerRZ 2 k <= a < powerRZ 2 (k + 1) ->
  exponent_below n e a = k.
Proof.
  revert e. induction n as [|n IH]; intros e Hk Ha.
  - cbn. lia.
  - cbn [exponent_below]. unfold Rleb.
    destruct (Rle_dec (powerRZ 2 e) a) as [L|L].
    + destruct (Z.eq_dec e k) as [->|Hne]; [reflexivity|].
      exfalso. pose proof (pow2_le (k + 1) e ltac:(lia)). lra.
    + apply IH; [|exact Ha].
      assert (k <> e) by (intros ->; lra). lia.
Qed.

Lemma exponent_below_small (n : nat) (e : Z) (a : R) :
  a < powerRZ 2 (e - Z.of_nat n + 1) ->
  exponent_below n e a = (e - Z.of_nat n)%Z.
Proof.
  revert e. induction n as [|n IH]; intros e Ha.
  - cbn. lia.
  - cbn [exponent_below]. unfold Rleb.
    destruct (Rle_dec (powerRZ 2 e) a) as [L|L].
    + exfalso. pose proof (pow2_le (e - Z.of_nat (S n) + 1) e ltac:(lia)). lra.
    + rewrite IH; [lia|].
      replace (e - 1 - Z.of_nat n + 1)%Z with (e - Z.of_nat (S n) + 1)%Z by lia.
      exact Ha.
Qed.

Lemma ulp_exponent_normal (a : R) (k : Z) :
  (-1022 <= k <= 1023)%Z ->
  powerRZ 2 k <= a < powerRZ 2 (k + 1) ->
  ulp_exponent a = (k - 52)%Z.
Proof.
  intros Hk Ha. unfold ulp_exponent.
  rewrite (exponent_below_spec 2045 1023 k a); [reflexivity| |exact Ha].
  change (Z.of_nat 2045) with 2045%Z. lia.
Qed.

Lemma ulp_exponent_subnormal (a : R) :
  a < powerRZ 2 (-1022) -> ulp_exponent a = (-1074)%Z.
Proof.
  intros Ha. unfold ulp_exponent.
  rewrite exponent_below_small; change (Z.of_nat 2045) with 2045%Z;
    [reflexivity|].
  change (1023 - 2045 + 1)%Z with (-1021)%Z.
  pose proof (pow2_lt (-1022) (-1021) ltac:(lia)). lra.
Qed.

Lemma round_half_even_near (q : R) (n : Z) :
  Rabs (q - IZR n) < 1 / 2 -> round_half_even q = n.
Proof.
  intros H. apply Rabs_def2 in H. destruct H as [H1 H2].
  unfold round_half_even. cbv zeta.
  destruct (base_Int_part q) as [B1 B2].
  set (f := Int_part q) in *.
  unfold Rltb.
  destruct (Rlt_dec (q - IZR f) (1 / 2)) as [L|L].
  - assert (A : IZR f - IZR n < 1) by lra.
    assert (B : IZR n - IZR f < 1) by lra.
    rewrite <- minus_IZR in A, B.
    apply lt_IZR in A, B. lia.
  - destruct (Rlt_dec (1 / 2) (q - IZR f)) as [L2|L2].
    + assert (A : IZR (f + 1) - IZR n < 1) by (rewrite plus_IZR; lra).
      assert (B : IZR n - IZR (f + 1) < 1) by (rewrite plus_IZR; lra).
      rewrite <- minus_IZR in A, B.
      apply lt_IZR in A, B. lia.
    + exfalso. assert (E : q - IZR f = 1 / 2) by lra.
      assert (A : IZR (2 * f + 1 - 2 * n) < 1).
      { rewrite minus_IZR, plus_IZR, !mult_IZR. lra. }
      assert (B : -1 < IZR (2 * f + 1 - 2 * n)).
      { rewrite minus_IZR, plus_IZR, !mult_IZR. lra. }
      apply lt_IZR in A, B. lia.
Qed.

Lemma round_half_even_IZR (n : Z) : round_half_even (IZR n) = n.
Proof. apply round_half_even_near. rewrite Rminus_diag, Rabs_R0. lra. Qed.

Lemma binary64_not_NaN (x : R) : binary64 x <> NaN.
Proof.
  unfold binary64. cbv zeta.
  destruct (Rleb _ _); [destruct (Rltb 0 x)|]; discriminate.
Qed.

Lemma binary64_0 : binary64 0 = Fin 0.
Proof.
  unfold binary64. cbv zeta.
  replace (0 / powerRZ 2 (ulp_exponent (Rabs 0))) with (IZR 0)
    by (unfold Rdiv; lra).
  rewrite round_half_even_IZR, Rmult_0_l, Rabs_R0.
  rewrite Rleb_false; [reflexivity|]. pose proof (pow2_pos 1024). lra.
Qed.

(* A number in the normal range rounds to the nearest multiple of its
   unit in the last place. *)
Lemma binary64_normal (x : R) (k n : Z) :
  (-1022 <= k <= 1023)%Z ->
  powerRZ 2 k <= Rabs x < powerRZ 2 (k + 1) ->
  Rabs (x / powerRZ 2 (k - 52) - IZR n) < 1 / 2 ->
  Rabs (IZR n * powerRZ 2 (k - 52)) < powerRZ 2 1024 ->
  binary64 x = Fin (IZR n * powerRZ 2 (k - 52)).
Proof.
  intros Hk Ha Hn Hr. unfold binary64. cbv zeta.
  rewrite (ulp_exponent_normal _ k Hk Ha).
  rewrite (round_half_even_near _ n Hn).
  rewrite Rleb_false; [reflexivity|lra].
Qed.

(* the integers below 2^53 are binary64 numbers *)
Lemma binary64_IZR (z : Z) : (Z.abs z < 2 ^ 53)%Z -> binary64 (IZR z) = Fin (IZR z).
Proof.
  intros Hz. destruct (Z.eq_dec z 0) as [->|Hnz]; [exact binary64_0|].
  set (k := Z.log2 (Z.abs z)).
  assert (Hk : (0 <= k <= 52)%Z).
  { split; [apply Z.log2_nonneg|].
    assert (k < 53)%Z; [|lia]. apply Z.log2_lt_pow2; lia. }
  destruct (Z.log2_spec (Z.abs z) ltac:(lia)) as [L1 L2]. fold k in L1, L2.
  assert (Ha : powerRZ 2 k <= Rabs (IZR z) < powerRZ 2 (k + 1)).
  { rewrite <- abs_IZR, !pow2_IZR by lia.
    replace (Z.succ k) with (k + 1)%Z in L2 by lia.
    split; [apply IZR_le | apply IZR_lt]; assumption. }
  pose proof (pow2_pos (k - 52)) as P1.
  assert (Hq : IZR z / powerRZ 2 (k - 52) = IZR (z * 2 ^ (52 - k))).
  { rewrite mult_IZR, <- pow2_IZR by lia.
    replace (52 - k)%Z with (- (k - 52))%Z by lia.
    rewrite powerRZ_neg'. reflexivity. }
  assert (Hr : IZR (z * 2 ^ (52 - k)) * powerRZ 2 (k - 52) = IZR z).
  { rewrite <- Hq. field. lra. }
  rewrite (binary64_normal (IZR z) k (z * 2 ^ (52 - k))).
  - rewrite Hr. reflexivity.
  - lia.
  - exact Ha.
  - rewrite Hq, Rminus_diag, Rabs_R0. lra.
  - rewrite Hr. destruct Ha as [_ Ha].
    pose proof (pow2_le (k + 1) 1024 ltac:(lia)). lra.
Qed.

Lemma fl_not_NaN (a : num) : is_NaN a = false -> is_NaN (fl a) = false.
Proof.
  destruct a as [r| | |]; intros H; try exact H. cbn [fl].
  pose proof (binary64_not_NaN r). destruct (binary64 r); try reflexivity.
  contradiction.
Qed.

Lemma fsub_not_NaN (x y : R) : is_NaN (fsub (Fin x) (Fin y)) = false.
Proof. apply fl_not_NaN. reflexivity. Qed.

(* a quotient by a positive number is a number or an infinity *)
Lemma fdiv_not_NaN (a : num) (w : R) :
  is_NaN a = false -> 0 < w -> is_NaN (fdiv a (Fin w)) = false.
Proof.
  intros Ha Hw. apply fl_not_NaN.
  destruct a as [r| | |]; try discriminate; cbn [ndiv].
  - rewrite (Reqb_false w 0) by lra. reflexivity.
  - rewrite (Rleb_true 0 w) by lra. reflexivity.
  - rewrite (Rleb_true 0 w) by lra. reflexivity.
Qed.

Lemma fsub_diag (x : R) : fsub (Fin x) (Fin x) = Fin 0.
Proof.
  unfold fsub. cbn [nsub nadd nneg fl].
  replace (x + - x) with 0 by lra. exact binary64_0.
Qed.

Lemma fdiv_0_l (w : R) : 0 < w -> fdiv (Fin 0) (Fin w) = Fin 0.
Proof.
  intros Hw. unfold fdiv. cbn [ndiv]. rewrite (Reqb_false w 0) by lra.
  cbn [fl]. replace (0 / w) with 0 by (unfold Rdiv; lra). exact binary64_0.
Qed.

(** ** The raster sampler *)

Lemma array_get_in_range (d : list num) (z : Z) :
  (0 <= z)%Z -> (Z.to_nat z < length d)%nat ->
  exists v, nth_error d (Z.to_nat z) = Some v /\ array_get d (Fin (IZR z)) = Some v.
Proof.
  intros Hz Hlen.
  destruct (nth_error d (Z.to_nat z)) as [v|] eqn:E.
  - exists v. split; [reflexivity|]. unfold array_get.
    rewrite Int_part_IZR. rewrite (Reqb_true _ _ eq_refl).
    replace (0 <=? z)%Z with true by (symmetry; apply Z.leb_le; exact Hz).
    exact E.
  - apply nth_error_None in E. lia.
Qed.

Lemma is_nodata_spec (x : R) :
  is_nodata (Fin x) = true
  <-> (x < -9999 \/ 100000 < x \/ x = -9999 \/ x = -32768).
Proof.
  unfold is_nodata, ngt. cbn [nlt neqb].
  rewrite !orb_true_iff, !Rltb_spec, !Reqb_spec. tauto.
Qed.

(* The pixel that is read, for two quotients that are not NaN: null off
   the grid, and the stored sample of the cell on it. *)
Lemma readPixel_floor (image : Image) (x y : num) :
  (0 < img_width image)%Z -> (0 < img_height image)%Z ->
  length (img_data image) = Z.to_nat (img_width image * img_height image) ->
  is_NaN x = false -> is_NaN y = false ->
  let result := readPixel (loadLayer image) (Math_floor x) (Math_floor y) in
  (~ pixel_in_grid image (floor_index x) (floor_index y) -> result = SNull)
  /\ (forall c r : Z,
        floor_index x = Some c -> floor_index y = Some r ->
        pixel_in_grid image (floor_index x) (floor_index y) ->
        exists v : num,
          nth_error (img_data image) (Z.to_nat (r * img_width image + c)) = Some v
          /\ (Z.to_nat (r * img_width image + c) < length (img_data image))%nat
          /\ result = if is_nodata v then SNull else SValue v).
Proof.
  intros Hw Hh Hlen Nx Ny. cbv zeta.
  unfold readPixel. cbn [loadLayer data width height].
  destruct x as [x| | |]; try discriminate; destruct y as [y| | |]; try discriminate;
    cbn [Math_floor floor_index pixel_in_grid nlt nge nle orb];
    rewrite ?orb_true_r;
    try (split; [reflexivity | intros c r; discriminate]).
  rewrite (Rltb_IZR _ 0), (Rltb_IZR _ 0), !Rleb_IZR.
  set (c := Int_part x). set (r := Int_part y).
  destruct ((c <? 0)%Z || (img_width image <=? c)%Z
            || (r <? 0)%Z || (img_height image <=? r)%Z) eqn:G.
  - split; [reflexivity|]. intros c' r' _ _ [Hc Hr]. exfalso.
    rewrite !orb_true_iff, !Z.ltb_lt, !Z.leb_le in G. lia.
  - rewrite !orb_false_iff, !Z.ltb_ge, !Z.leb_gt in G.
    cbn [nmul nadd]. rewrite <- mult_IZR, <- plus_IZR.
    destruct (array_get_in_range (img_data image) (r * img_width image + c))
      as (v & Hnth & Hget); [nia | rewrite Hlen; nia |].
    rewrite Hget. split.
    + intros Hn. exfalso. apply Hn. lia.
    + intros c' r' Ec Er _. injection Ec as <-. injection Er as <-.
      exists v. split; [exact Hnth|]. split; [rewrite Hlen; nia | reflexivity].
Qed.

(* Whatever the two quotients round to, the index that is read lies
   inside the array. *)
Lemma readPixel_in_bounds (image : Image) (x y : num) :
  image_ok image ->
  is_NaN x = false -> is_NaN y = false ->
  readPixel (loadLayer image) (Math_floor x) (Math_floor y) <> SUndefined.
Proof.
  intros (Hw & Hh & _ & _ & Hlen & _) Nx Ny.
  destruct (readPixel_floor image x y Hw Hh Hlen Nx Ny) as [H1 H2].
  cbv zeta in H1, H2.
  destruct (floor_index x) as [c|] eqn:Ex; [destruct (floor_index y) as [r|] eqn:Ey|].
  - destruct (Z_lt_dec c 0) as [L|L];
      [rewrite H1; [discriminate | cbn; lia]|].
    destruct (Z_lt_dec c (img_width image)) as [L1|L1];
      [|rewrite H1; [discriminate | cbn; lia]].
    destruct (Z_lt_dec r 0) as [L2|L2];
      [rewrite H1; [discriminate | cbn; lia]|].
    destruct (Z_lt_dec r (img_height image)) as [L3|L3];
      [|rewrite H1; [discriminate | cbn; lia]].
    destruct (H2 c r eq_refl eq_refl) as (v & _ & _ & E); [cbn; lia|].
    rewrite E. destruct (is_nodata v); discriminate.
  - rewrite H1; [discriminate | cbn; intros []].
  - rewrite H1; [discriminate | cbn; intros []].
Qed.

(** C4. For a loaded raster layer and a coordinate (lon, lat), the sampler
    returns null when the coordinate is outside the bounding box, when
    col = floor((lon - minX) / cellWidth) or row = floor((maxY - lat) /
    cellHeight) is outside the grid, or when the stored value is a NODATA
    value (below -9999, above 100000, or equal to -9999 or -32768);
    otherwise it returns samples[row * width + col].  Here col and row are
    the numbers that the code computes, every difference and quotient
    rounded to binary64.  The index that is read is always inside the
    array: no coordinate, the four edges of the bounding box included,
    makes the sampler read past the end.  On the west and north edges the
    pixel is in column 0 and row 0. *)
Theorem sampler_characterisation :
  forall (env : Env) (layer : layer_key) (image : Image) (lon lat : R),
    geotiffCache env layer = Some (loadLayer image) ->
    image_ok image ->
    let col := pixel_col image lon in
    let row := pixel_row image lat in
    let result := extractValueFromGeoTIFF env (Fin lon) (Fin lat) layer in
    result <> SUndefined
    /\ (outside_bbox image lon lat -> result = SNull)
    /\ (~ pixel_in_grid image col row -> result = SNull)
    /\ (~ outside_bbox image lon lat -> pixel_in_grid image col row ->
        forall c r : Z, col = Some c -> row = Some r ->
        exists v : num,
          nth_error (img_data image) (Z.to_nat (r * img_width image + c)) = Some v
          /\ (Z.to_nat (r * img_width image + c) < length (img_data image))%nat
          /\ result = if is_nodata v then SNull else SValue v)
    /\ (lon = bbox0 image -> col = Some 0%Z)
    /\ (lat = bbox3 image -> row = Some 0%Z)
    /\ (forall x : R,
          is_nodata (Fin x) = true
          <-> (x < -9999 \/ 100000 < x \/ x = -9999 \/ x = -32768))
    /\ (forall x y : num,
          is_NaN x = false -> is_NaN y = false ->
          readPixel (loadLayer image) (Math_floor x) (Math_floor y)
          <> SUndefined).
Proof.
  intros env layer image lon lat Hc Hok col row result.
  pose proof Hok as (Hw & Hh & Hx & Hy & Hlen & _ & (cw & Ecw & Hcw) & (ch & Ech & Hch)).
  set (qx := fdiv (fsub (Fin lon) (Fin (bbox0 image))) (cellWidth (loadLayer image))).
  set (qy := fdiv (fsub (Fin (bbox3 image)) (Fin lat)) (cellHeight (loadLayer image))).
  assert (Nx : is_NaN qx = false).
  { unfold qx. rewrite Ecw. apply fdiv_not_NaN; [apply fsub_not_NaN | exact Hcw]. }
  assert (Ny : is_NaN qy = false).
  { unfold qy. rewrite Ech. apply fdiv_not_NaN; [apply fsub_not_NaN | exact Hch]. }
  assert (Hres : result
                 = if Rltb lon (bbox0 image) || Rltb (bbox2 image) lon
                      || Rltb lat (bbox1 image) || Rltb (bbox3 image) lat
                   then SNull
                   else readPixel (loadLayer image) (Math_floor qx) (Math_floor qy)).
  { subst result. unfold extractValueFromGeoTIFF. rewrite Hc. reflexivity. }
  set (outside := Rltb lon (bbox0 image) || Rltb (bbox2 image) lon
                  || Rltb lat (bbox1 image) || Rltb (bbox3 image) lat) in Hres.
  assert (Ho : outside = true <-> outside_bbox image lon lat).
  { unfold outside, outside_bbox. rewrite !orb_true_iff, !Rltb_spec.
    split; intros H; repeat destruct H as [H|H]; auto. }
  destruct (readPixel_floor image qx qy Hw Hh Hlen Nx Ny) as [G1 G2].
  cbv zeta in G1, G2.
  change (floor_index qx) with col in G1, G2.
  change (floor_index qy) with row in G1, G2.
  split.
  { rewrite Hres. destruct outside; [discriminate|].
    apply readPixel_in_bounds; assumption. }
  split.
  { intros Hout. apply Ho in Hout. rewrite Hres, Hout. reflexivity. }
  split.
  { intros Hn. rewrite Hres. destruct outside; [reflexivity | exact (G1 Hn)]. }
  split.
  { intros Hin Hg c r Ec Er. rewrite Hres.
    destruct outside; [exfalso; apply Hin, Ho; reflexivity|].
    exact (G2 c r Ec Er Hg). }
  split.
  { intros ->. unfold col, pixel_col. rewrite fsub_diag, Ecw, (fdiv_0_l cw Hcw).
    cbn [floor_index]. rewrite (Int_part_IZR 0). reflexivity. }
  split.
  { intros ->. unfold row, pixel_row. rewrite fsub_diag, Ech, (fdiv_0_l ch Hch).
    cbn [floor_index]. rewrite (Int_part_IZR 0). reflexivity. }
  split; [exact is_nodata_spec|].
  intros x y. apply readPixel_in_bounds. exact Hok.
Qed.

(** ** The split-ratio adjuster *)

Lemma ratios_ok_intro (b m l : R) :
  b + m + l = 1 -> 0 <= b <= 1 -> 0 <= m <= 1 -> 0 <= l <= 1 ->
  ratios_ok {| base_ratio := Fin b; mid_ratio := Fin m; late_ratio := Fin l |}.
Proof.
  intros Hs Hb Hm Hl. exists b, m, l. repeat split; try tauto.
  replace (b + m + l - 1) with 0 by lra. rewrite Rabs_R0. lra.
Qed.

Lemma adjustFertilizerRatio_ok :
  forall (sowingDate : string) (cropType : crop) (tempForecast : num),
    ratios_ok (adjustFertilizerRatio sowingDate cropType tempForecast).
Proof.
  intros sowingDate cropType tempForecast.
  unfold adjustFertilizerRatio, adjustFertilizerRatio_try.
  set (daysDiff := Math_round _).
  destruct cropType;
    destruct (nlt daysDiff (Fin (-7))); try destruct (ngt daysDiff (Fin 7));
    match goal with
    | |- context [nlt tempForecast ?c] => destruct (nlt tempForecast c)
    end;
    cbn [try_catch]; num_eval.
  all: try (apply ratios_ok_intro; lra).
Qed.

Lemma Ratios_eq (b m l b' m' l' : R) :
  b = b' -> m = m' -> l = l' ->
  {| base_ratio := Fin b; mid_ratio := Fin m; late_ratio := Fin l |}
  = {| base_ratio := Fin b'; mid_ratio := Fin m'; late_ratio := Fin l' |}.
Proof. intros -> -> ->. reflexivity. Qed.

Lemma ratios_binary64_sum (daysDiff tempForecast : float) (cropType : crop) :
  ratios_binary64_ok (ratios_binary64 daysDiff tempForecast cropType) = true.
Proof.
  unfold ratios_binary64.
  destruct cropType;
    destruct (daysDiff <? -7)%float; try destruct (7 <? daysDiff)%float;
    match goal with
    | |- context [(tempForecast <? ?c)%float] =>
        destruct (tempForecast <? c)%float
    end;
    vm_compute; reflexivity.
Qed.

(** C5. For both crops, each of the three sowing-date regimes and every
    temperature forecast, the three fractions returned by the split-ratio
    adjuster are numbers in [0,1] whose sum is within 1e-6 of 1: in exact
    arithmetic for every sowing date, and in binary64 for every day
    difference. *)
Theorem adjustFertilizerRatio_sums_to_one :
  (forall (sowingDate : string) (cropType : crop) (tempForecast : num),
     ratios_ok (adjustFertilizerRatio sowingDate cropType tempForecast))
  /\ (forall (daysDiff tempForecast : float) (cropType : crop),
        ratios_binary64_ok (ratios_binary64 daysDiff tempForecast cropType)
        = true).
Proof. split; [exact adjustFertilizerRatio_ok | exact ratios_binary64_sum]. Qed.

(* An unparseable sowing date does not reach the catch block: the day
   difference is NaN, the normal regime is chosen, and the temperature
   adjustment is applied to it as for any other date. *)
Lemma adjustFertilizerRatio_invalid_date (sowingDate : string) (cropType : crop)
  (tempForecast : num) :
  Date_parse sowingDate = NaN ->
  adjustFertilizerRatio_try sowingDate cropType tempForecast
  = Returned (normal_regime_ratios cropType tempForecast)
  /\ adjustFertilizerRatio sowingDate cropType tempForecast
     = normal_regime_ratios cropType tempForecast.
Proof.
  intros H.
  assert (E : adjustFertilizerRatio_try sowingDate cropType tempForecast
              = Returned (normal_regime_ratios cropType tempForecast)).
  { unfold adjustFertilizerRatio_try, normal_regime_ratios.
    rewrite H, nsub_NaN_l, ndiv_NaN_l.
    cbn [Math_round nlt ngt].
    destruct cropType;
      match goal with
      | |- context [nlt tempForecast ?c] => destruct (nlt tempForecast c)
      end;
      num_eval; f_equal; apply Ratios_eq; lra. }
  split; [exact E|]. unfold adjustFertilizerRatio. rewrite E. reflexivity.
Qed.

(** ** The timing advisor *)

Lemma generateTimingAdvice_can (cropType : string) (gs : GrowthStage)
  (weather : WeatherAnalysis) :
  can_fertilize (generateTimingAdvice cropType gs weather)
  = let st := stage gs in
    let can := suitable weather && negb (string_in st ["成熟期"; "收获期"]%string) in
    if String.eqb cropType "水稻"
    then (if String.eqb st "播种期" then can
          else if String.eqb st "分蘖期" then can
          else if string_in st ["拔节期"; "孕穗期"]%string then can
          else if String.eqb st "成熟期" then false else can)
    else (if String.eqb st "播种期" then can
          else if String.eqb st "越冬期" then false
          else if String.eqb st "返青期" then can
          else if String.eqb st "拔节期" then can
          else if String.eqb st "成熟期" then false else can).
Proof.
  unfold generateTimingAdvice. cbv zeta.
  destruct (String.eqb cropType "水稻");
    repeat match goal with
    | |- context [if ?c then _ else _] =>
        lazymatch c with
        | String.eqb (stage gs) _ => destruct c
        | string_in (stage gs) ["拔节期"; "孕穗期"]%string => destruct c
        end
    end;
    destruct (warning weather) as [w0|];
    try destruct (negb (String.eqb w0 "")); reflexivity.
Qed.

(** C9. The can-fertilize flag of the timing advice is true exactly when
    the weather is suitable and the growth stage computed from the days
    since sowing is not maturity and, for wheat, not overwintering.  The
    stage is maturity exactly when a sowing date is given and the days
    since sowing are not below the crop's last threshold (105 for rice,
    240 for wheat); it is overwintering exactly for wheat from day 60 to
    day 119. *)
Theorem generateTimingAdvice_can_fertilize :
  forall (now : num) (cropType : string) (sowingDate : option string)
         (weather : WeatherAnalysis),
    let gs := calculateGrowthStage now cropType sowingDate in
    let days := daysSinceSowing now sowingDate in
    can_fertilize (generateTimingAdvice cropType gs weather)
    = suitable weather
      && negb (String.eqb (stage gs) "成熟期")
      && (String.eqb cropType "水稻" || negb (String.eqb (stage gs) "越冬期"))
    /\ String.eqb (stage gs) "成熟期"
       = truthy_str sowingDate && negb (days <? maturity_days cropType)%num
    /\ String.eqb (stage gs) "越冬期"
       = truthy_str sowingDate && negb (String.eqb cropType "水稻")
         && negb (days <? 60)%num && (days <? 120)%num.
Proof.
  intros now cropType sowingDate weather.
  cbv zeta. rewrite generateTimingAdvice_can.
  unfold calculateGrowthStage, calculateGrowthStage_try, daysSinceSowing,
    maturity_days, falsy_str.
  set (days := Math_round _).
  destruct weather as [ok w].
  destruct (truthy_str sowingDate) eqn:Hsd; cbn [negb];
    destruct (String.eqb cropType "水稻") eqn:Hc.
  all: cbn [try_catch suitable warning stage mkStage andb orb negb].
  all: destruct days as [d | | |]; cbn [nlt]; unfold Rltb; decide_days.
  all: cbn; rewrite ?andb_true_r, ?andb_false_r; auto.
Qed.

(** ** Request validation *)

(** C8. A request to /calculate whose longitude and latitude, as read by
    parseFloat, are not both numbers inside [110,122] x [28,33] is answered
    with status 400 and a reason, and nothing else happens: no
    recommendation is computed, nothing is saved, and the random generator
    is not advanced. *)
Theorem calculate_rejects_outside_window :
  forall (env : Env) (data : Request) (s : rng),
    coordinates_in_window data = false ->
    exists reason : string,
      calculate_handler env (Some data) s = (Rejected 400 reason, [], s)
      /\ reason <> ""%string.
Proof.
  intros env data s H. unfold coordinates_in_window in H.
  unfold calculate_handler. rewrite H. cbn [negb].
  repeat match goal with
  | |- context [if ?c then (Rejected _ _, _, _) else _] => destruct c
  end;
  eexists; (split; [reflexivity | discriminate]).
Qed.

(** ** Randomness *)


Lemma getSimulatedSoilNutrients_rest (lon lat : num) (s : rng) (n : nat) :
  snd (getSimulatedSoilNutrients lon lat s) n = s (3 + n)%nat.
Proof. reflexivity. Qed.



(** ** Provenance of the soil values *)

Lemma resolveSoil_flags env inputParams cropType s :
  let d := fst (resolveSoil env inputParams cropType s) in
  is_default d = negb (raster_hit env inputParams)
  /\ implb (simulated_or_default (source_AN d) && simulated_or_default (source_AP d)
            && simulated_or_default (source_AK d)) (is_default d) = true
  /\ implb (is_GeoTIFF (source_AN d) || is_GeoTIFF (source_AP d)
            || is_GeoTIFF (source_AK d)) (negb (is_default d)) = true.
Proof.
  unfold resolveSoil, raster_hit.
  set (lon := num_or _ _). set (lat := num_or _ _).
  destruct (is_some (ip_lon inputParams) && is_some (ip_lat inputParams)).
  - unfold getSoilNutrientsWithCustom.
    destruct (getSimulatedSoilNutrients lon lat s) as [sim s'].
    unfold getSoilNutrientsFromGeoTIFF, apply_geotiff.
    cbn [has_valid_data gt_AN gt_AP gt_AK fst andb].
    destruct (not_null (extractValueFromGeoTIFF env lon lat AN));
    destruct (not_null (extractValueFromGeoTIFF env lon lat AP));
    destruct (not_null (extractValueFromGeoTIFF env lon lat AK));
    cbn [orb];
    destruct (custom_soil_data inputParams) as [[[cn|] [cp|] [ck|]]|];
    cbn; auto.
  - destruct (custom_soil_data inputParams), (use_custom_soil inputParams);
      cbn; auto.
Qed.
(** C2, as the code has it.  The flag is_default of a recommendation is
    false exactly when coordinates were given and the raster sampler
    returned a value for at least one nutrient, whether or not a manual
    value then replaced it; manual input does not clear the flag.  So the
    flag is true whenever the source of every nutrient is SIMULATED or
    DEFAULT, and false whenever the source of a nutrient is RASTER. *)
Theorem is_default_tracks_raster :
  forall (env : Env) (inputParams : InputParams) (cropType : crop)
         (strawSourceType : option crop) (s : rng),
    let r := fst (calculateFertilizerRecommendation env inputParams cropType
                    strawSourceType s) in
    let '(srcN, srcP, srcK) := rec_sources r in
    rec_is_default r = negb (raster_hit env inputParams)
    /\ implb (simulated_or_default srcN && simulated_or_default srcP
              && simulated_or_default srcK) (rec_is_default r) = true
    /\ implb (is_GeoTIFF srcN || is_GeoTIFF srcP || is_GeoTIFF srcK)
             (negb (rec_is_default r)) = true.
Proof.
  intros env inputParams cropType strawSourceType s.
  pose proof (resolveSoil_flags env inputParams cropType s) as H.
  unfold calculateFertilizerRecommendation.
  destruct (resolveSoil env inputParams cropType s) as [soil s'].
  destruct (resolveSowingDate _ _ _ _ _) as [[sd st] en].
  cbn [fst rec_sources rec_is_default] in *. exact H.
Qed.

(** ** Product masses *)

(** C6, as the code has it.  For rice, the mass of each product is the
    nutrient mass of its stage divided by the content fraction of the
    product (urea 0.46, superphosphate 0.12, potassium chloride 0.60) and
    rounded to one decimal, where the stage nutrient masses are the
    required fertilizer masses split by the stage fractions, with the
    additional straw nitrogen added to the base dressing and potassium
    split 0.6 / 0.4.  For wheat, the product masses come from the
    yield-level table alone: the formula fertilizer and the jointing urea
    are the mid-range amounts of the level, and superphosphate and
    potassium chloride are the P and K contents of the formula fertilizer
    divided by 0.12 and 0.60; the required fertilizer masses are not
    used. *)
Theorem product_masses_from_nutrient_masses :
  forall (env : Env) (inputParams : InputParams) (cropType : crop)
         (strawSourceType : option crop) (s : rng),
    let r := fst (calculateFertilizerRecommendation env inputParams cropType
                    strawSourceType s) in
    let b := recommendationBalance env inputParams cropType strawSourceType
               (fst (resolveSoil env inputParams cropType s)) in
    let ratio := resolvedRatios env inputParams cropType in
    match cropType with
    | rice =>
        exists u : RiceUsage,
          plan r = RicePlan u
          /\ (let nBase := (nFertilizer b * (base_ratio ratio ||n 0.50)
                            + nAdditional b)%num in
              urea_base u = round1 (nBase / Fin 0.46) /\ N_base u = round1 nBase)
          /\ (let nTiller := (nFertilizer b * (mid_ratio ratio ||n 0.25))%num in
              urea_tiller u = round1 (nTiller / Fin 0.46)
              /\ N_tiller u = round1 nTiller)
          /\ (let nPanicle := (nFertilizer b * (late_ratio ratio ||n 0.25))%num in
              urea_panicle u = round1 (nPanicle / Fin 0.46)
              /\ N_panicle u = round1 nPanicle)
          /\ superphosphate_base u = round1 (pFertilizer b / Fin 0.12)
          /\ P2O5_total u = round1 (pFertilizer b)
          /\ kcl_base u = round1 (kFertilizer b * Fin 0.6 / Fin 0.60)
          /\ kcl_panicle u = round1 (kFertilizer b * Fin 0.4 / Fin 0.60)
          /\ K2O_total u = round1 (kFertilizer b)
    | wheat =>
        exists (u : WheatUsage) (formulaKg ureaKg : num),
          plan r = WheatPlan u
          /\ getWheatFertilizerByYield (resolvedYield inputParams)
             = (formulaKg, ureaKg)
          /\ formula_base u = round1 formulaKg
          /\ urea_jointing u = round1 ureaKg
          /\ w_N_jointing u = round1 (ureaKg * Fin 0.46)
          /\ w_N_base u = round1 (formulaKg * (Fin 20 / Fin 100))
          /\ (let formulaP := (formulaKg * (Fin 15 / Fin 100))%num in
              w_superphosphate_base u = round1 (formulaP / Fin 0.12)
              /\ w_P2O5_total u = round1 formulaP)
          /\ (let formulaK := (formulaKg * (Fin 10 / Fin 100))%num in
              w_kcl_base u = round1 (formulaK / Fin 0.60)
              /\ w_K2O_total u = round1 formulaK)
    end.
Proof.
  intros env inputParams cropType strawSourceType s r b ratio.
  subst r b ratio. unfold calculateFertilizerRecommendation, resolvedRatios.
  destruct (resolveSoil env inputParams cropType s) as [soil s'].
  destruct (resolveSowingDate _ _ _ _ _) as [[sd st] en].
  cbn [fst plan].
  destruct cropType.
  - eexists. split; [reflexivity|].
    cbn. repeat split; reflexivity.
  - unfold wheatPlan, resolvedYield.
    destruct (getWheatFertilizerByYield _) as [fk uk].
    eexists. exists fk, uk. split; [reflexivity|]. split; [reflexivity|].
    cbn. repeat split; reflexivity.
Qed.
(** ** Zero soil values *)

Lemma rice_supply_zero_N (soilP soilK om ph : num) :
  fst (fst (fst (calculateSoilSupply (Fin 0) soilP soilK om ph rice))) = NaN.
Proof.
  unfold calculateSoilSupply. cbn [fst].
  num_eval. reflexivity.
Qed.

(* the same in binary64, for both zeros *)
Lemma rice_nitrogen_binary64_zero_N :
  is_nan (rice_nitrogen_binary64 500 0 20.7 0.8925 0.30) = true
  /\ is_nan (rice_nitrogen_binary64 500 (-0) 20.7 0.8925 0.30) = true.
Proof. split; vm_compute; reflexivity. Qed.

Lemma nutrientBalance_zero_N targetYield soil om ph straw st eff :
  soil_N soil = Some (Fin 0) ->
  nFertilizer (nutrientBalance targetYield soil om ph straw st rice eff) = NaN.
Proof.
  intros H. unfold nutrientBalance. rewrite H. cbn [to_number nullish].
  pose proof (rice_supply_zero_N (to_number (soil_P soil)) (to_number (soil_K soil)) om ph) as E.
  destruct (calculateSoilSupply 0 _ _ om ph rice) as [[[a b] c] d]. cbn in E. subst a.
  destruct (calculateNutrientRequirement targetYield rice) as [[x y] z].
  destruct (calculateStrawSupply straw st) as [[[p q] r] t].
  destruct eff as [[e1 e2] e3]. cbn [nFertilizer].
  rewrite nsub_NaN_r, nsub_NaN_l. reflexivity.
Qed.
Lemma ricePlan_NaN (b : Balance) (ratio : Ratios) :
  nFertilizer b = NaN ->
  let u := ricePlan b ratio in
  urea_base u = NaN /\ urea_tiller u = NaN /\ urea_panicle u = NaN
  /\ N_base u = NaN /\ N_tiller u = NaN /\ N_panicle u = NaN.
Proof.
  intros H. unfold ricePlan. cbn. rewrite H.
  rewrite !nmul_NaN_l, !nadd_NaN_l, !ndiv_NaN_l. repeat split; reflexivity.
Qed.

Lemma custom_N_wins env lon lat c s v :
  custom_N c = Some v ->
  soil_N (fst (getSoilNutrientsWithCustom env lon lat (Some c) s)) = Some v.
Proof.
  intros H. unfold getSoilNutrientsWithCustom.
  destruct (getSimulatedSoilNutrients lon lat s) as [sim s'].
  cbn [fst]. unfold apply_custom. rewrite H.
  destruct (custom_P c), (custom_K c); reflexivity.
Qed.

(** C1 at a soil nitrogen of zero.  The request for rice at Wuhan with
    a manual soil nitrogen of 0 mg/kg passes the validation, and every
    urea mass and nitrogen mass of the answer is NaN. *)
Theorem zero_soil_N_gives_NaN :
  forall (env : Env) (s : rng),
  exists (r : Recommendation) (u : RiceUsage),
    fst (fst (calculate_handler env (Some request_zero_N) s)) = Computed r
    /\ plan r = RicePlan u
    /\ (urea_base u = NaN /\ urea_tiller u = NaN /\ urea_panicle u = NaN
        /\ N_base u = NaN /\ N_tiller u = NaN /\ N_panicle u = NaN)
    /\ ~ Forall nonneg (masses r).
Proof.
  intros env s. unfold calculate_handler, request_zero_N.
  cbn [rq_crop rq_yield rq_date rq_lon rq_lat rq_custom_soil_data rq_use_custom_soil
       truthy_json valid_crop is_some is_null parseFloat negb orb andb
       parse_custom parse_custom_value raw_N raw_P raw_K custom_N custom_P custom_K
       out_of_range in_window].
  repeat match goal with
  | |- context [String.eqb ?a ?b] =>
      let v := eval vm_compute in (String.eqb a b) in
      change (String.eqb a b) with v
  end.
  cbn [negb andb orb].
  num_eval. cbn [negb andb orb].
  unfold in_window. num_eval. cbn [negb andb orb].
  unfold calculateFertilizerRecommendation.
  set (ip := {| target_yield := _ |}).
  assert (Hs : soil_N (fst (resolveSoil env ip rice s)) = Some (Fin 0)).
  { unfold resolveSoil. cbn [ip ip_lon ip_lat is_some andb custom_soil_data].
    apply custom_N_wins. reflexivity. }
  destruct (resolveSoil env ip rice s) as [soil s'].
  destruct (resolveSowingDate _ _ _ _ _) as [[sd st] en].
  cbn [fst plan] in *.
  eexists. eexists. split; [reflexivity|]. split; [reflexivity|].
  match goal with
  | |- context [ricePlan ?b ?ratio] =>
      assert (HN : nFertilizer b = NaN)
        by (unfold recommendationBalance; apply nutrientBalance_zero_N; exact Hs);
      pose proof (ricePlan_NaN b ratio HN) as Hu
  end.
  split; [exact Hu|].
  intros F. unfold masses in F. cbn [plan] in F.
  apply Forall_inv in F. destruct Hu as [Hu _]. cbv zeta in Hu.
  rewrite Hu in F. exact F.
Qed.
(** ** Non-negative masses away from zero soil values *)

(* The lemmas of this part are statements of exact arithmetic.  In binary64
   a positive soil value can still be too small for them: for the smallest
   positive number, 0.15 times the value is rounded to 0 and 4799.9239
   divided by the value is an infinity, so the required nitrogen is NaN
   as it is for the value 0. *)
Lemma rice_nitrogen_binary64_subnormal_N :
  (0 <? 0x1p-1074)%float = true
  /\ is_nan (rice_nitrogen_binary64 500 0x1p-1074 20.7 0.8925 0.30) = true.
Proof. split; vm_compute; reflexivity. Qed.

Lemma fin_nonneg_nonneg (a : num) : fin_nonneg a -> nonneg a.
Proof. intros (r & -> & H). exact H. Qed.

Lemma Math_max_0_div (x e : R) :
  0 < e -> fin_nonneg (Math_max (Fin 0) (Fin x / Fin e)).
Proof.
  intros He. cbn [ndiv]. rewrite (Reqb_false e 0) by lra.
  cbn [Math_max nlt]. unfold Rltb.
  destruct (Rlt_dec 0 (x / e)); eexists; (split; [reflexivity | lra]).
Qed.

Lemma Int_part_nonneg (x : R) : 0 <= x -> (0 <= Int_part x)%Z.
Proof.
  intros H. destruct (base_Int_part x) as [_ H2].
  apply le_IZR. 
  assert (-1 < IZR (Int_part x)) by lra.
  assert (L : (-1 < Int_part x)%Z) by (apply lt_IZR; exact H0).
  apply IZR_le. lia.
Qed.

Lemma round1_nonneg (a : num) : fin_nonneg a -> fin_nonneg (round1 a).
Proof.
  intros (x & -> & H). unfold round1. cbn [nmul Math_round ndiv].
  rewrite (Reqb_false 10 0) by lra.
  eexists. split; [reflexivity|].
  assert (0 <= IZR (Int_part (x * 10 + 1 / 2))).
  { apply IZR_le, Int_part_nonneg. lra. }
  lra.
Qed.

Lemma soil_supply_finite (cropType : crop) (N P K om ph : R) :
  0 < N -> 0 < P -> 0 < K ->
  exists (a b c : R) (i : SoilImpact),
    calculateSoilSupply (Fin N) (Fin P) (Fin K) (Fin om) (Fin ph) cropType
    = (Fin a, Fin b, Fin c, i).
Proof.
  intros HN HP HK. unfold calculateSoilSupply, ph_adjustment, om_impact_N,
    om_impact_P, om_impact_K.
  destruct ((Fin ph >=? 6.0)%num && (Fin ph <=? 7.0)%num);
    destruct cropType; cbn [Math_exp nmul]; num_eval;
    do 4 eexists; reflexivity.
Qed.

Lemma ph_adjustment_positive (ph : R) :
  exists f : R, ph_adjustment (Fin ph) = Fin f /\ 0 < f.
Proof.
  unfold ph_adjustment.
  destruct ((Fin ph >=? 6.0)%num && (Fin ph <=? 7.0)%num);
    eexists; (split; [reflexivity | lra]).
Qed.

Lemma straw_supply_finite (amount : R) (strawType : crop) :
  exists a b c d : R,
    calculateStrawSupply (Fin amount) strawType = (Fin a, Fin b, Fin c, Fin d)
    /\ 0 <= d.
Proof.
  unfold calculateStrawSupply. cbn [nle]. unfold Rleb.
  destruct (Rle_dec amount 0).
  - exists 0, 0, 0, 0. split; [reflexivity | lra].
  - destruct strawType; cbn [defaultParams rice_params wheat_params
      straw_moisture straw_N straw_P straw_K N_release_rate P_release_rate
      K_release_rate]; num_eval; do 4 eexists; (split; [reflexivity | nra]).
Qed.

Lemma fin_nonneg_Fin (c : R) : 0 <= c -> fin_nonneg (Fin c).
Proof. intros H. exists c. split; [reflexivity | exact H]. Qed.

Lemma fin_nonneg_add (a b : num) :
  fin_nonneg a -> fin_nonneg b -> fin_nonneg (a + b).
Proof.
  intros (x & -> & Hx) (y & -> & Hy). exists (x + y).
  split; [reflexivity | lra].
Qed.

Lemma fin_nonneg_mul (a b : num) :
  fin_nonneg a -> fin_nonneg b -> fin_nonneg (a * b).
Proof.
  intros (x & -> & Hx) (y & -> & Hy). exists (x * y).
  split; [reflexivity | nra].
Qed.

Lemma fin_nonneg_div (a : num) (c : R) :
  fin_nonneg a -> 0 < c -> fin_nonneg (a / Fin c).
Proof.
  intros (x & -> & Hx) Hc. cbn [ndiv]. rewrite (Reqb_false c 0) by lra.
  exists (x / c). split; [reflexivity|].
  apply Rmult_le_pos; [exact Hx|]. apply Rlt_le, Rinv_0_lt_compat, Hc.
Qed.

Lemma fin_nonneg_or (a : num) (d : R) :
  fin_nonneg a -> 0 <= d -> fin_nonneg (num_or a (Fin d)).
Proof.
  intros Ha Hd. unfold num_or. destruct (truthy a); [exact Ha|].
  apply fin_nonneg_Fin, Hd.
Qed.

Lemma efficiency_positive (o : option num) (d : R) :
  efficiency_ok o -> 0 < d -> exists e : R, nullish o (Fin d) = Fin e /\ 0 < e.
Proof.
  intros Ho Hd. destruct o as [[e| | |]|]; cbn in Ho; try contradiction.
  - exists e. split; [reflexivity | exact Ho].
  - exists d. split; [reflexivity | exact Hd].
Qed.

Lemma nutrientBalance_nonneg (ty N P K om ph straw : R) (soil : SoilData)
  (st cropType : crop) (eN eP eK : option num) :
  soil_N soil = Some (Fin N) -> soil_P soil = Some (Fin P) ->
  soil_K soil = Some (Fin K) ->
  0 < N -> 0 < P -> 0 < K ->
  efficiency_ok eN -> efficiency_ok eP -> efficiency_ok eK ->
  let b := nutrientBalance (Fin ty) soil (Fin om) (Fin ph) (Fin straw) st cropType
             (eN, eP, eK) in
  fin_nonneg (nFertilizer b) /\ fin_nonneg (pFertilizer b)
  /\ fin_nonneg (kFertilizer b) /\ fin_nonneg (nAdditional b).
Proof.
  intros EN EP EK HN HP HK HeN HeP HeK. cbv zeta. unfold nutrientBalance.
  rewrite EN, EP, EK. cbn [to_number nullish].
  destruct (soil_supply_finite cropType N P K om ph HN HP HK)
    as (a & b & c & i & E). rewrite E.
  destruct (straw_supply_finite straw st) as (sa & sb & sc & sd & E2 & Hsd).
  rewrite E2.
  destruct (ph_adjustment_positive ph) as (f & Ef & Hf). rewrite Ef.
  assert (Hreq : exists x y z : R,
             calculateNutrientRequirement (Fin ty) cropType = (Fin x, Fin y, Fin z)).
  { unfold calculateNutrientRequirement.
    destruct cropType; cbn [defaultParams rice_params wheat_params N_per_100kg
      P_per_100kg K_per_100kg]; num_eval; do 3 eexists; reflexivity. }
  destruct Hreq as (x & y & z & E3). rewrite E3.
  destruct (efficiency_positive eN
              (match cropType with rice => 0.30 | wheat => 0.40 end) HeN)
    as (e1 & E1 & H1); [destruct cropType; lra|].
  destruct (efficiency_positive eP
              (match cropType with rice => 0.25 | wheat => 0.18 end) HeP)
    as (e2 & E2' & H2); [destruct cropType; lra|].
  destruct (efficiency_positive eK
              (match cropType with rice => 0.45 | wheat => 0.50 end) HeK)
    as (e3 & E3' & H3); [destruct cropType; lra|].
  replace (N_fertilizer_efficiency (defaultParams cropType))
    with (Fin (match cropType with rice => 0.30 | wheat => 0.40 end))
    by (destruct cropType; reflexivity).
  replace (P_fertilizer_efficiency (defaultParams cropType))
    with (Fin (match cropType with rice => 0.25 | wheat => 0.18 end))
    by (destruct cropType; reflexivity).
  replace (K_fertilizer_efficiency (defaultParams cropType))
    with (Fin (match cropType with rice => 0.45 | wheat => 0.50 end))
    by (destruct cropType; reflexivity).
  rewrite E1, E2', E3'.
  cbn [nFertilizer pFertilizer kFertilizer nAdditional nsub nadd nneg nmul].
  repeat split.
  - apply Math_max_0_div, H1.
  - apply Math_max_0_div. nra.
  - apply Math_max_0_div, H3.
  - apply fin_nonneg_Fin, Hsd.
Qed.

Lemma ratio_or_nonneg (r : Ratios) :
  ratios_ok r ->
  fin_nonneg (base_ratio r ||n 0.50) /\ fin_nonneg (mid_ratio r ||n 0.25)
  /\ fin_nonneg (late_ratio r ||n 0.25).
Proof.
  intros (b & m & l & -> & -> & -> & _ & Hb & Hm & Hl).
  repeat split; apply fin_nonneg_or; try lra; apply fin_nonneg_Fin; lra.
Qed.

Lemma ricePlan_nonneg (b : Balance) (ratio : Ratios) :
  fin_nonneg (nFertilizer b) -> fin_nonneg (pFertilizer b) ->
  fin_nonneg (kFertilizer b) -> fin_nonneg (nAdditional b) ->
  ratios_ok ratio ->
  let u := ricePlan b ratio in
  Forall nonneg
    [urea_base u; urea_tiller u; urea_panicle u; superphosphate_base u;
     kcl_base u; kcl_panicle u;
     N_base u; N_tiller u; N_panicle u; P2O5_total u; K2O_total u].
Proof.
  intros Hn Hp Hk Ha Hr. destruct (ratio_or_nonneg ratio Hr) as (Rb & Rm & Rl).
  cbv zeta. unfold ricePlan, urea_N_content, superphosphate_P_content,
    potassium_chloride_K_content. cbn [urea_base urea_tiller urea_panicle
    superphosphate_base kcl_base kcl_panicle N_base N_tiller N_panicle
    P2O5_total K2O_total].
  repeat constructor; apply fin_nonneg_nonneg, round1_nonneg;
    repeat first
      [ assumption
      | apply fin_nonneg_div; [|lra]
      | apply fin_nonneg_add
      | apply fin_nonneg_mul
      | apply fin_nonneg_Fin; lra ].
Qed.

Lemma wheatPlan_nonneg (targetYield : num) :
  let u := wheatPlan targetYield in
  Forall nonneg
    [formula_base u; urea_jointing u; w_superphosphate_base u; w_kcl_base u;
     w_N_base u; w_N_jointing u; w_P2O5_total u; w_K2O_total u].
Proof.
  cbv zeta. unfold wheatPlan, getWheatFertilizerByYield, yield_levels,
    last_yield_level, formula_ratio, urea_N_content, superphosphate_P_content,
    potassium_chloride_K_content.
  cbn [find yl_min yl_max].
  repeat match goal with
  | |- context [if ?c then Some _ else _] => destruct c
  end;
  cbn [base_fertilizer urea_tillering fst snd]; num_eval;
  cbn [formula_base urea_jointing w_superphosphate_base w_kcl_base
       w_N_base w_N_jointing w_P2O5_total w_K2O_total];
  repeat constructor; apply fin_nonneg_nonneg, round1_nonneg;
    repeat first
      [ apply fin_nonneg_div; [|lra]
      | apply fin_nonneg_mul
      | apply fin_nonneg_Fin; lra ].
Qed.

Lemma masses_nonneg_for_positive_soil env inputParams cropType strawSourceType s
  (N P K ty om ph amount : R) :
  let soil := fst (resolveSoil env inputParams cropType s) in
  soil_N soil = Some (Fin N) -> soil_P soil = Some (Fin P) ->
  soil_K soil = Some (Fin K) ->
  0 < N -> 0 < P -> 0 < K ->
  resolvedYield inputParams = Fin ty ->
  organic_matter inputParams ?? Fin 20.7 = Fin om ->
  soil_ph inputParams ?? Fin 8.18 = Fin ph ->
  resolvedStrawAmount inputParams cropType = Fin amount ->
  (let '(eN, eP, eK) := resolvedEfficiency env inputParams cropType in
   efficiency_ok eN /\ efficiency_ok eP /\ efficiency_ok eK) ->
  Forall nonneg
    (masses (fst (calculateFertilizerRecommendation env inputParams cropType
                    strawSourceType s))).
Proof.
  cbv zeta. intros EN EP EK HN HP HK Ety Eom Eph Eam Heff.
  unfold calculateFertilizerRecommendation.
  destruct (resolveSoil env inputParams cropType s) as [soil s'].
  destruct (resolveSowingDate _ _ _ _ _) as [[sd st] en].
  cbn [fst] in *. unfold masses. cbn [plan].
  destruct cropType.
  - unfold recommendationBalance.
    fold (resolvedYield inputParams). fold (resolvedStrawAmount inputParams rice).
    fold (resolvedEfficiency env inputParams rice).
    rewrite Ety, Eom, Eph, Eam.
    destruct (resolvedEfficiency env inputParams rice) as [[eN eP] eK].
    destruct Heff as (HeN & HeP & HeK).
    destruct (nutrientBalance_nonneg ty N P K om ph amount soil
                (strawSourceType ?? other_crop rice) rice eN eP eK
                EN EP EK HN HP HK HeN HeP HeK) as (F1 & F2 & F3 & F4).
    apply ricePlan_nonneg; try assumption.
    apply adjustFertilizerRatio_ok.
  - apply wheatPlan_nonneg.
Qed.
Lemma clamp_finite (lo hi x : R) :
  lo <= hi ->
  exists v : R, Math_max (Fin lo) (Math_min (Fin hi) (Fin x)) = Fin v /\ lo <= v <= hi.
Proof.
  intros H. cbn [Math_min nlt]. unfold Rltb.
  destruct (Rlt_dec x hi); cbn [Math_max nlt]; unfold Rltb;
    match goal with
    | |- context [Rlt_dec ?a ?b] => destruct (Rlt_dec a b)
    end;
    eexists; (split; [reflexivity | lra]).
Qed.

Lemma round_tenth_positive (v : R) :
  1 <= v -> exists x : R, (Math_round (Fin v * 10) / 10)%num = Fin x /\ 0 < x.
Proof.
  intros H. cbn [nmul Math_round ndiv]. rewrite (Reqb_false 10 0) by lra.
  eexists. split; [reflexivity|].
  destruct (base_Int_part (v * 10 + 1 / 2)) as [_ H2].
  assert (9 < IZR (Int_part (v * 10 + 1 / 2))) by lra.
  lra.
Qed.

Lemma simulated_positive (lon lat : R) (s : rng) :
  let sim := fst (getSimulatedSoilNutrients (Fin lon) (Fin lat) s) in
  exists N P K : R,
    soil_N sim = Some (Fin N) /\ soil_P sim = Some (Fin P)
    /\ soil_K sim = Some (Fin K) /\ 0 < N /\ 0 < P /\ 0 < K.
Proof.
  cbv zeta. unfold getSimulatedSoilNutrients, rand, Math_random.
  cbn [fst snd soil_N soil_P soil_K nadd nsub nneg nmul].
  match goal with
  | |- context [Math_max (Fin 50) (Math_min (Fin 150) (Fin ?x))] =>
      destruct (clamp_finite 50 150 x) as (a & Ea & Ha); [lra|]; rewrite Ea
  end.
  match goal with
  | |- context [Math_max (Fin 5) (Math_min (Fin 40) (Fin ?x))] =>
      destruct (clamp_finite 5 40 x) as (b & Eb & Hb); [lra|]; rewrite Eb
  end.
  match goal with
  | |- context [Math_max (Fin 60) (Math_min (Fin 200) (Fin ?x))] =>
      destruct (clamp_finite 60 200 x) as (c & Ec & Hc); [lra|]; rewrite Ec
  end.
  destruct (round_tenth_positive a) as (N & EN & HN); [lra|].
  destruct (round_tenth_positive b) as (P & EP & HP); [lra|].
  destruct (round_tenth_positive c) as (K & EK & HK); [lra|].
  exists N, P, K. rewrite EN, EP, EK. repeat split; assumption.
Qed.

Lemma in_window_finite (lon lat : num) :
  in_window lon lat = true ->
  exists x y : R, lon = Fin x /\ lat = Fin y /\ 110 <= x /\ 28 <= y.
Proof.
  unfold in_window, nge. intros H.
  rewrite !andb_true_iff in H. destruct H as [[[H1 H2] H3] H4].
  destruct lon as [x| | |]; try discriminate;
    destruct lat as [y| | |]; try discriminate.
  cbn [nle] in *. apply Rleb_spec in H1, H3.
  exists x, y. repeat split; assumption.
Qed.

Lemma parse_custom_value_range (v : json) (hi : R) :
  out_of_range (parse_custom_value v) (Fin 0) (Fin hi) = false ->
  nonzero_opt (parse_custom_value v) ->
  match parse_custom_value v with
  | Some a => exists x : R, a = Fin x /\ 0 < x
  | None => True
  end.
Proof.
  unfold parse_custom_value. destruct (is_null v); [trivial|].
  destruct (parseFloat v) as [x| | |]; cbn; try discriminate; trivial.
  unfold Rltb. destruct (Rlt_dec x 0); [discriminate|].
  intros _ Hx. exists x. split; [reflexivity | lra].
Qed.

Lemma resolved_yield_finite (ty : num) :
  ((ty <=? 0) || (ty >? 1000))%num = false ->
  exists x : R, num_or ty (Fin 500) = Fin x.
Proof.
  unfold num_or. destruct ty as [x| | |]; cbn; try discriminate;
    intros _; [destruct (negb (Reqb x 0))|]; eexists; reflexivity.
Qed.

Lemma no_data_soil (lon lat : R) (custom : option CustomSoil) (s : rng) :
  (forall c, custom = Some c ->
     match custom_N c with Some a => exists x : R, a = Fin x /\ 0 < x | None => True end
     /\ match custom_P c with Some a => exists x : R, a = Fin x /\ 0 < x | None => True end
     /\ match custom_K c with Some a => exists x : R, a = Fin x /\ 0 < x | None => True end) ->
  let soil := fst (getSoilNutrientsWithCustom no_data (Fin lon) (Fin lat) custom s) in
  exists N P K : R,
    soil_N soil = Some (Fin N) /\ soil_P soil = Some (Fin P)
    /\ soil_K soil = Some (Fin K) /\ 0 < N /\ 0 < P /\ 0 < K.
Proof.
  intros Hc. cbv zeta. unfold getSoilNutrientsWithCustom.
  pose proof (simulated_positive lon lat s) as Hs. cbv zeta in Hs.
  destruct (getSimulatedSoilNutrients (Fin lon) (Fin lat) s) as [sim s'].
  cbn [fst] in *.
  destruct Hs as (N & P & K & EN & EP & EK & HN & HP & HK).
  unfold getSoilNutrientsFromGeoTIFF, extractValueFromGeoTIFF, no_data.
  cbn [geotiffCache cache_AN cache_AP cache_AK not_null orb apply_geotiff
       has_valid_data].
  unfold apply_simulated. cbn [soil_N soil_P soil_K set_N set_P set_K].
  rewrite EN, EP, EK.
  destruct custom as [c|].
  - destruct (Hc c eq_refl) as (H1 & H2 & H3).
    unfold apply_custom.
    destruct (custom_N c) as [a|]; [destruct H1 as (x & -> & Hx)|];
    destruct (custom_P c) as [b|]; [destruct H2 as (y & -> & Hy)| |
                                    destruct H2 as (y & -> & Hy)|];
    destruct (custom_K c) as [d|]; try destruct H3 as (z & -> & Hz);
    cbn; do 3 eexists; repeat split; eassumption.
  - cbn. exists N, P, K. repeat split; assumption.
Qed.
(* With no raster and no feature data, every request that is accepted
   and has no manual soil value equal to zero gets masses that are
   numbers and not negative, in exact arithmetic. *)
Lemma accepted_request_masses_nonneg :
  forall (data : Request) (s s' : rng) (r : Recommendation) (ev : list event),
    calculate_handler no_data (Some data) s = (Computed r, ev, s') ->
    (rq_use_custom_soil data = true ->
     let c := parse_custom (rq_custom_soil_data data) in
     nonzero_opt (custom_N c) /\ nonzero_opt (custom_P c)
     /\ nonzero_opt (custom_K c)) ->
    Forall nonneg (masses r).
Proof.
  intros data s s' r ev. unfold calculate_handler.
  repeat match goal with
  | |- context [if ?c then (Rejected _ _, _, _) else _] =>
      destruct c eqn:?; [discriminate|]
  end.
  match goal with
  | |- context [calculateFertilizerRecommendation ?e ?p ?c ?t s] =>
      set (params := p); set (crop := c)
  end.
  intros Hr Hnz.
  assert (Er : r = fst (calculateFertilizerRecommendation no_data params
                          crop (Some (other_crop crop)) s)).
  { revert Hr.
    destruct (calculateFertilizerRecommendation no_data params crop
                (Some (other_crop crop)) s).
    intros Hr. inversion Hr. reflexivity. }
  subst r. clear Hr.
  match goal with
  | H : negb (in_window _ _) = false |- _ =>
      apply negb_false_iff, in_window_finite in H;
      destruct H as (x & y & Elon & Elat & Hx & Hy)
  end.
  match goal with
  | H : (_ || _)%bool = false |- _ =>
      match type of H with
      | context [parseFloat (rq_yield data)] =>
          destruct (resolved_yield_finite _ H) as (ty & Ety)
      end
  end.
  assert (Hsoil : exists N P K : R,
            let soil := fst (resolveSoil no_data params crop s) in
            soil_N soil = Some (Fin N) /\ soil_P soil = Some (Fin P)
            /\ soil_K soil = Some (Fin K) /\ 0 < N /\ 0 < P /\ 0 < K).
  { unfold resolveSoil. cbn [params ip_lon ip_lat is_some andb custom_soil_data
      parseFloat_opt nullish].
    rewrite Elon, Elat.
    replace (num_or (Fin x) (Fin 114.305)) with (Fin x)
      by (unfold num_or, truthy; rewrite (Reqb_false x 0) by lra; reflexivity).
    replace (num_or (Fin y) (Fin 30.592)) with (Fin y)
      by (unfold num_or, truthy; rewrite (Reqb_false y 0) by lra; reflexivity).
    apply no_data_soil.
    intros c Ec. destruct (rq_use_custom_soil data); [|discriminate].
    inversion Ec; subst c. specialize (Hnz eq_refl). cbv zeta in Hnz.
    destruct Hnz as (Z1 & Z2 & Z3).
    unfold parse_custom in *.
    destruct (rq_custom_soil_data data) as [raw|];
      cbn [custom_N custom_P custom_K] in *; [|tauto].
    repeat split; eapply parse_custom_value_range; eassumption. }
  destruct Hsoil as (N & P & K & Hsoil). cbv zeta in Hsoil.
  destruct Hsoil as (EN & EP & EK & HN & HP & HK).
  eapply (masses_nonneg_for_positive_soil no_data params crop
            (Some (other_crop crop)) s
            N P K ty 20.7 8.18
            (if match rq_crop data with
                | JString c => String.eqb c "水稻"
                | _ => false
                end then 600 else 700));
    try eassumption; try reflexivity.
  - unfold resolvedStrawAmount. cbn [params straw_return_amount nullish].
    destruct (match rq_crop data with JString c => _ | _ => false end); reflexivity.
  - unfold resolvedEfficiency. cbn [params ip_lon ip_lat is_some andb].
    unfold getFertilizerEfficiency. cbn. tauto.
Qed.

(** * Further properties *)

(** ** Nutrient levels and simulated soil *)

Lemma getNutrientLevel_rank (type : layer_key) (v w : R) :
  v <= w ->
  (level_rank (getNutrientLevel (Fin v) type)
   <= level_rank (getNutrientLevel (Fin w) type) <= 3)%nat.
Proof.
  intros H. destruct type; unfold getNutrientLevel; cbn [ranges nlt];
    unfold Rltb;
    repeat match goal with
    | |- context [Rlt_dec ?a ?b] => destruct (Rlt_dec a b)
    end; cbn [level_rank]; try lia; lra.
Qed.

(** X1. The classification of a soil value by [getNutrientLevel] is
    monotone: of two numbers, the larger never gets the lower level, and
    the level is one of low, medium, high, very high.  A value that is not
    a number (NaN) is classified as very high. *)
Theorem getNutrientLevel_monotone :
  forall (type : layer_key) (v w : R),
    v <= w ->
    (level_rank (getNutrientLevel (Fin v) type)
     <= level_rank (getNutrientLevel (Fin w) type) <= 3)%nat
    /\ getNutrientLevel NaN type = L_very_high.
Proof.
  intros type v w H. split; [apply getNutrientLevel_rank; exact H|].
  destruct type; reflexivity.
Qed.

Lemma round_tenth_range (lo hi : Z) (v : R) :
  IZR lo <= v <= IZR hi ->
  exists x : R, (Math_round (Fin v * 10) / 10)%num = Fin x /\ IZR lo <= x <= IZR hi.
Proof.
  intros H. cbn [nmul Math_round ndiv]. unfold Reqb.
  destruct (Req_dec_T 10 0); [lra|].
  eexists. split; [reflexivity|].
  destruct (base_Int_part (v * 10 + 1 / 2)) as [H1 H2].
  assert (L : (10 * lo - 1 < Int_part (v * 10 + 1 / 2))%Z).
  { apply lt_IZR. rewrite minus_IZR, mult_IZR. lra. }
  assert (U : (Int_part (v * 10 + 1 / 2) < 10 * hi + 1)%Z).
  { apply lt_IZR. rewrite plus_IZR, mult_IZR. lra. }
  assert (L' : IZR (10 * lo) <= IZR (Int_part (v * 10 + 1 / 2)))
    by (apply IZR_le; lia).
  assert (U' : IZR (Int_part (v * 10 + 1 / 2)) <= IZR (10 * hi))
    by (apply IZR_le; lia).
  rewrite mult_IZR in L', U'. lra.
Qed.

Lemma getNutrientLevel_not_low (type : layer_key) (v lo : R) :
  fst (fst (ranges type)) = Fin lo -> lo <= v ->
  getNutrientLevel (Fin v) type <> L_low.
Proof.
  unfold getNutrientLevel.
  destruct (ranges type) as [[a b] c]. cbn [fst]. intros E H. subst a.
  replace (Fin v <? Fin lo)%num with false
    by (symmetry; apply Rltb_false; lra).
  destruct (Fin v <? b)%num; [cbv iota; discriminate|].
  destruct (Fin v <? c)%num; cbv iota; discriminate.
Qed.

Lemma simulated_in_range (lon lat : R) (s : rng) :
  let sim := fst (getSimulatedSoilNutrients (Fin lon) (Fin lat) s) in
  in_range (soil_N sim) 50 150 /\ in_range (soil_P sim) 5 40
  /\ in_range (soil_K sim) 60 200
  /\ level_AN sim <> L_low /\ level_AP sim <> L_low /\ level_AK sim <> L_low.
Proof.
  cbv zeta. unfold getSimulatedSoilNutrients, rand, Math_random.
  cbn [fst snd soil_N soil_P soil_K level_AN level_AP level_AK
       nadd nsub nneg nmul].
  match goal with
  | |- context [Math_max (Fin 50) (Math_min (Fin 150) (Fin ?x))] =>
      destruct (clamp_finite 50 150 x) as (a & Ea & Ha); [lra|]; rewrite Ea
  end.
  match goal with
  | |- context [Math_max (Fin 5) (Math_min (Fin 40) (Fin ?x))] =>
      destruct (clamp_finite 5 40 x) as (b & Eb & Hb); [lra|]; rewrite Eb
  end.
  match goal with
  | |- context [Math_max (Fin 60) (Math_min (Fin 200) (Fin ?x))] =>
      destruct (clamp_finite 60 200 x) as (c & Ec & Hc); [lra|]; rewrite Ec
  end.
  destruct (round_tenth_range 50 150 a) as (N & EN & HN); [lra|].
  destruct (round_tenth_range 5 40 b) as (P & EP & HP); [lra|].
  destruct (round_tenth_range 60 200 c) as (K & EK & HK); [lra|].
  rewrite EN, EP, EK.
  repeat split; try (eexists; split; [reflexivity | lra]).
  - apply (getNutrientLevel_not_low AN a 50); [reflexivity | lra].
  - apply (getNutrientLevel_not_low AP b 5); [reflexivity | lra].
  - apply (getNutrientLevel_not_low AK c 50); [reflexivity | lra].
Qed.

(** X3. For finite coordinates and whatever the random generator returns,
    the simulated soil values are numbers inside the clamps of the code:
    nitrogen in [50,150], phosphorus in [5,40], potassium in [60,200]; and
    none of the three simulated levels is low. *)
Theorem getSimulatedSoilNutrients_in_range :
  forall (lon lat : R) (s : rng),
    let sim := fst (getSimulatedSoilNutrients (Fin lon) (Fin lat) s) in
    in_range (soil_N sim) 50 150 /\ in_range (soil_P sim) 5 40
    /\ in_range (soil_K sim) 60 200
    /\ level_AN sim <> L_low /\ level_AP sim <> L_low /\ level_AK sim <> L_low.
Proof. exact simulated_in_range. Qed.

(** ** The precedence of the resolver *)

Lemma resolver_precedence_aux (env : Env) (lon lat : num)
  (custom : option CustomSoil) (s : rng) (k : layer_key) :
  let d := fst (getSoilNutrientsWithCustom env lon lat custom s) in
  let raw := extractValueFromGeoTIFF env lon lat k in
  let sim := fst (getSimulatedSoilNutrients lon lat s) in
  match custom_value k custom with
  | Some v =>
      soil_value k d = Some v /\ soil_source k d = SRC_manual
      /\ soil_level k d = getNutrientLevel v k
  | None =>
      if not_null raw then
        soil_value k d = Some (Math_round (sample_num raw) / scaleFactor k)%num
        /\ soil_source k d = SRC_GeoTIFF
        /\ soil_level k d = getNutrientLevel (sample_num raw / scaleFactor k) k
      else
        soil_value k d = soil_value k sim /\ soil_source k d = SRC_simulated
        /\ soil_level k d = soil_level k sim
  end.
Proof.
  cbv zeta. unfold getSoilNutrientsWithCustom.
  assert (Hsim : exists a b c,
            soil_N (fst (getSimulatedSoilNutrients lon lat s)) = Some a
            /\ soil_P (fst (getSimulatedSoilNutrients lon lat s)) = Some b
            /\ soil_K (fst (getSimulatedSoilNutrients lon lat s)) = Some c).
  { unfold getSimulatedSoilNutrients, rand, Math_random.
    cbn [fst soil_N soil_P soil_K]. do 3 eexists. repeat split; reflexivity. }
  destruct (getSimulatedSoilNutrients lon lat s) as [sim s'].
  cbn [fst] in *. destruct Hsim as (a & b & c & Ea & Eb & Ec).
  unfold getSoilNutrientsFromGeoTIFF, apply_custom, custom_value.
  destruct k;
    generalize (extractValueFromGeoTIFF env lon lat AN)
               (extractValueFromGeoTIFF env lon lat AP)
               (extractValueFromGeoTIFF env lon lat AK);
    intros vN vP vK;
    (destruct custom as [[cN cP cK]|];
     [cbn [custom_N custom_P custom_K]; destruct cN, cP, cK|]);
    destruct vN, vP, vK;
    cbn -[getNutrientLevel Math_round ndiv]; rewrite ?Ea, ?Eb, ?Ec;
    cbn -[getNutrientLevel Math_round ndiv]; auto.
Qed.

(** X2. The resolver decides each nutrient on its own, in this order: a
    manual value, when given, is returned unchanged with source manual;
    otherwise the raster value, when the sampler returned one, rounded and
    divided by the scale factor of the layer, with source GeoTIFF;
    otherwise the simulated value with source simulated.  The level that
    comes with the value classifies the manual value itself, or the raster
    sample divided by the scale factor before the rounding, or is the level
    of the simulated record.  So the level of a raster value is not always
    the classification of the value that is returned: the sample 899.6
    gives the value 90, which classifies as high, with the level medium. *)
Theorem getSoilNutrientsWithCustom_precedence :
  (forall (env : Env) (lon lat : num) (custom : option CustomSoil) (s : rng)
          (k : layer_key),
      let d := fst (getSoilNutrientsWithCustom env lon lat custom s) in
      let raw := extractValueFromGeoTIFF env lon lat k in
      let sim := fst (getSimulatedSoilNutrients lon lat s) in
      match custom_value k custom with
      | Some v =>
          soil_value k d = Some v /\ soil_source k d = SRC_manual
          /\ soil_level k d = getNutrientLevel v k
      | None =>
          if not_null raw then
            soil_value k d = Some (Math_round (sample_num raw) / scaleFactor k)%num
            /\ soil_source k d = SRC_GeoTIFF
            /\ soil_level k d = getNutrientLevel (sample_num raw / scaleFactor k) k
          else
            soil_value k d = soil_value k sim /\ soil_source k d = SRC_simulated
            /\ soil_level k d = soil_level k sim
      end)
  /\ (Math_round (sample_num (SValue (Fin 899.6))) / scaleFactor AN)%num = Fin 90
  /\ getNutrientLevel (Fin 90) AN = L_high
  /\ getNutrientLevel (sample_num (SValue (Fin 899.6)) / scaleFactor AN) AN
     = L_medium.
Proof.
  split; [exact resolver_precedence_aux|].
  cbn [sample_num scaleFactor Math_round]. split; [|split].
  - round_to 900%Z. cbn [ndiv]. decide_reals. f_equal; lra.
  - unfold getNutrientLevel, ranges. num_eval. reflexivity.
  - unfold getNutrientLevel, ranges. num_eval. reflexivity.
Qed.

(** ** The nearest feature *)

Lemma nlt_irrefl (a : num) : nlt a a = false.
Proof. destruct a; cbn; try reflexivity. apply Rltb_false. lra. Qed.

Lemma nlt_trans (a b c : num) :
  nlt a b = true -> nlt b c = true -> nlt a c = true.
Proof.
  destruct a, b, c; cbn; try discriminate; try reflexivity.
  intros H1 H2. apply Rltb_spec in H1, H2. apply Rltb_true. lra.
Qed.

Lemma nlt_asym (a b : num) : nlt a b = true -> nlt b a = false.
Proof.
  intros H. destruct (nlt b a) eqn:E; [|reflexivity].
  pose proof (nlt_trans _ _ _ H E) as T. rewrite nlt_irrefl in T. discriminate.
Qed.

Lemma nearest_fold {A} (coords : A -> num * num) (p : num * num)
  (rest : list A) (best : A) :
  let d x := sqdist (coords x) p in
  let n := nearest coords p best rest in
  (n = best \/ (In n rest /\ nlt (d n) (d best) = true))
  /\ forall x, In x rest -> nlt (d x) (d n) = false.
Proof.
  revert best. induction rest as [|f rest IH]; intros best; cbv zeta.
  - cbn. split; [left; reflexivity | intros x []].
  - unfold nearest. cbn [fold_left].
    destruct (nlt (sqdist (coords f) p) (sqdist (coords best) p)) eqn:E.
    + specialize (IH f). cbv zeta in IH. unfold nearest in IH.
      destruct IH as [[-> | [Hin Hlt]] Hmin].
      * split; [right; split; [left; reflexivity | assumption]|].
        intros x [<- | Hx]; [apply nlt_irrefl | apply Hmin, Hx].
      * split; [right; split; [right; assumption | eapply nlt_trans; eassumption]|].
        intros x [<- | Hx]; [apply nlt_asym, Hlt | apply Hmin, Hx].
    + specialize (IH best). cbv zeta in IH. unfold nearest in IH.
      destruct IH as [[-> | [Hin Hlt]] Hmin].
      * split; [left; reflexivity|].
        intros x [<- | Hx]; [assumption | apply Hmin, Hx].
      * split; [right; split; [right; assumption | assumption]|].
        intros x [<- | Hx]; [|apply Hmin, Hx].
        match goal with
        | |- nlt ?a ?b = false => destruct (nlt a b) eqn:E2; [|reflexivity]
        end.
        rewrite (nlt_trans _ _ _ E2 Hlt) in E. discriminate.
Qed.

Lemma nearest_spec {A} (coords : A -> num * num) (p : num * num)
  (first : A) (rest : list A) :
  let n := nearest coords p first rest in
  In n (first :: rest)
  /\ forall x, In x (first :: rest) ->
       nlt (sqdist (coords x) p) (sqdist (coords n) p) = false.
Proof.
  cbv zeta.
  destruct (nearest_fold coords p rest first) as [[E | [Hin Hlt]] Hmin];
    cbv zeta in *.
  - split; [left; symmetry; exact E|].
    intros x [<- | Hx]; [rewrite E; apply nlt_irrefl | apply Hmin, Hx].
  - split; [right; exact Hin|].
    intros x [<- | Hx]; [apply nlt_asym, Hlt | apply Hmin, Hx].
Qed.

Lemma filter_nil_forall {A} (P : A -> bool) (l : list A) :
  filter P l = [] -> forall x, In x l -> P x = false.
Proof.
  intros H x Hx. destruct (P x) eqn:E; [|reflexivity].
  assert (In x (filter P l)) by (apply filter_In; auto).
  rewrite H in *. contradiction.
Qed.



Lemma getSowingDate_aux (env : Env) (lon lat : num) (cropType : crop) :
  let result := getSowingDate env lon lat cropType in
  let features := farmingFeatures env in
  ((forall f, In f features -> has_sowing_date f = false) -> result = None)
  /\ (forall f0, In f0 features -> has_sowing_date f0 = true ->
      exists f,
        In f features /\ has_sowing_date f = true
        /\ result = Some (sowing_date_start f, sowing_date_end f)
        /\ ((exists g, In g features /\ sowing_date_for cropType g = true) ->
            sowing_date_for cropType f = true)
        /\ forall g, In g features -> has_sowing_date g = true ->
             (sowing_date_for cropType f = true -> sowing_date_for cropType g = true) ->
             nlt (sqdist (g_coords g) (lon, lat)) (sqdist (g_coords f) (lon, lat))
             = false).
Proof.
  cbv zeta. unfold getSowingDate.
  change (fun f => truthy_str (sowing_date_start f)) with has_sowing_date.
  change (fun f => String.eqb (g_crop f) (cropMap cropType)
                   && truthy_str (sowing_date_start f))
    with (sowing_date_for cropType).
  split.
  - intros Hnone. destruct (farmingFeatures env) as [|a l] eqn:El; [reflexivity|].
    rewrite <- El in *.
    assert (E1 : filter has_sowing_date (farmingFeatures env) = []).
    { destruct (filter has_sowing_date _) as [|x xs] eqn:E; [reflexivity|].
      assert (In x (filter has_sowing_date (farmingFeatures env)))
        by (rewrite E; left; reflexivity).
      apply filter_In in H. destruct H as [Hin Hx].
      rewrite (Hnone x Hin) in Hx. discriminate. }
    assert (E2 : filter (sowing_date_for cropType) (farmingFeatures env) = []).
    { destruct (filter (sowing_date_for cropType) _) as [|x xs] eqn:E; [reflexivity|].
      assert (In x (filter (sowing_date_for cropType) (farmingFeatures env)))
        by (rewrite E; left; reflexivity).
      apply filter_In in H. destruct H as [Hin Hx].
      unfold sowing_date_for in Hx. apply andb_true_iff in Hx.
      destruct Hx as [_ Hx]. fold (has_sowing_date x) in Hx.
      rewrite (Hnone x Hin) in Hx. discriminate. }
    rewrite E2, E1. reflexivity.
  - intros f0 Hin0 Hf0.
    destruct (farmingFeatures env) as [|a l] eqn:El; [contradiction|].
    rewrite <- El in *. clear El a l.
    destruct (filter (sowing_date_for cropType) (farmingFeatures env))
      as [|c cs] eqn:Ec.
    + destruct (filter has_sowing_date (farmingFeatures env)) as [|c cs] eqn:Eh.
      { pose proof (filter_nil_forall _ _ Eh f0 Hin0) as F.
        rewrite F in Hf0. discriminate. }
      destruct (nearest_spec g_coords (lon, lat) c cs) as [Hn Hmin].
      rewrite <- Eh in Hn. apply filter_In in Hn. destruct Hn as [Hn1 Hn2].
      eexists. split; [exact Hn1|]. split; [exact Hn2|].
      split; [reflexivity|]. split.
      * intros (g & Hg & Eg).
        rewrite (filter_nil_forall _ _ Ec g Hg) in Eg. discriminate.
      * intros g Hg Hgn _. apply Hmin. rewrite <- Eh. apply filter_In. auto.
    + destruct (nearest_spec g_coords (lon, lat) c cs) as [Hn Hmin].
      rewrite <- Ec in Hn. apply filter_In in Hn. destruct Hn as [Hn1 Hn2].
      eexists. split; [exact Hn1|]. split.
      { unfold sowing_date_for in Hn2. apply andb_true_iff in Hn2. apply Hn2. }
      split; [reflexivity|]. split; [intros _; exact Hn2|].
      intros g Hg Hgn Himp. apply Hmin. rewrite <- Ec. apply filter_In. auto.
Qed.


Lemma getSowingDate_truthy (env : Env) (lon lat : num) (cropType : crop)
  (st en : option string) :
  getSowingDate env lon lat cropType = Some (st, en) -> truthy_str st = true.
Proof.
  intros H.
  destruct (getSowingDate_aux env lon lat cropType) as [Hnone Hsome].
  cbv zeta in *.
  destruct (existsb has_sowing_date (farmingFeatures env)) eqn:E.
  - apply existsb_exists in E. destruct E as (f0 & Hin & Hf0).
    destruct (Hsome f0 Hin Hf0) as (f & _ & Hf & Er & _).
    rewrite H in Er. inversion Er; subst. exact Hf.
  - rewrite Hnone in H; [discriminate|].
    intros f Hf. destruct (has_sowing_date f) eqn:E2; [|reflexivity].
    assert (existsb has_sowing_date (farmingFeatures env) = true)
      by (apply existsb_exists; eauto).
    congruence.
Qed.

Lemma truthy_str_nonempty (o : option string) (d : string) :
  truthy_str o = true -> o = Some d -> d <> ""%string.
Proof.
  intros H ->. cbn in H. intros ->. discriminate.
Qed.

Lemma resolveSowingDate_aux (env : Env) (inputParams : InputParams)
  (cropType : crop) (lon lat : num) :
  let d := fst (fst (resolveSowingDate env inputParams cropType lon lat)) in
  d <> ""%string
  /\ match sowing_date inputParams, sowing_window env inputParams cropType lon lat with
     | Some given, _ =>
         if String.eqb given "" then
           match sowing_window env inputParams cropType lon lat with
           | Some (start, _) => start = Some d
           | None => d = default_sowing_date cropType
           end
         else d = given
     | None, Some (start, _) => start = Some d
     | None, None => d = default_sowing_date cropType
     end.
Proof.
  cbv zeta. unfold resolveSowingDate, sowing_window.
  destruct (is_some (ip_lon inputParams) && is_some (ip_lat inputParams)).
  - destruct (getSowingDate env lon lat cropType) as [[st en]|] eqn:G.
    + pose proof (getSowingDate_truthy _ _ _ _ _ _ G) as T.
      destruct (sowing_date inputParams) as [given|]; unfold falsy_str.
      * cbn [truthy_str]. destruct (String.eqb given "") eqn:E; cbn [negb].
        -- rewrite T. cbn [negb fst nullish].
           destruct st as [s0|]; [|discriminate].
           split; [|reflexivity]. cbn [nullish].
           eapply truthy_str_nonempty; [exact T | reflexivity].
        -- cbn [truthy_str]. rewrite E. cbn [negb fst nullish].
           split; [|reflexivity]. intros ->. discriminate.
      * cbn [truthy_str negb]. rewrite T. cbn [negb fst nullish].
        destruct st as [s0|]; [|discriminate].
        split; [|reflexivity]. cbn [nullish].
        eapply truthy_str_nonempty; [exact T | reflexivity].
    + destruct (sowing_date inputParams) as [given|]; unfold falsy_str;
        cbn [truthy_str].
      * destruct (String.eqb given "") eqn:E; cbn [negb fst nullish].
        -- split; [|destruct cropType; reflexivity].
           destruct cropType; discriminate.
        -- split; [|reflexivity]. intros ->. discriminate.
      * cbn [negb fst]. split; [|destruct cropType; reflexivity].
        destruct cropType; discriminate.
  - destruct (sowing_date inputParams) as [given|]; unfold falsy_str;
      cbn [truthy_str].
    + destruct (String.eqb given "") eqn:E; cbn [negb fst nullish].
      * split; [|destruct cropType; reflexivity].
        destruct cropType; discriminate.
      * split; [|reflexivity]. intros ->. discriminate.
    + cbn [negb fst]. split; [|destruct cropType; reflexivity].
      destruct cropType; discriminate.
Qed.

(** X6. The sowing date that the recommendation uses is never empty, and
    it is chosen in this order: the date of the request when it is not
    empty; otherwise, when both coordinates were given and the farming
    schedule has a window for them, the start of that window; otherwise the
    default date of the crop. *)
Theorem resolveSowingDate_precedence :
  forall (env : Env) (inputParams : InputParams) (cropType : crop)
         (lon lat : num),
    let d := fst (fst (resolveSowingDate env inputParams cropType lon lat)) in
    d <> ""%string
    /\ match given_sowing_date inputParams,
             sowing_window env inputParams cropType lon lat with
       | Some given, _ => d = given
       | None, Some (start, _) => start = Some d
       | None, None => d = default_sowing_date cropType
       end.
Proof.
  intros env inputParams cropType lon lat.
  destruct (resolveSowingDate_aux env inputParams cropType lon lat) as [H1 H2].
  cbv zeta in *. split; [exact H1|]. unfold given_sowing_date.
  destruct (sowing_date inputParams) as [given|]; cbn [truthy_str].
  - destruct (String.eqb given ""); cbn [negb]; exact H2.
  - exact H2.
Qed.

(** ** Straw supply and the wheat amounts *)

(* X7 *)
Lemma calculateStrawSupply_linear (amount : R) (strawType : crop) :
  (amount <= 0 ->
   calculateStrawSupply (Fin amount) strawType = (Fin 0, Fin 0, Fin 0, Fin 0))
  /\ (0 < amount ->
      exists n p k extra : R,
        calculateStrawSupply (Fin amount) strawType = (Fin n, Fin p, Fin k, Fin extra)
        /\ match strawType with
           | rice => n = -0.00216 * amount /\ p = 0.00039 * amount
                     /\ k = 0.00864 * amount /\ extra = 0.003 * amount
           | wheat => n = 0.0014875 * amount /\ p = 0.0006375 * amount
                      /\ k = 0.00918 * amount /\ extra = 0.00425 * amount
           end).
Proof.
  unfold calculateStrawSupply. cbn [nle]. unfold Rleb. split; intros H.
  - destruct (Rle_dec amount 0); [reflexivity | lra].
  - destruct (Rle_dec amount 0); [lra|].
    destruct strawType; cbn [defaultParams rice_params wheat_params
      straw_moisture straw_N straw_P straw_K N_release_rate P_release_rate
      K_release_rate]; num_eval; do 4 eexists; (split; [reflexivity|]);
      repeat split; lra.
Qed.

Lemma calculateStrawSupply_NaN (strawType : crop) :
  calculateStrawSupply NaN strawType = (NaN, NaN, NaN, NaN).
Proof. destruct strawType; reflexivity. Qed.

(** X7. The nutrient supply of returned straw is zero for an amount that
    is not positive, and linear in a positive amount.  Rice straw gives a
    negative nitrogen supply (-0.00216 per kg: it binds nitrogen), wheat
    straw a positive one; both ask for additional nitrogen.  An amount
    that is not a number gives four NaN. *)
Theorem calculateStrawSupply_linear_in_amount :
  forall (amount : R) (strawType : crop),
    (amount <= 0 ->
     calculateStrawSupply (Fin amount) strawType = (Fin 0, Fin 0, Fin 0, Fin 0))
    /\ (0 < amount ->
        exists n p k extra : R,
          calculateStrawSupply (Fin amount) strawType
          = (Fin n, Fin p, Fin k, Fin extra)
          /\ match strawType with
             | rice => n = -0.00216 * amount /\ p = 0.00039 * amount
                       /\ k = 0.00864 * amount /\ extra = 0.003 * amount
             | wheat => n = 0.0014875 * amount /\ p = 0.0006375 * amount
                        /\ k = 0.00918 * amount /\ extra = 0.00425 * amount
             end)
    /\ calculateStrawSupply NaN strawType = (NaN, NaN, NaN, NaN).
Proof.
  intros amount strawType.
  destruct (calculateStrawSupply_linear amount strawType) as [H1 H2].
  split; [exact H1|]. split; [exact H2|]. apply calculateStrawSupply_NaN.
Qed.

(* X10 *)
Lemma getWheatFertilizerByYield_tiers_aux (y : R) :
  (0 <= y <= 300 -> getWheatFertilizerByYield (Fin y) = (Fin 27.5, Fin 7))
  /\ (300 < y <= 400 -> getWheatFertilizerByYield (Fin y) = (Fin 35, Fin 9))
  /\ (400 < y <= 500 -> getWheatFertilizerByYield (Fin y) = (Fin 45, Fin 11))
  /\ (500 < y \/ y < 0 -> getWheatFertilizerByYield (Fin y) = (Fin 52.5, Fin 13)).
Proof.
  unfold getWheatFertilizerByYield, yield_levels, last_yield_level.
  cbn [find yl_min yl_max nge nle]. unfold Rleb.
  repeat split; intros H;
    repeat match goal with
    | |- context [Rle_dec ?a ?b] => destruct (Rle_dec a b); try lra
    end;
    cbn [andb base_fertilizer urea_tillering fst snd]; num_eval;
    f_equal; f_equal; lra.
Qed.

Lemma getWheatFertilizerByYield_NaN :
  getWheatFertilizerByYield NaN = (Fin 52.5, Fin 13).
Proof.
  unfold getWheatFertilizerByYield, yield_levels, last_yield_level.
  cbn [find yl_min yl_max nge nle andb base_fertilizer urea_tillering fst snd].
  num_eval. f_equal; f_equal; lra.
Qed.

(** X10. The wheat amounts by yield level: up to 300 kg the formula
    fertilizer is 27.5 and the urea 7, up to 400 they are 35 and 9, up to
    500 they are 45 and 11, above 500 they are 52.5 and 13; a boundary
    yield (300, 400, 500) belongs to the lower level.  A negative yield and
    a yield that is not a number fall through to the last level and get
    the highest amounts. *)
Theorem getWheatFertilizerByYield_tiers :
  forall y : R,
    (0 <= y <= 300 -> getWheatFertilizerByYield (Fin y) = (Fin 27.5, Fin 7))
    /\ (300 < y <= 400 -> getWheatFertilizerByYield (Fin y) = (Fin 35, Fin 9))
    /\ (400 < y <= 500 -> getWheatFertilizerByYield (Fin y) = (Fin 45, Fin 11))
    /\ (500 < y \/ y < 0 ->
        getWheatFertilizerByYield (Fin y) = (Fin 52.5, Fin 13))
    /\ getWheatFertilizerByYield NaN = (Fin 52.5, Fin 13).
Proof.
  intros y.
  destruct (getWheatFertilizerByYield_tiers_aux y) as (H1 & H2 & H3 & H4).
  repeat split; try assumption. apply getWheatFertilizerByYield_NaN.
Qed.

(** ** The reported nitrogen split *)

Ltac round_among :=
  repeat match goal with
  | |- context [Int_part ?x] =>
      first
        [ replace (Int_part x) with 50%Z by (apply Int_part_spec; lra)
        | replace (Int_part x) with 100%Z by (apply Int_part_spec; lra)
        | replace (Int_part x) with 150%Z by (apply Int_part_spec; lra)
        | replace (Int_part x) with 200%Z by (apply Int_part_spec; lra)
        | replace (Int_part x) with 250%Z by (apply Int_part_spec; lra)
        | replace (Int_part x) with 300%Z by (apply Int_part_spec; lra)
        | replace (Int_part x) with 350%Z by (apply Int_part_spec; lra)
        | replace (Int_part x) with 400%Z by (apply Int_part_spec; lra)
        | replace (Int_part x) with 450%Z by (apply Int_part_spec; lra)
        | replace (Int_part x) with 500%Z by (apply Int_part_spec; lra)
        | replace (Int_part x) with 550%Z by (apply Int_part_spec; lra)
        | replace (Int_part x) with 600%Z by (apply Int_part_spec; lra)
        | replace (Int_part x) with 650%Z by (apply Int_part_spec; lra)
        | replace (Int_part x) with 700%Z by (apply Int_part_spec; lra)
        | replace (Int_part x) with 750%Z by (apply Int_part_spec; lra) ]
  end.

Lemma split_percent_sum (sowingDate : string) (cropType : crop) (tempForecast : num) :
  let r := adjustFertilizerRatio sowingDate cropType tempForecast in
  let d := match cropType with rice => Fin 0.25 | wheat => Fin 0.10 end in
  let d0 := match cropType with rice => Fin 0.50 | wheat => Fin 0.65 end in
  exists x y z : R,
    percent1 (base_ratio r ||n d0) = Fin x
    /\ percent1 (mid_ratio r ||n 0.25) = Fin y
    /\ percent1 (late_ratio r ||n d) = Fin z
    /\ x + y + z = 100 /\ 0 < x /\ 0 < y /\ 0 < z.
Proof.
  cbv zeta. unfold adjustFertilizerRatio, adjustFertilizerRatio_try.
  set (daysDiff := Math_round _).
  destruct cropType;
    destruct (nlt daysDiff (Fin (-7))); try destruct (ngt daysDiff (Fin 7));
    match goal with
    | |- context [nlt tempForecast ?c] => destruct (nlt tempForecast c)
    end;
    cbn [try_catch base_ratio mid_ratio late_ratio]; num_eval;
    unfold percent1, num_or, truthy; num_eval; cbn [negb Math_round]; num_eval;
    round_among;
    do 3 eexists; (split; [reflexivity|]); (split; [reflexivity|]);
    (split; [reflexivity|]); lra.
Qed.

(** X11. The three percentages of the nitrogen split that a
    recommendation reports are positive numbers whose sum is 100, for both
    crops, every sowing date and every temperature forecast. *)
Theorem nitrogen_split_percent_sums_to_100 :
  forall (env : Env) (inputParams : InputParams) (cropType : crop)
         (strawSourceType : option crop) (s : rng),
    let '(a, b, c) :=
      nitrogen_split_percent
        (fst (calculateFertilizerRecommendation env inputParams cropType
                strawSourceType s)) in
    exists x y z : R,
      a = Fin x /\ b = Fin y /\ c = Fin z
      /\ x + y + z = 100 /\ 0 < x /\ 0 < y /\ 0 < z.
Proof.
  intros env inputParams cropType strawSourceType s.
  unfold calculateFertilizerRecommendation.
  destruct (resolveSoil env inputParams cropType s) as [soil s'].
  destruct (resolveSowingDate _ _ _ _ _) as [[sd st] en].
  cbn [fst nitrogen_split_percent].
  match goal with
  | |- context [adjustFertilizerRatio ?d cropType ?t] =>
      pose proof (split_percent_sum d cropType t) as H
  end.
  cbv zeta in H. destruct cropType; exact H.
Qed.

(** ** The outcome of a request *)

Lemma valid_crop_truthy (v : json) : valid_crop v = true -> truthy_json v = true.
Proof.
  destruct v as [|n|c|b]; cbn; try discriminate.
  destruct (String.eqb_spec c ""); [subst; vm_compute; discriminate | reflexivity].
Qed.

Lemma in_window_not_null (a b : json) :
  in_window (parseFloat a) (parseFloat b) = true ->
  is_null a = false /\ is_null b = false.
Proof.
  intros H. apply in_window_finite in H. destruct H as (x & y & Ea & Eb & _).
  destruct a, b; cbn in *; try discriminate; split; reflexivity.
Qed.

Lemma resolveSoil_rest (env : Env) (inputParams : InputParams) (cropType : crop)
  (s : rng) :
  is_some (ip_lon inputParams) && is_some (ip_lat inputParams) = true ->
  forall n, snd (resolveSoil env inputParams cropType s) n = s (3 + n)%nat.
Proof.
  intros H n. unfold resolveSoil. rewrite H. unfold getSoilNutrientsWithCustom.
  match goal with
  | |- context [getSimulatedSoilNutrients ?a ?b s] =>
      pose proof (getSimulatedSoilNutrients_rest a b s n) as E;
      destruct (getSimulatedSoilNutrients a b s) as [sim s']
  end.
  exact E.
Qed.

Lemma calculateFertilizerRecommendation_snd (env : Env) (inputParams : InputParams)
  (cropType : crop) (strawSourceType : option crop) (s : rng) :
  snd (calculateFertilizerRecommendation env inputParams cropType strawSourceType s)
  = snd (resolveSoil env inputParams cropType s).
Proof.
  unfold calculateFertilizerRecommendation.
  destruct (resolveSoil env inputParams cropType s) as [d r].
  destruct (resolveSowingDate _ _ _ _ _) as [[sd st] en]. reflexivity.
Qed.

Lemma calculateFertilizerRecommendation_yield (env : Env) (inputParams : InputParams)
  (cropType : crop) (strawSourceType : option crop) (s : rng) :
  rec_target_yield
    (fst (calculateFertilizerRecommendation env inputParams cropType
            strawSourceType s))
  = resolvedYield inputParams.
Proof.
  unfold calculateFertilizerRecommendation, resolvedYield.
  destruct (resolveSoil env inputParams cropType s) as [d r].
  destruct (resolveSowingDate _ _ _ _ _) as [[sd st] en]. reflexivity.
Qed.

Lemma accepted_yield (ty : num) :
  ((ty <=? 0) || (ty >? 1000))%num = false ->
  exists y : R,
    num_or ty (Fin 500) = Fin y /\ 0 < y <= 1000
    /\ (ty = Fin y \/ (ty = NaN /\ y = 500)).
Proof.
  unfold num_or, ngt. destruct ty as [x| | |]; cbn [nle nlt truthy orb];
    try discriminate.
  - intros H. apply orb_false_iff in H. destruct H as [H1 H2].
    unfold Rleb in H1. destruct (Rle_dec x 0); [discriminate|].
    unfold Rltb in H2. destruct (Rlt_dec 1000 x); [discriminate|].
    rewrite (Reqb_false x 0) by lra. cbn [negb].
    exists x. split; [reflexivity|]. split; [lra | left; reflexivity].
  - intros _. exists 500. split; [reflexivity|]. split; [lra | right; auto].
Qed.

Lemma calculate_handler_outcome_aux (env : Env) (data : Request) (s : rng) :
  match calculate_handler env (Some data) s with
  | (Computed r, ev, s') =>
      request_accepted data = true
      /\ ev = [EvRecommendation; EvSaveCalculation]
      /\ (forall n, s' n = s (3 + n)%nat)
      /\ exists y : R,
           rec_target_yield r = Fin y /\ 0 < y <= 1000
           /\ (parseFloat (rq_yield data) = Fin y
               \/ (parseFloat (rq_yield data) = NaN /\ y = 500))
  | (Rejected status reason, ev, s') =>
      request_accepted data = false /\ status = 400%Z /\ ev = [] /\ s' = s
      /\ reason <> ""%string
  end.
Proof.
  unfold calculate_handler, request_accepted. cbv zeta.
  destruct (valid_crop (rq_crop data)) eqn:Hc.
  2:{ rewrite orb_true_r. cbn [andb]. repeat split; discriminate. }
  rewrite (valid_crop_truthy _ Hc). cbn [negb orb andb].
  destruct (truthy_json (rq_yield data)) eqn:Hy; cbn [negb andb].
  2:{ repeat split; discriminate. }
  destruct (in_window (parseFloat (rq_lon data)) (parseFloat (rq_lat data))) eqn:Hw.
  2:{ rewrite andb_false_r. cbn [andb negb].
      repeat match goal with
      | |- context [if ?c then (Rejected _ _, _, _) else _] => destruct c
      end; repeat split; discriminate. }
  destruct (in_window_not_null _ _ Hw) as [Nl Nt]. rewrite Nl, Nt.
  rewrite andb_false_r. cbn [negb andb orb].
  destruct ((parseFloat (rq_yield data) <=? 0)%num
            || (parseFloat (rq_yield data) >? 1000)%num) eqn:Hr; cbn [negb andb].
  1:{ repeat split; discriminate. }
  destruct (out_of_range (custom_N _) _ _); cbn [negb andb];
    [repeat split; discriminate|].
  destruct (out_of_range (custom_P _) _ _); cbn [negb andb];
    [repeat split; discriminate|].
  destruct (out_of_range (custom_K _) _ _); cbn [negb andb];
    [repeat split; discriminate|].
  match goal with
  | |- context [calculateFertilizerRecommendation env ?p ?c ?t s] =>
      pose proof (calculateFertilizerRecommendation_snd env p c t s) as Es;
      pose proof (calculateFertilizerRecommendation_yield env p c t s) as Ey;
      pose proof (resolveSoil_rest env p c s eq_refl) as Er;
      destruct (calculateFertilizerRecommendation env p c t s) as [r s']
  end.
  cbn [fst snd] in *.
  split; [reflexivity|]. split; [reflexivity|]. split.
  - intros n. rewrite Es. apply Er.
  - rewrite Ey. unfold resolvedYield. cbn [target_yield nullish].
    apply accepted_yield. exact Hr.
Qed.

(** X13. A request body sent to /calculate is answered with a
    recommendation exactly when it passes the checks of the handler (a
    valid crop, a yield that is present and neither <= 0 nor > 1000,
    coordinates inside the window, manual soil values inside their
    ranges).  Then the recommendation is computed and saved, and exactly
    three values are drawn from the random generator.  Otherwise the answer
    has status 400 and a reason, nothing is computed or saved, and the
    generator is not advanced. *)
Theorem calculate_handler_outcome :
  forall (env : Env) (data : Request) (s : rng),
    match calculate_handler env (Some data) s with
    | (Computed r, ev, s') =>
        request_accepted data = true
        /\ ev = [EvRecommendation; EvSaveCalculation]
        /\ forall n, s' n = s (3 + n)%nat
    | (Rejected status reason, ev, s') =>
        request_accepted data = false /\ status = 400%Z /\ ev = [] /\ s' = s
        /\ reason <> ""%string
    end.
Proof.
  intros env data s.
  pose proof (calculate_handler_outcome_aux env data s) as H.
  destruct (calculate_handler env (Some data) s) as [[[status reason|r] ev] s'].
  - exact H.
  - destruct H as (H1 & H2 & H3 & _). repeat split; assumption.
Qed.

(** X14. The target yield of an answered request is a number in (0,
    1000]: the yield of the request, or 500 when the yield of the request
    does not parse as a number (such a yield passes the range check,
    because both comparisons with NaN are false). *)
Theorem calculate_handler_yield :
  forall (env : Env) (data : Request) (s : rng),
    match calculate_handler env (Some data) s with
    | (Computed r, _, _) =>
        exists y : R,
          rec_target_yield r = Fin y /\ 0 < y <= 1000
          /\ (parseFloat (rq_yield data) = Fin y
              \/ (parseFloat (rq_yield data) = NaN /\ y = 500))
    | (Rejected _ _, _, _) => request_accepted data = false
    end.
Proof.
  intros env data s.
  pose proof (calculate_handler_outcome_aux env data s) as H.
  destruct (calculate_handler env (Some data) s) as [[[status reason|r] ev] s'].
  - apply H.
  - apply H.
Qed.

(** ** An unparseable sowing date *)









(** ** The random source *)





(** ** The growth stage of an unparseable date *)

Lemma calculateGrowthStage_invalid_aux (now : num) (cropType : string)
  (sowingDate : option string) (weather : WeatherAnalysis) :
  truthy_str sowingDate = true ->
  Date_parse (nullish sowingDate ""%string) = NaN ->
  calculateGrowthStage now cropType sowingDate = mkStage "成熟期" "灌浆成熟"
  /\ can_fertilize
       (generateTimingAdvice cropType
          (calculateGrowthStage now cropType sowingDate) weather) = false.
Proof.
  intros T H.
  assert (E : calculateGrowthStage now cropType sowingDate
              = mkStage "成熟期" "灌浆成熟").
  { unfold calculateGrowthStage, calculateGrowthStage_try, falsy_str.
    rewrite T, H, nsub_NaN_r, ndiv_NaN_l. cbn [negb Math_round nlt].
    destruct (String.eqb cropType "水稻"); reflexivity. }
  split; [exact E|]. rewrite E, generateTimingAdvice_can. cbv zeta.
  cbn [stage mkStage].
  destruct (String.eqb cropType "水稻"); vm_compute; destruct (suitable weather);
    reflexivity.
Qed.

Lemma calculateGrowthStage_never_unknown (now : num) (cropType : string)
  (sowingDate : option string) :
  stage (calculateGrowthStage now cropType sowingDate) <> "未知"%string.
Proof.
  unfold calculateGrowthStage, calculateGrowthStage_try.
  destruct (falsy_str sowingDate); [discriminate|].
  set (days := Math_round _).
  destruct (String.eqb cropType "水稻");
    repeat match goal with
    | |- context [if ?c then Returned _ else _] => destruct c
    end; discriminate.
Qed.

(** X15. A sowing date that does not parse gives the growth stage
    maturity, not the stage of the catch block: the day count is NaN and
    every comparison with it is false.  The timing advice then says that
    fertilizer cannot be applied, whatever the weather.  The stage
    'unknown' of the catch block is never returned. *)
Theorem calculateGrowthStage_unparseable_date :
  forall (now : num) (cropType : string) (sowingDate : option string)
         (weather : WeatherAnalysis),
    truthy_str sowingDate = true ->
    Date_parse (nullish sowingDate ""%string) = NaN ->
    calculateGrowthStage now cropType sowingDate = mkStage "成熟期" "灌浆成熟"
    /\ can_fertilize
         (generateTimingAdvice cropType
            (calculateGrowthStage now cropType sowingDate) weather) = false
    /\ forall (now' : num) (cropType' : string) (sowingDate' : option string),
         stage (calculateGrowthStage now' cropType' sowingDate') <> "未知"%string.
Proof.
  intros now cropType sowingDate weather T H.
  destruct (calculateGrowthStage_invalid_aux now cropType sowingDate weather T H)
    as [H1 H2].
  split; [exact H1|]. split; [exact H2|]. apply calculateGrowthStage_never_unknown.
Qed.

(** ** The rain risk *)

Lemma rain_current_level (cur : CurrentWeather) (r : RainResult) :
  rain_level (rain_current cur r)
  = risk_max (rain_level r)
      (current_risk (Some {| current := Some cur |})).
Proof.
  unfold rain_current, current_risk. cbn [current]. cbv zeta.
  destruct r as [lv adv det]. cbn [rain_level].
  set (cp := (parseFloat (current_precip cur) ||n 0)%num).
  set (pp := (parseFloat (current_pop cur) ||n 0)%num).
  destruct (cp >? 10)%num, (cp >? 5)%num, (cp >? 0.1)%num, (pp >? 70)%num, lv;
    reflexivity.
Qed.

Lemma rain_today_level (today : DailyEntry) (rest : list DailyEntry) (r : RainResult) :
  rain_level (rain_today today r)
  = risk_max (rain_level r) (today_risk (today :: rest)).
Proof.
  unfold rain_today, today_risk. cbv zeta.
  destruct r as [lv adv det]. cbn [rain_level].
  set (tp := (parseFloat (pop today) ||n 0)%num).
  set (tr := (parseFloat (precip today) ||n 0)%num).
  destruct (tr >? 15)%num, (tp >? 80)%num, (tp >? 60)%num, lv; reflexivity.
Qed.

Lemma rain_day_level (i : nat) (day : DailyEntry) (r : RainResult) :
  rain_level (rain_day i day r) = rain_level r.
Proof.
  unfold rain_day. cbv zeta. destruct (_ >? 70)%num; [|reflexivity].
  cbn [rain_level]. destruct (risk_eqb _ _); reflexivity.
Qed.

Lemma rain_days_level (l : list (nat * DailyEntry)) (r : RainResult) :
  rain_level (fold_left (fun r '(i, day) => rain_day i day r) l r) = rain_level r.
Proof.
  revert r. induction l as [|[i day] l IH]; intros r; [reflexivity|].
  cbn [fold_left]. rewrite IH. apply rain_day_level.
Qed.

Lemma rain_keyword_level (weather : option string) (r : RainResult) :
  rain_level
    (rain_keyword (if truthy_str weather then nullish weather ""%string
                   else ""%string) r)
  = risk_max (rain_level r) (keyword_risk weather).
Proof.
  unfold rain_keyword, keyword_risk. cbv zeta.
  destruct (find _ rainKeywords) as [[kw l]|];
    [|destruct (rain_level r); reflexivity].
  cbn [rain_level]. destruct l, (rain_level r); reflexivity.
Qed.

Lemma analyzeRainRisk_level (weather : option string)
  (dailyForecast : list DailyEntry) (qweatherData : option QWeatherData) :
  rain_level (analyzeRainRisk weather dailyForecast qweatherData)
  = risk_max (current_risk qweatherData)
      (risk_max (today_risk dailyForecast) (keyword_risk weather)).
Proof.
  unfold analyzeRainRisk. cbv zeta. rewrite rain_keyword_level.
  set (r0 := {| rain_level := risk_low; rain_advice := _; rain_details := [] |}).
  set (r1 := match qweatherData with Some _ => _ | None => _ end).
  assert (E1 : rain_level r1 = current_risk qweatherData).
  { unfold r1. destruct qweatherData as [[[cur|]]|]; try reflexivity.
    cbn [current]. rewrite rain_current_level. unfold r0. cbn [rain_level].
    destruct (current_risk _); reflexivity. }
  destruct dailyForecast as [|today rest].
  - rewrite E1. cbn [today_risk].
    destruct (current_risk qweatherData), (keyword_risk weather); reflexivity.
  - rewrite rain_days_level, (rain_today_level today rest), E1.
    destruct (current_risk qweatherData), (today_risk (today :: rest)),
      (keyword_risk weather); reflexivity.
Qed.

(** X16. The level of the rain analysis is the highest of the levels
    that its three sources ask for: the current observation (high above 10
    mm, medium above 5 mm or above 70 percent), today's forecast (high
    above 15 mm, medium above 80 percent) and the first rain keyword found
    in the description of the weather.  No source lowers the level, and
    the forecast of the following two days does not change it. *)
Theorem analyzeRainRisk_level_maximum :
  forall (weather : option string) (dailyForecast : list DailyEntry)
         (qweatherData : option QWeatherData),
    rain_level (analyzeRainRisk weather dailyForecast qweatherData)
    = risk_max (current_risk qweatherData)
        (risk_max (today_risk dailyForecast) (keyword_risk weather)).
Proof. exact analyzeRainRisk_level. Qed.

Ltac in_concrete_list :=
  repeat first [left; reflexivity | right].

Lemma rain_current_advice (cur : CurrentWeather) (r : RainResult) :
  In (rain_advice r) rain_advice_options ->
  In (rain_advice (rain_current cur r)) rain_advice_options.
Proof.
  intros H. unfold rain_current. cbv zeta.
  destruct r as [lv adv det]. cbn [rain_level rain_advice] in *.
  set (cp := (parseFloat (current_precip cur) ||n 0)%num).
  set (pp := (parseFloat (current_pop cur) ||n 0)%num).
  destruct (cp >? 10)%num, (cp >? 5)%num, (cp >? 0.1)%num, (pp >? 70)%num, lv;
    cbn [rain_level rain_advice risk_eqb negb andb];
    first [exact H | unfold rain_advice_options; cbn [app]; in_concrete_list].
Qed.

Lemma rain_today_advice (today : DailyEntry) (r : RainResult) :
  In (rain_advice r) rain_advice_options ->
  In (rain_advice (rain_today today r)) rain_advice_options.
Proof.
  intros H. unfold rain_today. cbv zeta.
  destruct r as [lv adv det]. cbn [rain_level rain_advice] in *.
  set (tp := (parseFloat (pop today) ||n 0)%num).
  set (tr := (parseFloat (precip today) ||n 0)%num).
  destruct (tr >? 15)%num, (tp >? 80)%num, (tp >? 60)%num, lv;
    cbn [rain_level rain_advice risk_eqb negb andb];
    first [exact H | unfold rain_advice_options; cbn [app]; in_concrete_list].
Qed.

Lemma rain_day_advice (i : nat) (day : DailyEntry) (r : RainResult) :
  In (rain_advice r) rain_advice_options ->
  In (rain_advice (rain_day i day r)) rain_advice_options.
Proof.
  intros H. unfold rain_day. cbv zeta.
  destruct r as [lv adv det]. cbn [rain_level rain_advice] in *.
  destruct (_ >? 70)%num, lv;
    cbn [rain_level rain_advice risk_eqb negb andb];
    first [exact H | unfold rain_advice_options; cbn [app]; in_concrete_list].
Qed.

Lemma rain_days_advice (l : list (nat * DailyEntry)) (r : RainResult) :
  In (rain_advice r) rain_advice_options ->
  In (rain_advice (fold_left (fun r '(i, day) => rain_day i day r) l r))
     rain_advice_options.
Proof.
  revert r. induction l as [|[i day] l IH]; intros r H; [exact H|].
  cbn [fold_left]. apply IH, rain_day_advice, H.
Qed.

Lemma rain_keyword_advice (weatherDesc : string) (r : RainResult) :
  In (rain_advice r) rain_advice_options ->
  In (rain_advice (rain_keyword weatherDesc r)) rain_advice_options.
Proof.
  intros H. unfold rain_keyword. cbv zeta.
  destruct (find _ rainKeywords) as [[kw l]|] eqn:F; [|exact H].
  apply find_some in F. destruct F as [Hin _].
  destruct r as [lv adv det]. cbn [rain_level rain_advice] in *.
  destruct l, lv; cbn [rain_level rain_advice risk_eqb negb andb];
    try exact H; unfold rain_advice_options; apply in_or_app; right;
    apply in_or_app.
  all: first
    [ left;
      exact (in_map (fun e => (fst e ++ "天气，严禁施肥作业")%string) rainKeywords _ Hin)
    | right;
      exact (in_map (fun e => (fst e ++ "天气，建议深施或暂缓施肥")%string) rainKeywords _ Hin) ].
Qed.

Lemma analyzeRainRisk_advice (weather : option string)
  (dailyForecast : list DailyEntry) (qweatherData : option QWeatherData) :
  In (rain_advice (analyzeRainRisk weather dailyForecast qweatherData))
     rain_advice_options.
Proof.
  unfold analyzeRainRisk. cbv zeta. apply rain_keyword_advice.
  set (r0 := {| rain_level := risk_low; rain_advice := _; rain_details := [] |}).
  assert (H0 : In (rain_advice r0) rain_advice_options) by (left; reflexivity).
  set (r1 := match qweatherData with Some _ => _ | None => _ end).
  assert (H1 : In (rain_advice r1) rain_advice_options).
  { unfold r1. destruct qweatherData as [[[cur|]]|]; try exact H0.
    cbn [current]. apply rain_current_advice, H0. }
  destruct dailyForecast as [|today rest]; [exact H1|].
  apply rain_days_advice, rain_today_advice, H1.
Qed.

Lemma rain_advice_never_probability (weather : option string)
  (dailyForecast : list DailyEntry) (qweatherData : option QWeatherData) :
  rain_advice (analyzeRainRisk weather dailyForecast qweatherData)
  <> "降雨概率较高，建议关注天气变化"%string.
Proof.
  pose proof (analyzeRainRisk_advice weather dailyForecast qweatherData) as H.
  assert (F : forallb (fun a => negb (String.eqb a "降雨概率较高，建议关注天气变化"))
                rain_advice_options = true) by (vm_compute; reflexivity).
  rewrite forallb_forall in F. specialize (F _ H).
  intros E. rewrite E in F. vm_compute in F. discriminate.
Qed.

Lemma ngt_false_mono (x : num) (a b : R) :
  a <= b -> (x >? Fin a)%num = false -> (x >? Fin b)%num = false.
Proof.
  unfold ngt. intros Hab. destruct x; cbn [nlt]; try discriminate; try reflexivity.
  unfold Rltb. destruct (Rlt_dec a r); [discriminate|]. intros _.
  destruct (Rlt_dec b r); [lra | reflexivity].
Qed.

Lemma rain_probability_only (cur : CurrentWeather) :
  ((parseFloat (current_precip cur) ||n 0) >? 0.1)%num = false ->
  ((parseFloat (current_pop cur) ||n 0) >? 70)%num = true ->
  let r := analyzeRainRisk None [] (Some {| current := Some cur |}) in
  rain_level r = risk_medium /\ rain_advice r = "适宜施肥"%string.
Proof.
  intros H1 H2. cbv zeta. unfold analyzeRainRisk. cbv zeta.
  cbn [current truthy_str]. unfold rain_current. cbv zeta.
  rewrite (ngt_false_mono _ 0.1 10), (ngt_false_mono _ 0.1 5), H1, H2
    by (try lra; exact H1).
  cbn [rain_level risk_eqb negb andb rain_advice].
  unfold rain_keyword.
  match goal with
  | |- context [find ?f rainKeywords] =>
      let v := eval vm_compute in (find f rainKeywords) in
      change (find f rainKeywords) with v
  end.
  split; reflexivity.
Qed.

(** X17. The advice for a high current probability of rain is never
    given: the level is set to medium before the test for the level low
    that guards the advice.  When the current probability above 70 percent
    is the only sign of rain, the level is medium and the advice is still
    the initial one, that fertilizing is suitable. *)
Theorem analyzeRainRisk_probability_advice :
  (forall (weather : option string) (dailyForecast : list DailyEntry)
          (qweatherData : option QWeatherData),
     rain_advice (analyzeRainRisk weather dailyForecast qweatherData)
     <> "降雨概率较高，建议关注天气变化"%string)
  /\ forall cur : CurrentWeather,
       ((parseFloat (current_precip cur) ||n 0) >? 0.1)%num = false ->
       ((parseFloat (current_pop cur) ||n 0) >? 70)%num = true ->
       let r := analyzeRainRisk None [] (Some {| current := Some cur |}) in
       rain_level r = risk_medium /\ rain_advice r = "适宜施肥"%string.
Proof.
  split; [exact rain_advice_never_probability | exact rain_probability_only].
Qed.

(** ** The weather analysis *)

Lemma ngt_35_30 (t : num) : (t >? 35)%num = true -> (t >? 30)%num = true.
Proof.
  unfold ngt. destruct t; cbn [nlt]; try discriminate; try reflexivity.
  intros H. apply Rltb_spec in H. apply Rltb_true. lra.
Qed.

Lemma nlt_5_10 (t : num) : (t <? 5)%num = true -> (t <? 10)%num = true.
Proof.
  destruct t; cbn [nlt]; try discriminate; try reflexivity.
  intros H. apply Rltb_spec in H. apply Rltb_true. lra.
Qed.

Lemma existsb_snoc {A} (P : A -> bool) (l : list A) (a : A) :
  existsb P (l ++ [a]) = existsb P l || P a.
Proof. rewrite existsb_app. cbn [existsb]. rewrite orb_false_r. reflexivity. Qed.

Ltac step_adds_solve :=
  unfold step_adds;
  cbn [found_warnings found_alerts found_level];
  rewrite ?length_app, ?existsb_snoc;
  cbn [length a_type a_level alert_type_eqb risk_eqb andb orb negb Nat.add Nat.b2n];
  rewrite ?orb_false_r, ?Nat.add_0_r;
  repeat split; try reflexivity;
  match goal with
  | |- context [found_level ?f] => destruct (found_level f); reflexivity
  end.

Lemma rain_findings_adds (rain : RainResult) (f : Findings) (type : alert_type) :
  step_adds f (rain_findings rain f)
    (Nat.b2n (negb (risk_eqb (rain_level rain) risk_low)))
    (rain_level rain) type
    (alert_type_eqb alert_rain type
     && (negb (risk_eqb (rain_level rain) risk_low)
         || (0 <? length (rain_details rain))%nat))
    (alert_type_eqb alert_rain type && risk_eqb (rain_level rain) risk_high).
Proof.
  unfold rain_findings.
  destruct (rain_level rain); [destruct (0 <? length (rain_details rain))%nat| |];
    destruct type; step_adds_solve.
Qed.

Lemma heat_findings_adds (temp : num) (f : Findings) (type : alert_type) :
  step_adds f (heat_findings temp f)
    (Nat.b2n (temp >? 30)%num)
    (if (temp >? 35)%num then risk_high
     else if (temp >? 30)%num then risk_medium else risk_low)
    type
    (alert_type_eqb alert_temperature type && (temp >? 30)%num)
    (alert_type_eqb alert_temperature type && (temp >? 35)%num).
Proof.
  unfold heat_findings. pose proof (ngt_35_30 temp) as T.
  destruct (temp >? 35)%num; [rewrite (T eq_refl)|destruct (temp >? 30)%num];
    destruct type; step_adds_solve.
Qed.

Lemma cold_findings_adds (temp : num) (f : Findings) (type : alert_type) :
  step_adds f (cold_findings temp f)
    (Nat.b2n (temp <? 10)%num)
    (if (temp <? 5)%num then risk_high
     else if (temp <? 10)%num then risk_medium else risk_low)
    type
    (alert_type_eqb alert_temperature type && (temp <? 10)%num)
    (alert_type_eqb alert_temperature type && (temp <? 5)%num).
Proof.
  unfold cold_findings. pose proof (nlt_5_10 temp) as T.
  destruct (temp <? 5)%num; [rewrite (T eq_refl)|destruct (temp <? 10)%num];
    destruct type; step_adds_solve.
Qed.

Lemma humidity_findings_adds (humidity : num) (f : Findings) (type : alert_type) :
  step_adds f (humidity_findings humidity f)
    (Nat.b2n ((humidity >? 85) || (humidity <? 40))%num)
    risk_low type
    (alert_type_eqb alert_humidity type
     && ((humidity >? 85) || (humidity <? 40))%num)
    false.
Proof.
  unfold humidity_findings.
  destruct (humidity >? 85)%num; [|destruct (humidity <? 40)%num];
    destruct type; step_adds_solve.
Qed.

Lemma wind_findings_adds (windLevel : num) (f : Findings) (type : alert_type) :
  step_adds f (wind_findings windLevel f)
    (Nat.b2n (windLevel >=? 5)%num)
    (wind_level windLevel) type
    (alert_type_eqb alert_wind type
     && ((windLevel >=? 5) || (windLevel >=? 3))%num)
    (alert_type_eqb alert_wind type && (windLevel >=? 5)%num).
Proof.
  unfold wind_findings, wind_level.
  destruct (windLevel >=? 5)%num; [|destruct (windLevel >=? 3)%num];
    destruct type; step_adds_solve.
Qed.

Lemma analyzeWeather_report (weatherData : WeatherData) (ls : list Live) :
  lives weatherData = Some ls ->
  let f := weather_findings weatherData ls in
  analyzeWeather (Some weatherData)
  = {| analysis :=
         {| suitable := (length (found_warnings f) =? 0)%nat;
            warning := if (0 <? length (found_warnings f))%nat
                       then Some (join "；"%string (found_warnings f)) else None |};
       warnings := found_warnings f;
       alerts := found_alerts f;
       warning_level := Some (found_level f);
       report_temperature := Some (read_temperature ls);
       report_humidity := Some (read_humidity ls);
       rain_risk := Some (alerts_risk alert_rain (found_alerts f));
       temperature_risk := Some (alerts_risk alert_temperature (found_alerts f));
       daily_forecast := buildDailyForecast weatherData |}.
Proof. intros H. unfold analyzeWeather. rewrite H. reflexivity. Qed.

Lemma weather_findings_count (weatherData : WeatherData) (ls : list Live) :
  let f := weather_findings weatherData ls in
  let temp := read_temperature ls in
  let humidity := read_humidity ls in
  length (found_warnings f)
  = fold_right Nat.add 0%nat
      (map Nat.b2n
         [negb (risk_eqb (rain_level (read_rain weatherData ls)) risk_low);
          (temp >? 30)%num; (temp <? 10)%num;
          ((humidity >? 85) || (humidity <? 40))%num;
          (read_wind ls >=? 5)%num]).
Proof.
  cbv zeta. unfold weather_findings.
  set (f0 := {| found_warnings := []; found_alerts := []; found_level := risk_low |}).
  destruct (rain_findings_adds (read_rain weatherData ls) f0 alert_rain) as (R & _).
  set (f1 := rain_findings _ f0) in *.
  destruct (heat_findings_adds (read_temperature ls) f1 alert_rain) as (H & _).
  set (f2 := heat_findings _ f1) in *.
  destruct (cold_findings_adds (read_temperature ls) f2 alert_rain) as (C & _).
  set (f3 := cold_findings _ f2) in *.
  destruct (humidity_findings_adds (read_humidity ls) f3 alert_rain) as (U & _).
  set (f4 := humidity_findings _ f3) in *.
  destruct (wind_findings_adds (read_wind ls) f4 alert_rain) as (W & _).
  rewrite W, U, C, H, R. unfold f0. cbn [found_warnings length map fold_right].
  lia.
Qed.

Lemma weather_findings_level (weatherData : WeatherData) (ls : list Live) :
  found_level (weather_findings weatherData ls)
  = risk_max (rain_level (read_rain weatherData ls))
      (risk_max (temperature_level (read_temperature ls))
                (wind_level (read_wind ls))).
Proof.
  unfold weather_findings.
  set (f0 := {| found_warnings := []; found_alerts := []; found_level := risk_low |}).
  destruct (rain_findings_adds (read_rain weatherData ls) f0 alert_rain) as (_ & R & _).
  set (f1 := rain_findings _ f0) in *.
  destruct (heat_findings_adds (read_temperature ls) f1 alert_rain) as (_ & H & _).
  set (f2 := heat_findings _ f1) in *.
  destruct (cold_findings_adds (read_temperature ls) f2 alert_rain) as (_ & C & _).
  set (f3 := cold_findings _ f2) in *.
  destruct (humidity_findings_adds (read_humidity ls) f3 alert_rain) as (_ & U & _).
  set (f4 := humidity_findings _ f3) in *.
  destruct (wind_findings_adds (read_wind ls) f4 alert_rain) as (_ & W & _).
  rewrite W, U, C, H, R. unfold f0, temperature_level. cbn [found_level].
  pose proof (ngt_35_30 (read_temperature ls)) as T1.
  pose proof (nlt_5_10 (read_temperature ls)) as T2.
  destruct (rain_level _), (wind_level _),
    (read_temperature ls >? 35)%num, (read_temperature ls >? 30)%num,
    (read_temperature ls <? 5)%num, (read_temperature ls <? 10)%num;
    try reflexivity;
    first [specialize (T1 eq_refl) | specialize (T2 eq_refl)]; discriminate.
Qed.

Lemma weather_findings_rain_risk (weatherData : WeatherData) (ls : list Live) :
  let rain := read_rain weatherData ls in
  alerts_risk alert_rain (found_alerts (weather_findings weatherData ls))
  = match rain_level rain with
    | risk_high => "高"
    | risk_medium => "中"
    | risk_low => if (0 <? length (rain_details rain))%nat then "中" else "低"
    end%string.
Proof.
  cbv zeta. unfold weather_findings, alerts_risk.
  set (f0 := {| found_warnings := []; found_alerts := []; found_level := risk_low |}).
  destruct (rain_findings_adds (read_rain weatherData ls) f0 alert_rain)
    as (_ & _ & R1 & R2).
  set (f1 := rain_findings _ f0) in *.
  destruct (heat_findings_adds (read_temperature ls) f1 alert_rain)
    as (_ & _ & H1 & H2).
  set (f2 := heat_findings _ f1) in *.
  destruct (cold_findings_adds (read_temperature ls) f2 alert_rain)
    as (_ & _ & C1 & C2).
  set (f3 := cold_findings _ f2) in *.
  destruct (humidity_findings_adds (read_humidity ls) f3 alert_rain)
    as (_ & _ & U1 & U2).
  set (f4 := humidity_findings _ f3) in *.
  destruct (wind_findings_adds (read_wind ls) f4 alert_rain) as (_ & _ & W1 & W2).
  rewrite W1, W2, U1, U2, C1, C2, H1, H2, R1, R2.
  unfold f0. cbn [found_alerts existsb alert_type_eqb andb orb].
  destruct (rain_level _); try reflexivity.
  cbn [risk_eqb negb orb]. destruct (0 <? _)%nat; reflexivity.
Qed.

Lemma weather_findings_temperature_risk (weatherData : WeatherData) (ls : list Live) :
  alerts_risk alert_temperature (found_alerts (weather_findings weatherData ls))
  = risk_label (temperature_level (read_temperature ls)).
Proof.
  unfold weather_findings, alerts_risk.
  set (f0 := {| found_warnings := []; found_alerts := []; found_level := risk_low |}).
  destruct (rain_findings_adds (read_rain weatherData ls) f0 alert_temperature)
    as (_ & _ & R1 & R2).
  set (f1 := rain_findings _ f0) in *.
  destruct (heat_findings_adds (read_temperature ls) f1 alert_temperature)
    as (_ & _ & H1 & H2).
  set (f2 := heat_findings _ f1) in *.
  destruct (cold_findings_adds (read_temperature ls) f2 alert_temperature)
    as (_ & _ & C1 & C2).
  set (f3 := cold_findings _ f2) in *.
  destruct (humidity_findings_adds (read_humidity ls) f3 alert_temperature)
    as (_ & _ & U1 & U2).
  set (f4 := humidity_findings _ f3) in *.
  destruct (wind_findings_adds (read_wind ls) f4 alert_temperature)
    as (_ & _ & W1 & W2).
  rewrite W1, W2, U1, U2, C1, C2, H1, H2, R1, R2.
  unfold f0, temperature_level.
  cbn [found_alerts existsb alert_type_eqb andb orb].
  pose proof (ngt_35_30 (read_temperature ls)) as T1.
  pose proof (nlt_5_10 (read_temperature ls)) as T2.
  destruct (read_temperature ls >? 35)%num, (read_temperature ls >? 30)%num,
    (read_temperature ls <? 5)%num, (read_temperature ls <? 10)%num;
    try reflexivity;
    first [specialize (T1 eq_refl) | specialize (T2 eq_refl)]; discriminate.
Qed.

Lemma analyzeWeather_suitable_aux (weatherData : WeatherData) (ls : list Live) :
  lives weatherData = Some ls ->
  let r := analyzeWeather (Some weatherData) in
  let temp := read_temperature ls in
  let humidity := read_humidity ls in
  suitable (analysis r)
  = risk_eqb (rain_level (read_rain weatherData ls)) risk_low
    && negb (temp >? 30)%num && negb (temp <? 10)%num
    && negb (humidity >? 85)%num && negb (humidity <? 40)%num
    && negb (read_wind ls >=? 5)%num
  /\ (warning (analysis r) = None <-> suitable (analysis r) = true)
  /\ (suitable (analysis r) = true <-> warnings r = []).
Proof.
  intros H. cbv zeta. rewrite (analyzeWeather_report _ _ H). cbv zeta.
  cbn [analysis suitable warning warnings].
  pose proof (weather_findings_count weatherData ls) as C. cbv zeta in C.
  set (f := weather_findings weatherData ls) in *.
  split; [|split].
  - rewrite C.
    destruct (risk_eqb _ risk_low), (read_temperature ls >? 30)%num,
      (read_temperature ls <? 10)%num, (read_humidity ls >? 85)%num,
      (read_humidity ls <? 40)%num, (read_wind ls >=? 5)%num; reflexivity.
  - destruct (found_warnings f); cbn; split; intros X;
      first [reflexivity | discriminate].
  - destruct (found_warnings f); cbn; split; intros X;
      first [reflexivity | discriminate].
Qed.

(** X18. With weather data, the analysis finds the weather suitable
    exactly when there is no warning: the rain level is low, the
    temperature is neither above 30 nor below 10, the humidity is neither
    above 85 nor below 40, and the wind level is below 5.  A wind of level
    3 or 4 and a rain alert of level low do not make it unsuitable. *)
Theorem analyzeWeather_suitable :
  forall (weatherData : WeatherData) (ls : list Live),
    lives weatherData = Some ls ->
    let r := analyzeWeather (Some weatherData) in
    let temp := read_temperature ls in
    let humidity := read_humidity ls in
    suitable (analysis r)
    = risk_eqb (rain_level (read_rain weatherData ls)) risk_low
      && negb (temp >? 30)%num && negb (temp <? 10)%num
      && negb (humidity >? 85)%num && negb (humidity <? 40)%num
      && negb (read_wind ls >=? 5)%num
    /\ (warning (analysis r) = None <-> suitable (analysis r) = true)
    /\ (suitable (analysis r) = true <-> warnings r = []).
Proof. exact analyzeWeather_suitable_aux. Qed.

Lemma analyzeWeather_levels_aux (weatherData : WeatherData) (ls : list Live) :
  lives weatherData = Some ls ->
  let r := analyzeWeather (Some weatherData) in
  let rain := read_rain weatherData ls in
  warning_level r
  = Some (risk_max (rain_level rain)
            (risk_max (temperature_level (read_temperature ls))
                      (wind_level (read_wind ls))))
  /\ rain_risk r
     = Some (match rain_level rain with
             | risk_high => "高"
             | risk_medium => "中"
             | risk_low => if (0 <? length (rain_details rain))%nat
                           then "中" else "低"
             end)%string
  /\ temperature_risk r
     = Some (risk_label (temperature_level (read_temperature ls))).
Proof.
  intros H. cbv zeta. rewrite (analyzeWeather_report _ _ H). cbv zeta.
  cbn [warning_level rain_risk temperature_risk].
  rewrite weather_findings_level, weather_findings_temperature_risk.
  pose proof (weather_findings_rain_risk weatherData ls) as R. cbv zeta in R.
  rewrite R. repeat split; reflexivity.
Qed.

(** X19. The warning level of the weather analysis is the highest of
    the rain level, the temperature level (high above 35 or below 5,
    medium above 30 or below 10) and the wind level (high from 5); the
    humidity never changes it, although a humidity warning makes the
    weather unsuitable.  The rain risk is reported as medium for a rain
    level low that comes with a rain detail, and the temperature risk is
    the label of the temperature level. *)
Theorem analyzeWeather_levels :
  forall (weatherData : WeatherData) (ls : list Live),
    lives weatherData = Some ls ->
    let r := analyzeWeather (Some weatherData) in
    let rain := read_rain weatherData ls in
    warning_level r
    = Some (risk_max (rain_level rain)
              (risk_max (temperature_level (read_temperature ls))
                        (wind_level (read_wind ls))))
    /\ rain_risk r
       = Some (match rain_level rain with
               | risk_high => "高"
               | risk_medium => "中"
               | risk_low => if (0 <? length (rain_details rain))%nat
                             then "中" else "低"
               end)%string
    /\ temperature_risk r
       = Some (risk_label (temperature_level (read_temperature ls))).
Proof. exact analyzeWeather_levels_aux. Qed.

(** ** A temperature of zero *)

Lemma temperature_zero_aux (weatherData : WeatherData) (ls : list Live) :
  lives weatherData = Some ls ->
  parseInt (live_temperature (first_live ls)) = Fin 0 ->
  let r := analyzeWeather (Some weatherData) in
  report_temperature r = Some (Fin 20)
  /\ temperature_risk r = Some "低"%string
  /\ forall x : R, x <> 0 -> x < 5 ->
       temperature_level (Fin x ||n 20) = risk_high.
Proof.
  intros L H. cbv zeta.
  destruct (analyzeWeather_levels_aux _ _ L) as (_ & _ & T). cbv zeta in T.
  rewrite T. rewrite (analyzeWeather_report _ _ L). cbv zeta.
  cbn [report_temperature].
  assert (E : read_temperature ls = Fin 20).
  { unfold read_temperature. rewrite H. unfold num_or, truthy.
    rewrite (Reqb_true 0 0 eq_refl). reflexivity. }
  rewrite E. split; [reflexivity|]. split.
  - unfold temperature_level, ngt. cbn [nlt]. num_eval. reflexivity.
  - intros x Hx Hlt. unfold num_or, truthy. rewrite (Reqb_false x 0 Hx).
    cbn [negb]. unfold temperature_level, ngt. cbn [nlt].
    rewrite (Rltb_true x 5 Hlt), orb_true_r. reflexivity.
Qed.

(** X20. A reported temperature of 0 degrees is read as 20 degrees (the
    default replaces every falsy reading, and 0 is falsy), so it raises no
    low-temperature alert, while every other temperature below 5 gives the
    temperature level high. *)
Theorem analyzeWeather_temperature_zero :
  forall (weatherData : WeatherData) (ls : list Live),
    lives weatherData = Some ls ->
    parseInt (live_temperature (first_live ls)) = Fin 0 ->
    let r := analyzeWeather (Some weatherData) in
    report_temperature r = Some (Fin 20)
    /\ temperature_risk r = Some "低"%string
    /\ forall x : R, x <> 0 -> x < 5 ->
         temperature_level (Fin x ||n 20) = risk_high.
Proof. exact temperature_zero_aux. Qed.

(** ** The weather warning and the timing advice *)

Lemma advice_check_options : forallb advice_check warning_options = true.
Proof. vm_compute. reflexivity. Qed.

Lemma rain_findings_warnings (rain : RainResult) (f : Findings) :
  In (rain_advice rain) rain_advice_options ->
  exists part,
    found_warnings (rain_findings rain f) = found_warnings f ++ part
    /\ In part rain_warning_options.
Proof.
  intros H. unfold rain_findings, rain_warning_options.
  destruct (rain_level rain).
  - exists []. rewrite app_nil_r. split; [|left; reflexivity].
    destruct (0 <? length (rain_details rain))%nat; reflexivity.
  - eexists. split; [reflexivity|]. apply in_or_app. right. apply in_or_app. right.
    apply (in_map (fun a => [(_ ++ a)%string]) _ _ H).
  - eexists. split; [reflexivity|]. apply in_or_app. right. apply in_or_app. left.
    apply (in_map (fun a => [(_ ++ a)%string]) _ _ H).
Qed.

Lemma heat_findings_warnings (temp : num) (f : Findings) :
  exists part,
    found_warnings (heat_findings temp f) = found_warnings f ++ part
    /\ In ((temp >? 30)%num, part) heat_options.
Proof.
  unfold heat_findings, heat_options. pose proof (ngt_35_30 temp) as T.
  destruct (temp >? 35)%num; [rewrite (T eq_refl)|destruct (temp >? 30)%num];
    cbn [found_warnings].
  - eexists. split; [reflexivity|]. right. left. reflexivity.
  - eexists. split; [reflexivity|]. right. right. left. reflexivity.
  - exists []. rewrite app_nil_r. split; [reflexivity | left; reflexivity].
Qed.

Lemma cold_findings_warnings (temp : num) (f : Findings) :
  exists part,
    found_warnings (cold_findings temp f) = found_warnings f ++ part
    /\ In part cold_options.
Proof.
  unfold cold_findings, cold_options.
  destruct (temp <? 5)%num; [|destruct (temp <? 10)%num]; cbn [found_warnings].
  - eexists. split; [reflexivity|]. right. left. reflexivity.
  - eexists. split; [reflexivity|]. right. right. left. reflexivity.
  - exists []. rewrite app_nil_r. split; [reflexivity | left; reflexivity].
Qed.

Lemma humidity_findings_warnings (humidity : num) (f : Findings) :
  exists part,
    found_warnings (humidity_findings humidity f) = found_warnings f ++ part
    /\ In part humidity_options.
Proof.
  unfold humidity_findings, humidity_options.
  destruct (humidity >? 85)%num; [|destruct (humidity <? 40)%num];
    cbn [found_warnings].
  - eexists. split; [reflexivity|]. right. left. reflexivity.
  - eexists. split; [reflexivity|]. right. right. left. reflexivity.
  - exists []. rewrite app_nil_r. split; [reflexivity | left; reflexivity].
Qed.

Lemma wind_findings_warnings (windLevel : num) (f : Findings) :
  exists part,
    found_warnings (wind_findings windLevel f) = found_warnings f ++ part
    /\ In part wind_options.
Proof.
  unfold wind_findings, wind_options.
  destruct (windLevel >=? 5)%num; [|destruct (windLevel >=? 3)%num];
    cbn [found_warnings].
  - eexists. split; [reflexivity|]. right. left. reflexivity.
  - exists []. rewrite app_nil_r. split; [reflexivity | left; reflexivity].
  - exists []. rewrite app_nil_r. split; [reflexivity | left; reflexivity].
Qed.

Lemma weather_warnings_in_options (weatherData : WeatherData) (ls : list Live) :
  In ((read_temperature ls >? 30)%num,
      found_warnings (weather_findings weatherData ls)) warning_options.
Proof.
  unfold weather_findings.
  set (f0 := {| found_warnings := []; found_alerts := []; found_level := risk_low |}).
  destruct (rain_findings_warnings (read_rain weatherData ls) f0)
    as (r & Er & Hr); [apply analyzeRainRisk_advice|].
  set (f1 := rain_findings _ f0) in *.
  destruct (heat_findings_warnings (read_temperature ls) f1) as (h & Eh & Hh).
  set (f2 := heat_findings _ f1) in *.
  destruct (cold_findings_warnings (read_temperature ls) f2) as (c & Ec & Hc).
  set (f3 := cold_findings _ f2) in *.
  destruct (humidity_findings_warnings (read_humidity ls) f3) as (u & Eu & Hu).
  set (f4 := humidity_findings _ f3) in *.
  destruct (wind_findings_warnings (read_wind ls) f4) as (w & Ew & Hw).
  rewrite Ew, Eu, Ec, Eh, Er. unfold f0. cbn [found_warnings app].
  unfold warning_options.
  apply in_flat_map. exists r. split; [exact Hr|].
  apply in_flat_map. exists ((read_temperature ls >? 30)%num, h).
  split; [exact Hh|].
  apply in_flat_map. exists c. split; [exact Hc|].
  apply in_flat_map. exists u. split; [exact Hu|].
  apply in_map_iff. exists w. split; [|exact Hw].
  cbn [fst snd]. rewrite <- !app_assoc. reflexivity.
Qed.

Lemma weather_warning_words (weatherData : WeatherData) (ls : list Live) :
  let w := join "；" (found_warnings (weather_findings weatherData ls)) in
  includes w "降水" = false
  /\ includes w "高温" = (read_temperature ls >? 30)%num.
Proof.
  cbv zeta.
  pose proof advice_check_options as F. rewrite forallb_forall in F.
  specialize (F _ (weather_warnings_in_options weatherData ls)).
  unfold advice_check in F. cbn [fst snd] in F.
  apply andb_true_iff in F. destruct F as [F1 F2].
  apply negb_true_iff in F1. apply eqb_prop in F2. split; assumption.
Qed.

Lemma generateTimingAdvice_general (cropType : string) (gs : GrowthStage)
  (weather : WeatherAnalysis) :
  exists base,
    In base stage_advice_options
    /\ general_advice (generateTimingAdvice cropType gs weather)
       = base
         ++ match warning weather with
            | Some w =>
                if negb (String.eqb w "") then
                  (if includes w "降水" then [rain_general_advice] else [])
                  ++ (if includes w "高温" then [heat_general_advice] else [])
                else []
            | None => []
            end.
Proof.
  unfold generateTimingAdvice, stage_advice_options, rain_general_advice,
    heat_general_advice. cbv zeta.
  destruct (String.eqb cropType "水稻");
    repeat match goal with
    | |- context [if ?c then _ else _] =>
        lazymatch c with
        | String.eqb (stage gs) _ => destruct c
        | string_in (stage gs) ["拔节期"; "孕穗期"]%string => destruct c
        end
    end;
    (destruct (warning weather) as [w0|];
     [destruct (negb (String.eqb w0 "")); [destruct (includes w0 "降水"),
                                             (includes w0 "高温")|]|]);
    cbn [general_advice];
    match goal with
    | |- exists base, In base ?opts /\ _ =>
        let rec go l :=
          lazymatch l with
          | ?b :: ?rest =>
              first [ exists b; split; [in_concrete_list | cbn [app]; reflexivity]
                    | go rest ]
          end in
        go opts
    end.
Qed.

Lemma stage_advice_options_plain :
  forallb (fun base =>
             negb (existsb (String.eqb rain_general_advice) base)
             && negb (existsb (String.eqb heat_general_advice) base))
          stage_advice_options = true.
Proof. vm_compute. reflexivity. Qed.

Lemma In_existsb_eqb (x : string) (l : list string) :
  In x l <-> existsb (String.eqb x) l = true.
Proof.
  rewrite existsb_exists. split.
  - intros H. exists x. split; [exact H | apply String.eqb_refl].
  - intros (y & Hy & E). apply String.eqb_eq in E. subst. exact Hy.
Qed.

Lemma timing_advice_words (cropType : string) (gs : GrowthStage)
  (weather : WeatherAnalysis) (hot : bool) :
  match warning weather with
  | Some w => includes w "降水" = false /\ includes w "高温" = hot
  | None => hot = false
  end ->
  ~ In rain_general_advice (general_advice (generateTimingAdvice cropType gs weather))
  /\ (In heat_general_advice
        (general_advice (generateTimingAdvice cropType gs weather))
      <-> hot = true).
Proof.
  intros H.
  destruct (generateTimingAdvice_general cropType gs weather) as (base & Hb & E).
  rewrite E. clear E.
  pose proof stage_advice_options_plain as F. rewrite forallb_forall in F.
  specialize (F _ Hb). apply andb_true_iff in F. destruct F as [F1 F2].
  apply negb_true_iff in F1, F2.
  assert (N1 : ~ In rain_general_advice base).
  { intros X. apply In_existsb_eqb in X. congruence. }
  assert (N2 : ~ In heat_general_advice base).
  { intros X. apply In_existsb_eqb in X. congruence. }
  assert (D : rain_general_advice <> heat_general_advice) by discriminate.
  destruct (warning weather) as [w|].
  - destruct H as [H1 H2]. rewrite H1, H2.
    destruct (String.eqb_spec w "") as [Ew|Ew]; cbn [negb].
    + subst w. vm_compute in H2. subst hot. rewrite app_nil_r.
      split; [exact N1|]. split; [intros X; contradiction | discriminate].
    + destruct hot; cbn [app].
      * split.
        -- intros X. apply in_app_or in X. destruct X as [X | [X | []]];
             [contradiction | congruence].
        -- split; [reflexivity|]. intros _. apply in_or_app. right. left.
           reflexivity.
      * rewrite app_nil_r. split; [exact N1|].
        split; [intros X; contradiction | discriminate].
  - subst hot. rewrite app_nil_r. split; [exact N1|].
    split; [intros X; contradiction | discriminate].
Qed.

Lemma fertilizer_timing_advice_aux (now : num) (crop : option string)
  (sowingDate : option string) (weatherData : option WeatherData) :
  let '(gs, rep, adv) := fertilizer_timing now crop sowingDate weatherData in
  ~ In rain_general_advice (general_advice adv)
  /\ (In heat_general_advice (general_advice adv)
      <-> exists t, report_temperature rep = Some t /\ (t >? 30)%num = true).
Proof.
  unfold fertilizer_timing. cbv zeta.
  set (cropType := if truthy_str crop then _ else _).
  set (gs := calculateGrowthStage now cropType sowingDate).
  assert (Hnone : forall rep,
            warning (analysis rep) = None -> report_temperature rep = None ->
            ~ In rain_general_advice
                (general_advice (generateTimingAdvice cropType gs (analysis rep)))
            /\ (In heat_general_advice
                  (general_advice (generateTimingAdvice cropType gs (analysis rep)))
                <-> exists t, report_temperature rep = Some t
                              /\ (t >? 30)%num = true)).
  { intros rep Hw Ht.
    destruct (timing_advice_words cropType gs (analysis rep) false) as [A B];
      [rewrite Hw; reflexivity|].
    split; [exact A|]. rewrite B, Ht. split; [discriminate|].
    intros (t & X & _). discriminate. }
  destruct weatherData as [wd|]; [|apply Hnone; reflexivity].
  destruct (lives wd) as [ls|] eqn:L;
    [|unfold analyzeWeather; rewrite L; apply Hnone; reflexivity].
  rewrite (analyzeWeather_report _ _ L). cbv zeta.
  cbn [analysis report_temperature].
  destruct (weather_warning_words wd ls) as [W1 W2]. cbv zeta in W1, W2.
  set (ws := found_warnings (weather_findings wd ls)) in *.
  match goal with
  | |- context [generateTimingAdvice cropType gs ?w] =>
      destruct (timing_advice_words cropType gs w (read_temperature ls >? 30)%num)
        as [A B]
  end.
  { cbn [warning]. destruct (0 <? length ws)%nat eqn:Z; [split; assumption|].
    destruct ws; [|discriminate]. rewrite <- W2. vm_compute. reflexivity. }
  split; [exact A|]. rewrite B. split.
  - intros X. eexists. split; [reflexivity | exact X].
  - intros (t & Et & X). inversion Et; subst. exact X.
Qed.

(** X21. In the answer of the timing endpoint, the advice for rain (to
    place the fertilizer deep before rain) is never given: the advisor
    looks for a word that no warning of the weather analysis contains.
    The advice for heat (to fertilize in the evening) is given exactly when
    weather data were analysed and the temperature is above 30. *)
Theorem fertilizer_timing_weather_advice :
  forall (now : num) (crop : option string) (sowingDate : option string)
         (weatherData : option WeatherData),
    let '(gs, rep, adv) := fertilizer_timing now crop sowingDate weatherData in
    ~ In rain_general_advice (general_advice adv)
    /\ (In heat_general_advice (general_advice adv)
        <-> exists t, report_temperature rep = Some t /\ (t >? 30)%num = true).
Proof. exact fertilizer_timing_advice_aux. Qed.

(** ** Simulated weather *)

Lemma floor_scaled (u : R) (k : Z) :
  0 <= u < 1 -> (0 < k)%Z ->
  exists z : Z, Math_floor (Fin u * Fin (IZR k)) = Fin (IZR z) /\ (0 <= z < k)%Z.
Proof.
  intros Hu Hk. cbn [nmul Math_floor]. eexists. split; [reflexivity|].
  assert (0 < IZR k) by (apply IZR_lt; exact Hk).
  destruct (base_Int_part (u * IZR k)) as [H1 H2].
  assert (0 <= u * IZR k < IZR k) by nra.
  split.
  - assert (L : (-1 < Int_part (u * IZR k))%Z) by (apply lt_IZR; lra). lia.
  - apply lt_IZR. lra.
Qed.

Lemma list_get_IZR {A} (l : list A) (z : Z) :
  (0 <= z)%Z -> list_get l (Fin (IZR z)) = nth_error l (Z.to_nat z).
Proof.
  intros H. unfold list_get. rewrite Int_part_IZR, (Reqb_true _ _ eq_refl).
  replace (0 <=? z)%Z with true by (symmetry; apply Z.leb_le; exact H).
  reflexivity.
Qed.

Lemma risk_max_not_high (a b : risk) :
  a <> risk_high -> b <> risk_high -> risk_max a b <> risk_high.
Proof. destruct a, b; cbn; congruence. Qed.

Lemma generateSimulatedWeather_never_high_aux (s : rng) :
  (forall n, 0 <= s n < 1) ->
  (forall z : Z, (0 <= z < 100)%Z ->
     parseInt_string (Number_toString (Fin (IZR z))) = Fin (IZR z)) ->
  (forall x : num, Number_toString x <> ""%string) ->
  let r := analyzeWeather (Some (fst (generateSimulatedWeather s))) in
  warning_level r <> Some risk_high
  /\ rain_risk r <> Some "高"%string
  /\ temperature_risk r <> Some "高"%string
  /\ exists t : R, report_temperature r = Some (Fin t) /\ 15 <= t <= 34.
Proof.
  intros Hs Hparse Hstr. cbv zeta.
  unfold generateSimulatedWeather, Math_random. cbn [fst snd].
  destruct (floor_scaled (s 0%nat) 5 (Hs _)) as (z1 & E1 & B1); [lia|].
  destruct (floor_scaled (s 1%nat) 20 (Hs _)) as (z2 & E2 & B2); [lia|].
  destruct (floor_scaled (s 2%nat) 50 (Hs _)) as (z3 & E3 & B3); [lia|].
  destruct (floor_scaled (s 3%nat) 4 (Hs _)) as (z4 & E4 & B4); [lia|].
  rewrite E1, E2, E3, E4. rewrite (list_get_IZR _ _ (proj1 B1)).
  cbn [nadd].
  replace (15 + IZR z2) with (IZR (15 + z2)) by (rewrite plus_IZR; reflexivity).
  replace (40 + IZR z3) with (IZR (40 + z3)) by (rewrite plus_IZR; reflexivity).
  set (live := {| live_weather := _; live_temperature := _;
                  live_humidity := _; live_windpower := _ |}).
  set (wd := {| lives := Some [live]; forecasts := _; open_meteo_data := None;
                qweather_data := None |}).
  assert (L : lives wd = Some [live]) by reflexivity.
  destruct (analyzeWeather_levels_aux wd [live] L) as (W & Rr & Tr).
  cbv zeta in W, Rr, Tr.
  assert (Et : read_temperature [live] = Fin (IZR (15 + z2))).
  { unfold read_temperature, live. cbn [first_live live_temperature parseInt].
    rewrite Hparse by lia. unfold num_or, truthy.
    rewrite (Reqb_false (IZR (15 + z2)) 0); [reflexivity|].
    apply not_0_IZR. lia. }
  assert (Bt : 15 <= IZR (15 + z2) <= 34).
  { split; apply IZR_le; lia. }
  assert (Tl : temperature_level (read_temperature [live]) <> risk_high).
  { rewrite Et. unfold temperature_level, ngt. cbn [nlt].
    rewrite (Rltb_false 35 _), (Rltb_false _ 5) by lra. cbn [orb].
    destruct (_ || _); discriminate. }
  assert (Wl : wind_level (read_wind [live]) = risk_low).
  { unfold read_wind, live. cbn [first_live live_windpower truthy_json].
    replace (String.eqb (Number_toString (Fin (IZR z4))) "") with false
      by (symmetry; apply String.eqb_neq, Hstr).
    cbn [negb parseInt]. rewrite Hparse by lia.
    unfold wind_level, nge, num_or, truthy.
    destruct (negb (Reqb (IZR z4) 0)); cbn [nle];
      rewrite Rleb_false; try reflexivity; try lra.
    assert (IZR z4 <= 3) by (apply IZR_le; lia). lra. }
  assert (Rl : rain_level (read_rain wd [live]) <> risk_high).
  { unfold read_rain. rewrite analyzeRainRisk_level.
    apply risk_max_not_high; [discriminate|].
    apply risk_max_not_high.
    - unfold wd, buildDailyForecast.
      cbn [forecasts nullish casts firstn map cast_pop cast_precip json_or_null
           truthy_json open_meteo_data today_risk pop precip parseFloat].
      unfold num_or. cbn [truthy]. unfold ngt. cbn [nlt].
      rewrite (Rltb_false 15 0), (Rltb_false 80 0) by lra. discriminate.
    - unfold read_weather, live. cbn [first_live live_weather].
      assert (C : (Z.to_nat z1 < 5)%nat) by lia.
      destruct (Z.to_nat z1) as [|[|[|[|[|n]]]]]; [| | | | |lia];
        vm_compute; discriminate. }
  rewrite W, Rr, Tr. split; [|split; [|split]].
  - intros X. inversion X as [X']. revert X'.
    apply risk_max_not_high; [exact Rl|].
    apply risk_max_not_high; [exact Tl | rewrite Wl; discriminate].
  - destruct (rain_level (read_rain wd [live])); try congruence;
      try destruct (0 <? _)%nat; discriminate.
  - destruct (temperature_level (read_temperature [live])); try congruence;
      discriminate.
  - exists (IZR (15 + z2)). split; [|exact Bt].
    rewrite (analyzeWeather_report _ _ L). cbv zeta. cbn [report_temperature].
    rewrite Et. reflexivity.
Qed.

(** X22. The simulated weather never leads to a high warning: when
    Math.random returns values in [0,1) and the conversion of a small
    integer to a string and back gives the integer, the analysis of the
    simulated weather has a warning level, a rain risk and a temperature
    risk that are not high, and a temperature between 15 and 34. *)
Theorem generateSimulatedWeather_never_high :
  forall s : rng,
    (forall n, 0 <= s n < 1) ->
    (forall z : Z, (0 <= z < 100)%Z ->
       parseInt_string (Number_toString (Fin (IZR z))) = Fin (IZR z)) ->
    (forall x : num, Number_toString x <> ""%string) ->
    let r := analyzeWeather (Some (fst (generateSimulatedWeather s))) in
    warning_level r <> Some risk_high
    /\ rain_risk r <> Some "高"%string
    /\ temperature_risk r <> Some "高"%string
    /\ exists t : R, report_temperature r = Some (Fin t) /\ 15 <= t <= 34.
Proof. exact generateSimulatedWeather_never_high_aux. Qed.

(** ** The nearest city *)






End Host.

(** * The properties on the sample data *)

(* The adjuster alone, at an unparseable date and a forecast below the
   cold threshold, which the program never passes: for rice, the sowing
   date "not-a-date" and a forecast of 15 degrees it returns
   0.55 / 0.25 / 0.20, the normal regime with the cold adjustment, and
   not the fractions 0.50 / 0.25 / 0.25 of its catch block. *)
Lemma unparseable_date_keeps_cold_adjustment :
  iso_Date_parse "not-a-date" = NaN
  /\ adjustFertilizerRatio iso_Date_parse utc_getFullYear int_toString
       "not-a-date" rice (Fin 15)
     = {| base_ratio := Fin 0.55; mid_ratio := Fin 0.25; late_ratio := Fin 0.20 |}
  /\ adjustFertilizerRatio_catch rice
     = {| base_ratio := Fin 0.50; mid_ratio := Fin 0.25; late_ratio := Fin 0.25 |}
  /\ adjustFertilizerRatio iso_Date_parse utc_getFullYear int_toString
       "not-a-date" rice (Fin 15)
     <> adjustFertilizerRatio_catch rice.
Proof.
  assert (H : iso_Date_parse "not-a-date" = NaN) by reflexivity.
  assert (E : adjustFertilizerRatio iso_Date_parse utc_getFullYear int_toString
                "not-a-date" rice (Fin 15)
              = {| base_ratio := Fin 0.55; mid_ratio := Fin 0.25;
                   late_ratio := Fin 0.20 |}).
  { destruct (adjustFertilizerRatio_invalid_date iso_Date_parse utc_getFullYear
                int_toString "not-a-date" rice (Fin 15) H) as [_ E'].
    rewrite E'. unfold normal_regime_ratios. num_eval. reflexivity. }
  split; [exact H|]. split; [exact E|]. split; [reflexivity|].
  rewrite E. unfold adjustFertilizerRatio_catch. intros C.
  inversion C. lra.
Qed.

(** ** Wheat on default soil *)

Lemma wheatPlan_600 :
  w_superphosphate_base (wheatPlan (Fin 600)) = Fin 65.6
  /\ urea_jointing (wheatPlan (Fin 600)) = Fin 13.
Proof.
  unfold wheatPlan, getWheatFertilizerByYield, yield_levels, formula_ratio.
  cbn [find yl_min yl_max]. num_eval. cbn [andb].
  cbn [base_fertilizer urea_tillering fst snd].
  num_eval. cbn [w_superphosphate_base urea_jointing].
  unfold round1, superphosphate_P_content. num_eval.
  cbn [Math_round]. split.
  - round_to 656%Z. num_eval. first [reflexivity | f_equal; lra].
  - round_to 130%Z. num_eval. first [reflexivity | f_equal; lra].
Qed.

Lemma wheat_default_balance :
  let b := nutrientBalance (Fin 600)
             {| soil_N := Some (Fin 89); soil_P := Some (Fin 23);
                soil_K := Some (Fin 90);
                level_AN := L_default; level_AP := L_default;
                level_AK := L_default;
                source_AN := SRC_default; source_AP := SRC_default;
                source_AK := SRC_default;
                is_default := true; use_custom := false |}
             (Fin 20.7) (Fin 8.18) (Fin 700) rice wheat (None, None, None) in
  exists p n : R,
    (pFertilizer b / superphosphate_P_content)%num = Fin p /\ 200 < p
    /\ (nFertilizer b / urea_N_content)%num = Fin n /\ 40 < n.
Proof.
  cbv zeta. unfold nutrientBalance, calculateNutrientRequirement,
    calculateSoilSupply, calculateStrawSupply, ph_adjustment,
    om_impact_N, om_impact_P, om_impact_K, superphosphate_P_content,
    urea_N_content.
  cbn [to_number nullish soil_N soil_P soil_K defaultParams wheat_params
       rice_params N_per_100kg P_per_100kg K_per_100kg straw_moisture straw_N
       straw_P straw_K N_release_rate P_release_rate K_release_rate
       N_fertilizer_efficiency P_fertilizer_efficiency K_fertilizer_efficiency
       Math_exp nmul].
  bound_exp.
  num_eval. cbn [pFertilizer nFertilizer].
  num_eval.
  eexists. eexists. split; [reflexivity|]. split; [lra|].
  split; [reflexivity | lra].
Qed.

(** C6 fails for wheat.  For a target yield of 600 on default soil the
    superphosphate mass is 65.6 and the urea mass at jointing is 13, while
    the required phosphorus mass divided by 0.12 is above 200 and the
    required nitrogen mass divided by 0.46 is above 40. *)
Lemma wheat_products_ignore_balance :
  let r := fst (calculateFertilizerRecommendation iso_Date_parse utc_getFullYear
                  int_toString no_data (params_default 600) wheat None
                  (rng_switch 0 0 0)) in
  let b := recommendationBalance no_data (params_default 600) wheat None
             (fst (resolveSoil no_data (params_default 600) wheat
                     (rng_switch 0 0 0))) in
  exists (u : WheatUsage) (p n : R),
    plan r = WheatPlan u
    /\ w_superphosphate_base u = Fin 65.6
    /\ (pFertilizer b / superphosphate_P_content)%num = Fin p /\ 200 < p
    /\ urea_jointing u = Fin 13
    /\ (nFertilizer b / urea_N_content)%num = Fin n /\ 40 < n
    /\ w_superphosphate_base u <> (pFertilizer b / superphosphate_P_content)%num
    /\ urea_jointing u <> (nFertilizer b / urea_N_content)%num.
Proof.
  cbv zeta.
  unfold calculateFertilizerRecommendation, recommendationBalance, resolveSoil,
    params_default.
  cbn [ip_lon ip_lat is_some andb custom_soil_data use_custom_soil fst
       target_yield organic_matter soil_ph straw_return_amount nullish
       temperature_forecast other_crop].
  destruct (resolveSowingDate _ _ _ _ _) as [[sd st] en].
  cbn [fst plan].
  replace (num_or (Fin 600) (Fin 500)) with (Fin 600)
    by (unfold num_or; num_eval; reflexivity).
  destruct wheatPlan_600 as [Hp Hu].
  destruct wheat_default_balance as (p & n & H1 & H2 & H3 & H4).
  exists (wheatPlan (Fin 600)), p, n.
  cbv zeta in H1, H3.
  split; [reflexivity|].
  repeat (split; [assumption|]).
  rewrite Hp, Hu, H1, H3.
  split; intros C; inversion C; lra.
Qed.

(** ** Manual soil values *)

(** C2 fails for manual input.  With a manual soil nitrogen at Wuhan and
    no raster data, the source of nitrogen is MANUAL and is_default is
    true; so it is for manual values given without coordinates. *)
Lemma is_default_true_with_manual_source :
  let r := fst (calculateFertilizerRecommendation iso_Date_parse utc_getFullYear
                  int_toString no_data params_manual_wuhan rice None
                  (rng_switch 0 0 0)) in
  let r' := fst (calculateFertilizerRecommendation iso_Date_parse utc_getFullYear
                   int_toString no_data params_manual wheat None
                   (rng_switch 0 0 0)) in
  rec_sources r = (SRC_manual, SRC_simulated, SRC_simulated)
  /\ rec_is_default r = true
  /\ rec_sources r' = (SRC_manual, SRC_manual, SRC_manual)
  /\ rec_is_default r' = true.
Proof. repeat split; reflexivity. Qed.

(** ** The raster sampler on the sample rasters *)

Lemma pow2_neg_IZR (p : positive) : powerRZ 2 (Z.neg p) = / IZR (2 ^ Z.pos p).
Proof.
  change (Z.neg p) with (- Z.pos p)%Z.
  rewrite powerRZ_neg', pow2_IZR by lia. reflexivity.
Qed.

Lemma fsub_IZR (a b : Z) :
  (Z.abs (a - b) < 2 ^ 53)%Z -> fsub (Fin (IZR a)) (Fin (IZR b)) = Fin (IZR (a - b)).
Proof.
  intros H. unfold fsub. cbn [nsub nadd nneg fl].
  replace (IZR a + - IZR b) with (IZR (a - b)) by (rewrite minus_IZR; lra).
  apply binary64_IZR, H.
Qed.

Lemma fdiv_IZR (a b q : Z) :
  b <> 0%Z -> a = (q * b)%Z -> (Z.abs q < 2 ^ 53)%Z ->
  fdiv (Fin (IZR a)) (Fin (IZR b)) = Fin (IZR q).
Proof.
  intros Hb -> Hq. unfold fdiv. cbn [ndiv].
  assert (Hb' : IZR b <> 0) by (apply not_0_IZR; exact Hb).
  rewrite (Reqb_false _ _ Hb'). cbn [fl].
  replace (IZR (q * b) / IZR b) with (IZR q) by (rewrite mult_IZR; field; exact Hb').
  apply binary64_IZR, Hq.
Qed.

Lemma sample_image_ok : image_ok sample_image.
Proof.
  unfold image_ok, positive_finite, sample_image.
  cbn [img_width img_height img_data bbox0 bbox1 bbox2 bbox3 loadLayer
       cellWidth cellHeight length].
  rewrite (fsub_IZR 112 110), (fsub_IZR 30 28) by (cbn; lia).
  rewrite (fdiv_IZR (112 - 110) 2 1) by (cbn; lia).
  rewrite (fdiv_IZR (30 - 28) 2 1) by (cbn; lia).
  repeat match goal with |- _ /\ _ => split end;
    try lia; try lra; try reflexivity;
    (exists 1; split; [reflexivity | lra]).
Qed.

(* the cell width of [edge_image]: 12/59 rounded *)
Lemma edge_cell_width :
  cellWidth (loadLayer edge_image) = Fin (7327890919111316 * powerRZ 2 (-55)).
Proof.
  unfold edge_image. cbn [loadLayer cellWidth bbox0 bbox2 img_width].
  rewrite (fsub_IZR 122 110) by (cbn; lia).
  unfold fdiv. cbn [ndiv]. rewrite (Reqb_false (IZR 59) 0) by lra. cbn [fl].
  change (122 - 110)%Z with 12%Z.
  rewrite (binary64_normal (12 / 59) (-3) 7327890919111316); [reflexivity|lia| | |].
  - rewrite Rabs_pos_eq by lra.
    change (-3 + 1)%Z with (-2)%Z. rewrite !pow2_neg_IZR.
    change (2 ^ 3)%Z with 8%Z. change (2 ^ 2)%Z with 4%Z. lra.
  - change (-3 - 52)%Z with (-55)%Z. rewrite pow2_neg_IZR.
    change (2 ^ 55)%Z with 36028797018963968%Z.
    apply Rabs_def1; lra.
  - change (-3 - 52)%Z with (-55)%Z. rewrite pow2_neg_IZR.
    change (2 ^ 55)%Z with 36028797018963968%Z.
    pose proof (pow2_ge_1 1024 ltac:(lia)). rewrite Rabs_pos_eq by lra. lra.
Qed.

(* the quotient for the east edge: 12 divided by the rounded cell width is
   rounded to the binary64 number just below 59 *)
Lemma edge_quotient :
  fdiv (fsub (Fin 122) (Fin 110)) (cellWidth (loadLayer edge_image))
  = Fin (8303511812964351 * powerRZ 2 (-47)).
Proof.
  rewrite edge_cell_width, (fsub_IZR 122 110) by (cbn; lia).
  change (122 - 110)%Z with 12%Z.
  rewrite pow2_neg_IZR. change (2 ^ 55)%Z with 36028797018963968%Z.
  unfold fdiv. cbn [ndiv]. rewrite Reqb_false by lra. cbn [fl].
  rewrite (binary64_normal _ 5 8303511812964351); [reflexivity|lia| | |].
  - rewrite Rabs_pos_eq.
    + change (5 + 1)%Z with 6%Z. rewrite !pow2_IZR by lia.
      change (2 ^ 5)%Z with 32%Z. change (2 ^ 6)%Z with 64%Z.
      replace (12 / (7327890919111316 * / 36028797018963968))
        with (12 * 36028797018963968 / 7327890919111316) by (field; lra).
      lra.
    + replace (12 / (7327890919111316 * / 36028797018963968))
        with (12 * 36028797018963968 / 7327890919111316) by (field; lra).
      lra.
  - change (5 - 52)%Z with (-47)%Z. rewrite pow2_neg_IZR.
    change (2 ^ 47)%Z with 140737488355328%Z.
    replace (12 / (7327890919111316 * / 36028797018963968) / / 140737488355328)
      with (12 * 36028797018963968 * 140737488355328 / 7327890919111316)
      by (field; lra).
    apply Rabs_def1; lra.
  - change (5 - 52)%Z with (-47)%Z. rewrite pow2_neg_IZR.
    change (2 ^ 47)%Z with 140737488355328%Z.
    pose proof (pow2_le 6 1024 ltac:(lia)) as P. rewrite (pow2_IZR 6) in P by lia.
    change (2 ^ 6)%Z with 64%Z in P. rewrite Rabs_pos_eq by lra. lra.
Qed.

Lemma edge_image_ok : image_ok edge_image.
Proof.
  unfold image_ok, positive_finite. rewrite edge_cell_width.
  unfold edge_image.
  cbn [img_width img_height img_data bbox0 bbox1 bbox2 bbox3 loadLayer
       cellWidth cellHeight].
  rewrite (fsub_IZR 33 28) by (cbn; lia).
  rewrite (fdiv_IZR (33 - 28) 1 5) by (cbn; lia).
  repeat match goal with |- _ /\ _ => split end;
    try lia; try lra; try reflexivity.
  - eexists. split; [reflexivity|]. pose proof (pow2_pos (-55)). lra.
  - exists 5. split; [reflexivity | lra].
Qed.

(* On the east edge of [edge_image] the exact quotient is 59, which is off
   the grid, but the code computes the binary64 number just below 59: the
   pixel is in the last column, and its sample is returned. *)
Lemma east_edge_pixel :
  Int_part ((122 - 110) / ((122 - 110) / 59)) = 59%Z
  /\ pixel_col edge_image 122 = Some 58%Z
  /\ pixel_row edge_image 33 = Some 0%Z
  /\ extractValueFromGeoTIFF edge_env (Fin 122) (Fin 33) AN = SValue (Fin 850).
Proof.
  assert (Hcol : pixel_col edge_image 122 = Some 58%Z).
  { unfold pixel_col. change (bbox0 edge_image) with 110. rewrite edge_quotient.
    cbn [floor_index]. f_equal. symmetry. apply Int_part_spec.
    rewrite pow2_neg_IZR. change (2 ^ 47)%Z with 140737488355328%Z. lra. }
  assert (Hrow : pixel_row edge_image 33 = Some 0%Z).
  { unfold pixel_row. change (bbox3 edge_image) with 33.
    destruct edge_image_ok as (_ & _ & _ & _ & _ & _ & _ & (ch & Ech & Hch)).
    rewrite fsub_diag, Ech, (fdiv_0_l ch Hch).
    cbn [floor_index]. rewrite (Int_part_IZR 0). reflexivity. }
  split.
  { symmetry. apply Int_part_spec.
    replace ((122 - 110) / ((122 - 110) / 59)) with 59 by (field; lra). lra. }
  split; [exact Hcol|]. split; [exact Hrow|].
  destruct edge_image_ok as (Hw & Hh & _ & _ & Hlen & _ & (cw & Ecw & Hcw) & (ch & Ech & Hch)).
  unfold extractValueFromGeoTIFF.
  change (geotiffCache edge_env AN) with (Some (loadLayer edge_image)).
  cbv iota.
  change (minX (loadLayer edge_image)) with (Fin 110).
  change (maxX (loadLayer edge_image)) with (Fin 122).
  change (minY (loadLayer edge_image)) with (Fin 28).
  change (maxY (loadLayer edge_image)) with (Fin 33).
  replace ((Fin 122 <? Fin 110) || (Fin 122 >? Fin 122)
           || (Fin 33 <? Fin 28) || (Fin 33 >? Fin 33))%num with false
    by (unfold ngt; cbn [nlt]; decide_reals; reflexivity).
  set (qx := fdiv (fsub (Fin 122) (Fin 110)) (cellWidth (loadLayer edge_image))).
  set (qy := fdiv (fsub (Fin 33) (Fin 33)) (cellHeight (loadLayer edge_image))).
  assert (Nx : is_NaN qx = false).
  { unfold qx. rewrite Ecw. apply fdiv_not_NaN; [apply fsub_not_NaN | exact Hcw]. }
  assert (Ny : is_NaN qy = false).
  { unfold qy. rewrite Ech. apply fdiv_not_NaN; [apply fsub_not_NaN | exact Hch]. }
  destruct (readPixel_floor edge_image qx qy Hw Hh Hlen Nx Ny) as [_ G].
  cbv zeta in G.
  change (floor_index qx) with (pixel_col edge_image 122) in G.
  change (floor_index qy) with (pixel_row edge_image 33) in G.
  rewrite Hcol, Hrow in G.
  destruct (G 58%Z 0%Z eq_refl eq_refl) as (v & Hv & _ & E).
  { cbn. lia. }
  rewrite E. change (img_data edge_image) with (repeat (Fin 850) 59) in Hv.
  change (Z.to_nat (0 * img_width edge_image + 58)) with 58%nat in Hv.
  rewrite nth_error_repeat in Hv by lia. injection Hv as <-.
  replace (is_nodata (Fin 850)) with false; [reflexivity|].
  unfold is_nodata, ngt. cbn [nlt neqb]. decide_reals. reflexivity.
Qed.

(** ** The random source is not an argument *)



(** ** Instances of the theorems with hypotheses *)

Lemma sampler_characterisation_witness :
  geotiffCache sample_env AN = Some (loadLayer sample_image)
  /\ image_ok sample_image
  /\ (let col := pixel_col sample_image 110 in
      let row := pixel_row sample_image 30 in
      let result := extractValueFromGeoTIFF sample_env (Fin 110) (Fin 30) AN in
      result <> SUndefined
      /\ (outside_bbox sample_image 110 30 -> result = SNull)
      /\ (~ pixel_in_grid sample_image col row -> result = SNull)
      /\ (~ outside_bbox sample_image 110 30 ->
          pixel_in_grid sample_image col row ->
          forall c r : Z, col = Some c -> row = Some r ->
          exists v : num,
            nth_error (img_data sample_image)
              (Z.to_nat (r * img_width sample_image + c)) = Some v
            /\ (Z.to_nat (r * img_width sample_image + c)
                < length (img_data sample_image))%nat
            /\ result = if is_nodata v then SNull else SValue v)
      /\ (110 = bbox0 sample_image -> col = Some 0%Z)
      /\ (30 = bbox3 sample_image -> row = Some 0%Z)
      /\ (forall x : R,
            is_nodata (Fin x) = true
            <-> (x < -9999 \/ 100000 < x \/ x = -9999 \/ x = -32768))
      /\ (forall x y : num,
            is_NaN x = false -> is_NaN y = false ->
            readPixel (loadLayer sample_image) (Math_floor x) (Math_floor y)
            <> SUndefined)).
Proof.
  assert (H1 : geotiffCache sample_env AN = Some (loadLayer sample_image))
    by reflexivity.
  split; [exact H1|]. split; [exact sample_image_ok|].
  exact (sampler_characterisation sample_env AN sample_image 110 30 H1
           sample_image_ok).
Defined.

Lemma calculate_rejects_outside_window_witness :
  coordinates_in_window int_parseFloat request_200_50 = false
  /\ exists reason : string,
       calculate_handler iso_Date_parse utc_getFullYear int_toString int_parseFloat
         no_data (Some request_200_50) (rng_switch 0 0 0)
       = (Rejected 400 reason, [], rng_switch 0 0 0)
       /\ reason <> ""%string.
Proof.
  assert (H : coordinates_in_window int_parseFloat request_200_50 = false).
  { unfold coordinates_in_window, in_window, request_200_50.
    cbn [rq_lon rq_lat parseFloat]. num_eval. reflexivity. }
  split; [exact H|].
  exact (calculate_rejects_outside_window iso_Date_parse utc_getFullYear
           int_toString int_parseFloat no_data request_200_50 (rng_switch 0 0 0) H).
Defined.

(* a request with a sowing date and no coordinates is rejected as well *)
Lemma calculate_rejects_missing_coordinates :
  calculate_handler iso_Date_parse utc_getFullYear int_toString int_parseFloat
    no_data (Some request_date_only) (rng_switch 0 0 0)
  = (Rejected 400 "经纬度超出长江中下游地区范围", [], rng_switch 0 0 0).
Proof.
  unfold calculate_handler, request_date_only.
  cbn [rq_crop rq_yield rq_date rq_lon rq_lat truthy_json valid_crop is_some
       is_null parseFloat negb orb andb].
  repeat match goal with
  | |- context [String.eqb ?a ?b] =>
      let v := eval vm_compute in (String.eqb a b) in
      change (String.eqb a b) with v
  end.
  cbn [negb andb orb]. num_eval. reflexivity.
Qed.



(** * The calculation store *)
Lemma slice_length {A} (l : list A) (offset limit : Z) :
  (0 <= limit)%Z ->
  (Z.of_nat (length (Database.slice l offset (offset + limit))) <= limit)%Z.
Proof.
  intros H. unfold Database.slice.
  rewrite length_firstn, length_skipn. cbv zeta.
  destruct (Z.ltb_spec offset 0); destruct (Z.ltb_spec (offset + limit) 0); lia.
Qed.

Lemma slice_nonneg {A} (l : list A) (offset limit : Z) :
  (0 <= offset)%Z -> (0 <= limit)%Z ->
  Database.slice l offset (offset + limit)
  = firstn (Z.to_nat limit) (skipn (Z.to_nat offset) l).
Proof.
  intros Ho Hl. unfold Database.slice.
  replace (offset <? 0)%Z with false by (symmetry; apply Z.ltb_ge; lia).
  replace (offset + limit <? 0)%Z with false by (symmetry; apply Z.ltb_ge; lia).
  set (len := Z.of_nat (length l)).
  destruct (Z.le_gt_cases len offset) as [Hge | Hlt].
  - rewrite !skipn_all2 by (unfold len in Hge; lia).
    rewrite !firstn_nil. reflexivity.
  - rewrite (Z.min_l offset len) by lia.
    destruct (Z.le_gt_cases (offset + limit) len) as [H1 | H1].
    + rewrite (Z.min_l (offset + limit) len) by lia. f_equal. lia.
    + rewrite (Z.min_r (offset + limit) len) by lia.
      rewrite !firstn_all2; [reflexivity | |];
        rewrite length_skipn; unfold len in *; lia.
Qed.

Lemma firstn_pages {A} (n m : nat) (k : list A) :
  firstn n k ++ firstn m (skipn n k) = firstn (n + m) k.
Proof.
  revert k. induction n as [|n IH]; intros k; [reflexivity|].
  destruct k as [|x k]; simpl.
  - rewrite firstn_nil. reflexivity.
  - f_equal. apply IH.
Qed.

Lemma slice_pages {A} (l : list A) (offset l1 l2 : Z) :
  (0 <= offset)%Z -> (0 <= l1)%Z -> (0 <= l2)%Z ->
  Database.slice l offset (offset + l1)
  ++ Database.slice l (offset + l1) (offset + l1 + l2)
  = Database.slice l offset (offset + (l1 + l2)).
Proof.
  intros Ho H1 H2.
  rewrite !slice_nonneg by lia.
  rewrite (Z2Nat.inj_add offset l1), (Z2Nat.inj_add l1 l2) by lia.
  rewrite (Nat.add_comm (Z.to_nat offset)), <- skipn_skipn.
  apply firstn_pages.
Qed.

Lemma updateUserSession_calculations sid ip ua db c :
  Database.calculations (fst (Database._updateUserSession sid ip ua db c))
  = Database.calculations db
  /\ Database.nextId (fst (Database._updateUserSession sid ip ua db c))
     = Database.nextId db.
Proof.
  unfold Database._updateUserSession.
  destruct (negb (truthy_str sid)); [split; reflexivity|].
  destruct (Database.touch_session _ _ _); split; reflexivity.
Qed.

Lemma saveCalculation_spec (data : Database.CalcData) (db : Database.Db)
  (c : Database.clock) :
  let '(i, db', _) := Database.saveCalculation data db c in
  i = Database.nextId db
  /\ Database.nextId db' = (Database.nextId db + 1)%Z
  /\ exists r,
       Database.calculations db' = Database.calculations db ++ [r]
       /\ Database.id r = i
       /\ Database.crop_type r = Database.data_crop_type data
       /\ Database.target_yield r = Database.data_target_yield data
       /\ Database.longitude r = Database.data_longitude data
       /\ Database.latitude r = Database.data_latitude data
       /\ Database.soil_n r = Database.data_soil_n data
       /\ Database.soil_p r = Database.data_soil_p data
       /\ Database.soil_k r = Database.data_soil_k data
       /\ Database.fertilizer_recommendation r
          = Database.data_fertilizer_recommendation data
       /\ Database.user_session r
          = Database.or_null (Database.data_user_session data).
Proof.
  unfold Database.saveCalculation. cbn [Database.toISOString].
  match goal with
  | |- context [Database._updateUserSession ?a ?b ?d ?e ?f] =>
      pose proof (updateUserSession_calculations a b d e f) as [H1 H2];
      destruct (Database._updateUserSession a b d e f) as [db' c']
  end.
  cbn [fst Database.calculations Database.nextId Database.id] in *.
  split; [reflexivity|]. split; [exact H2|].
  eexists. split; [exact H1|]. cbn. repeat split; reflexivity.
Qed.

Lemma find_id_app (l : list Database.CalcRecord) (r : Database.CalcRecord) (j : Z) :
  find (fun x => (Database.id x =? j)%Z) (l ++ [r])
  = match find (fun x => (Database.id x =? j)%Z) l with
    | Some x => Some x
    | None => if (Database.id r =? j)%Z then Some r else None
    end.
Proof.
  induction l as [|x l IH]; simpl; [reflexivity|].
  destruct (Database.id x =? j)%Z; [reflexivity | exact IH].
Qed.

Lemma find_id_fresh (l : list Database.CalcRecord) (j : Z) :
  Forall (fun r => (Database.id r < j)%Z) l ->
  find (fun x => (Database.id x =? j)%Z) l = None.
Proof.
  induction 1 as [|x l Hx _ IH]; simpl; [reflexivity|].
  replace (Database.id x =? j)%Z with false by (symmetry; apply Z.eqb_neq; lia).
  exact IH.
Qed.

Lemma fold_max_ge (l : list Z) (i : Z) :
  (i <= fold_left Z.max l i)%Z /\ Forall (fun x => (x <= fold_left Z.max l i)%Z) l.
Proof.
  revert i. induction l as [|x l IH]; intros i; cbn [fold_left].
  - split; [lia | constructor].
  - destruct (IH (Z.max i x)) as [H1 H2]. split; [lia|].
    constructor; [lia | exact H2].
Qed.

Lemma fold_max_safe (l : list Z) (i : Z) :
  safe_integer i -> Forall safe_integer l -> safe_integer (fold_left Z.max l i).
Proof.
  revert i. induction l as [|x l IH]; intros i Hi Hl; cbn [fold_left]; [exact Hi|].
  inversion Hl as [|? ? Hx Hl']; subst. apply IH; [|exact Hl'].
  unfold safe_integer in *. lia.
Qed.

Lemma binary64_int_exact (z : Z) : (Z.abs z <= 2 ^ 53)%Z -> Database.binary64_int z = z.
Proof.
  intros H. unfold Database.binary64_int. cbv zeta.
  replace (Z.abs z <=? 2 ^ 53)%Z with true by (symmetry; apply Z.leb_le; exact H).
  reflexivity.
Qed.

(* For a file of safe ids the restored counter is above every id. *)
Lemma init_ids_below calcs sessions :
  Forall (fun r => safe_integer (Database.id r)) calcs ->
  ids_below (Database.init calcs sessions).
Proof.
  intros Hs.
  unfold ids_below, Database.init. cbn [Database.calculations Database.nextId].
  destruct calcs as [|r calcs]; [constructor|].
  cbn [map]. inversion Hs as [|? ? Hr Hs']; subst.
  assert (Hm : safe_integer (fold_left Z.max (map Database.id calcs) (Database.id r))).
  { apply fold_max_safe; [exact Hr|]. rewrite Forall_map. exact Hs'. }
  rewrite binary64_int_exact by (unfold safe_integer in Hm; lia).
  destruct (fold_max_ge (map Database.id calcs) (Database.id r)) as [H1 H2].
  constructor; [lia|].
  rewrite Forall_map in H2. eapply Forall_impl; [|exact H2].
  cbn. intros; lia.
Qed.

Lemma saveCalculation_ids_below data db c :
  ids_below db -> ids_below (snd (fst (Database.saveCalculation data db c))).
Proof.
  intros H. pose proof (saveCalculation_spec data db c) as S.
  destruct (Database.saveCalculation data db c) as [[i db'] c'].
  destruct S as (Ei & En & r & Ec & Er & _). cbn [fst snd].
  unfold ids_below in *. rewrite Ec, En. apply Forall_app. split.
  - eapply Forall_impl; [|exact H]. cbn. intros; lia.
  - constructor; [lia | constructor].
Qed.

Lemma save_all_ids_below saves db c :
  ids_below db -> ids_below (fst (save_all saves db c)).
Proof.
  revert db c. induction saves as [|data saves IH]; intros db c H; [exact H|].
  cbn [save_all].
  pose proof (saveCalculation_ids_below data db c H) as H'.
  destruct (Database.saveCalculation data db c) as [[i db'] c'].
  apply IH. exact H'.
Qed.

Lemma save_then_get_aux (calcs : list Database.CalcRecord)
  (sessions : list Database.UserSession) (saves : list Database.CalcData)
  (data : Database.CalcData) (c : Database.clock) :
  Forall (fun r => safe_integer (Database.id r)) calcs ->
  let '(db, c1) := save_all saves (Database.init calcs sessions) c in
  let '(i, db', _) := Database.saveCalculation data db c1 in
  (forall r, In r (Database.calculations db) -> Database.id r <> i)
  /\ (exists r,
        Database.getCalculationById i db' = Some r
        /\ Database.id r = i
        /\ Database.crop_type r = Database.data_crop_type data
        /\ Database.target_yield r = Database.data_target_yield data
        /\ Database.longitude r = Database.data_longitude data
        /\ Database.latitude r = Database.data_latitude data
        /\ Database.soil_n r = Database.data_soil_n data
        /\ Database.soil_p r = Database.data_soil_p data
        /\ Database.soil_k r = Database.data_soil_k data
        /\ Database.fertilizer_recommendation r
           = Database.data_fertilizer_recommendation data)
  /\ forall j, j <> i ->
       Database.getCalculationById j db' = Database.getCalculationById j db.
Proof.
  intros Hs.
  pose proof (save_all_ids_below saves _ c (init_ids_below calcs sessions Hs)) as Hb.
  destruct (save_all saves (Database.init calcs sessions) c) as [db c1].
  cbn [fst] in Hb.
  pose proof (saveCalculation_spec data db c1) as S.
  destruct (Database.saveCalculation data db c1) as [[i db'] c'].
  destruct S as (Ei & En & r & Ec & Er & F1 & F2 & F3 & F4 & F5 & F6 & F7 & F8 & _).
  unfold ids_below in Hb. rewrite <- Ei in Hb.
  split; [|split].
  - intros x Hx. rewrite Forall_forall in Hb. specialize (Hb x Hx). lia.
  - exists r. unfold Database.getCalculationById. rewrite Ec, find_id_app.
    rewrite (find_id_fresh _ _ Hb). rewrite Er, Z.eqb_refl.
    repeat split; assumption.
  - intros j Hj. unfold Database.getCalculationById. rewrite Ec, find_id_app.
    destruct (find _ (Database.calculations db)); [reflexivity|].
    rewrite Er. replace (i =? j)%Z with false by (symmetry; apply Z.eqb_neq; lia).
    reflexivity.
Qed.

(** X24. Saving and looking up round-trip: in a store loaded from a
    file whose ids are safe integers (of magnitude below 2^53) and filled
    by any number of saves that leave the counter a safe integer,
    [saveCalculation] returns an id that no stored record has;
    [getCalculationById] with that id then returns the new record, which
    holds the crop, yield, coordinates, soil values and recommendation
    that were passed in; and the lookup of every other id is unchanged.
    (The counter is a binary64 number: from 2^53 on, adding 1 no longer
    changes it, see [init_reissues_id].) *)
Theorem saveCalculation_then_getCalculationById :
  forall (calcs : list Database.CalcRecord) (sessions : list Database.UserSession)
         (saves : list Database.CalcData) (data : Database.CalcData)
         (c : Database.clock),
    Forall (fun r => safe_integer (Database.id r)) calcs ->
    safe_integer
      (Database.nextId (fst (save_all saves (Database.init calcs sessions) c))) ->
    let '(db, c1) := save_all saves (Database.init calcs sessions) c in
    let '(i, db', _) := Database.saveCalculation data db c1 in
    (forall r, In r (Database.calculations db) -> Database.id r <> i)
    /\ (exists r,
          Database.getCalculationById i db' = Some r
          /\ Database.id r = i
          /\ Database.crop_type r = Database.data_crop_type data
          /\ Database.target_yield r = Database.data_target_yield data
          /\ Database.longitude r = Database.data_longitude data
          /\ Database.latitude r = Database.data_latitude data
          /\ Database.soil_n r = Database.data_soil_n data
          /\ Database.soil_p r = Database.data_soil_p data
          /\ Database.soil_k r = Database.data_soil_k data
          /\ Database.fertilizer_recommendation r
             = Database.data_fertilizer_recommendation data)
    /\ forall j, j <> i ->
         Database.getCalculationById j db' = Database.getCalculationById j db.
Proof.
  intros calcs sessions saves data c Hs _.
  exact (save_then_get_aux calcs sessions saves data c Hs).
Qed.

(* At 2^53 the restored counter is not above the ids: for a file whose
   largest id is 2^53, Math.max(...ids) + 1 is 2^53 again, the next save
   returns the id of the stored record, and the lookup of that id still
   returns the old record. *)
Lemma init_reissues_id :
  let db := Database.init file_at_2_53 [] in
  let '(i, db', _) := Database.saveCalculation (sample_calc None) db sample_clock in
  Database.nextId db = (2 ^ 53)%Z
  /\ i = (2 ^ 53)%Z
  /\ (exists r, In r (Database.calculations db) /\ Database.id r = i)
  /\ option_map Database.timestamp (Database.getCalculationById i db')
     = Some "2026-06-17T00:00:00.000Z"%string.
Proof.
  cbv zeta.
  assert (E : Database.nextId (Database.init file_at_2_53 []) = (2 ^ 53)%Z)
    by (vm_compute; reflexivity).
  pose proof (saveCalculation_spec (sample_calc None)
                (Database.init file_at_2_53 []) sample_clock) as S.
  destruct (Database.saveCalculation (sample_calc None)
              (Database.init file_at_2_53 []) sample_clock) as [[i db'] c'].
  destruct S as (Ei & En & r & Ec & Er & _).
  rewrite E in Ei. subst i.
  split; [exact E|]. split; [reflexivity|]. split.
  - eexists. split; [left; reflexivity | reflexivity].
  - unfold Database.getCalculationById. rewrite Ec.
    change (Database.calculations (Database.init file_at_2_53 [])) with file_at_2_53.
    unfold file_at_2_53. cbn [app find Database.id]. reflexivity.
Qed.

Lemma save_all_ids (saves : list Database.CalcData) (db : Database.Db)
  (c : Database.clock) :
  map Database.id (Database.calculations (fst (save_all saves db c)))
  = map Database.id (Database.calculations db)
    ++ ids_from (Database.nextId db) (length saves)
  /\ Database.nextId (fst (save_all saves db c))
     = (Database.nextId db + Z.of_nat (length saves))%Z.
Proof.
  revert db c. induction saves as [|data saves IH]; intros db c.
  - cbn. rewrite app_nil_r. split; [reflexivity | lia].
  - cbn [save_all length ids_from].
    pose proof (saveCalculation_spec data db c) as S.
    destruct (Database.saveCalculation data db c) as [[i db'] c'].
    destruct S as (Ei & En & r & Ec & Er & _).
    destruct (IH db' c') as [I1 I2]. rewrite I1, I2, Ec, En, map_app.
    cbn [map]. rewrite Er, Ei, <- app_assoc. cbn [app].
    split; [reflexivity | lia].
Qed.

Lemma bump_id sid now s : Database.session_id (bump sid now s) = Database.session_id s.
Proof. unfold bump. destruct (String.eqb _ _); reflexivity. Qed.

Lemma map_bump_absent sid now l :
  ~ In sid (map Database.session_id l) -> map (bump sid now) l = l.
Proof.
  induction l as [|s l IH]; intros H; [reflexivity|].
  cbn [map] in *. rewrite IH by (intros X; apply H; right; exact X).
  unfold bump. destruct (String.eqb_spec (Database.session_id s) sid) as [E|E].
  - exfalso. apply H. left. exact E.
  - reflexivity.
Qed.

Lemma touch_session_absent sid now l :
  ~ In sid (map Database.session_id l) -> Database.touch_session sid now l = None.
Proof.
  induction l as [|s l IH]; intros H; [reflexivity|].
  cbn [Database.touch_session map] in *.
  destruct (String.eqb_spec (Database.session_id s) sid) as [E|E].
  - exfalso. apply H. left. exact E.
  - rewrite IH by (intros X; apply H; right; exact X). reflexivity.
Qed.

Lemma touch_session_present sid now l :
  NoDup (map Database.session_id l) ->
  In sid (map Database.session_id l) ->
  Database.touch_session sid now l = Some (map (bump sid now) l).
Proof.
  induction l as [|s l IH]; intros Hnd Hin; [contradiction|].
  cbn [Database.touch_session map] in *.
  inversion Hnd as [|? ? Hs Hl]; subst.
  unfold bump at 1.
  destruct (String.eqb_spec (Database.session_id s) sid) as [E|E].
  - rewrite map_bump_absent by (rewrite <- E; exact Hs). reflexivity.
  - destruct Hin as [X|X]; [contradiction|].
    rewrite (IH Hl X). reflexivity.
Qed.

Lemma calculations_of_app sid calcs sessions n r sessions' n' :
  calculations_of sid {| Database.calculations := calcs ++ [r];
                         Database.user_sessions := sessions';
                         Database.nextId := n' |}
  = (calculations_of sid {| Database.calculations := calcs;
                            Database.user_sessions := sessions;
                            Database.nextId := n |}
     + if Database.option_string_eqb (Database.user_session r) (Some sid)
       then 1 else 0)%nat.
Proof.
  unfold calculations_of. cbn [Database.calculations].
  rewrite filter_app, length_app. cbn [filter].
  destruct (Database.option_string_eqb _ _); reflexivity.
Qed.

Lemma count_bump (k : nat) :
  ((Fin (INR k) ||n 0) + 1)%num = Fin (INR (k + 1)).
Proof.
  rewrite plus_INR. cbn [INR]. unfold num_or, truthy.
  destruct (Req_dec_T (INR k) 0) as [E|E].
  - rewrite (Reqb_true _ _ E). cbn [negb nadd]. rewrite E. f_equal.
  - rewrite (Reqb_false _ _ E). reflexivity.
Qed.

Lemma saveCalculation_consistent data db c :
  sessions_consistent db ->
  sessions_consistent (snd (fst (Database.saveCalculation data db c))).
Proof.
  intros (Hnd & Hcount & Hcover).
  destruct db as [calcs sessions n].
  unfold Database.saveCalculation, Database._updateUserSession.
  cbn [Database.toISOString Database.calculations Database.user_sessions
       Database.nextId fst snd] in *.
  set (r := Database.Build_CalcRecord _ _ _ _ _ _ _ _ _ _ _ _ _ _ _ _ _ _ _ _).
  assert (Er : Database.user_session r
               = Database.or_null (Database.data_user_session data))
    by reflexivity.
  clearbody r.
  unfold Database.or_null in Er.
  destruct (truthy_str (Database.data_user_session data)) eqn:T; cbn [negb].
  - destruct (Database.data_user_session data) as [sid|]; [|discriminate].
    cbn [nullish].
    destruct (in_dec string_dec sid (map Database.session_id sessions)) as [Hin|Hout].
    + rewrite (touch_session_present sid _ sessions Hnd Hin).
      cbn [fst snd]. unfold sessions_consistent.
      cbn [Database.calculations Database.user_sessions].
      split; [|split].
      * rewrite map_map. erewrite map_ext; [exact Hnd|].
        intros s. apply bump_id.
      * intros s' Hs'. apply in_map_iff in Hs'. destruct Hs' as (s & <- & Hs).
        rewrite bump_id.
        rewrite (calculations_of_app _ calcs sessions n r).
        rewrite Er. cbn [Database.option_string_eqb].
        unfold bump.
        destruct (String.eqb_spec (Database.session_id s) sid) as [E|E].
        -- cbn [Database.calculation_count]. rewrite (Hcount s Hs).
           rewrite E, String.eqb_refl. apply count_bump.
        -- rewrite (Hcount s Hs).
           replace (String.eqb sid (Database.session_id s)) with false
             by (symmetry; apply String.eqb_neq; congruence).
           rewrite Nat.add_0_r. reflexivity.
      * intros x sid' Hx Ex. rewrite map_map.
        erewrite map_ext; [|intros s; apply bump_id].
        apply in_app_iff in Hx. destruct Hx as [Hx | [<- | []]].
        -- eapply Hcover; eassumption.
        -- rewrite Er in Ex. inversion Ex; subst. exact Hin.
    + rewrite (touch_session_absent sid _ sessions Hout).
      cbn [fst snd]. unfold sessions_consistent.
      cbn [Database.calculations Database.user_sessions].
      assert (Hzero : calculations_of sid
                        {| Database.calculations := calcs;
                           Database.user_sessions := sessions;
                           Database.nextId := n |} = 0%nat).
      { unfold calculations_of. cbn [Database.calculations].
        destruct (filter _ calcs) as [|x xs] eqn:F; [reflexivity|].
        assert (Hx : In x (filter (fun r0 =>
                   Database.option_string_eqb (Database.user_session r0) (Some sid))
                   calcs)) by (rewrite F; left; reflexivity).
        apply filter_In in Hx. destruct Hx as [Hx1 Hx2].
        destruct (Database.user_session x) as [y|] eqn:Ey; [|discriminate].
        cbn in Hx2. apply String.eqb_eq in Hx2. subst y.
        exfalso. apply Hout. eapply Hcover; eassumption. }
      split; [|split].
      * rewrite map_app. cbn [map Database.session_id].
        apply NoDup_app; [exact Hnd | repeat constructor; intros [] | ].
        intros x Hx [<- | []]. contradiction.
      * intros s Hs. apply in_app_iff in Hs.
        rewrite (calculations_of_app _ calcs sessions n r).
        rewrite Er. cbn [Database.option_string_eqb].
        destruct Hs as [Hs | [<- | []]].
        -- rewrite (Hcount s Hs).
           replace (String.eqb sid (Database.session_id s)) with false.
           ++ rewrite Nat.add_0_r. reflexivity.
           ++ symmetry. apply String.eqb_neq. intros ->. apply Hout.
              apply in_map. exact Hs.
        -- cbn [Database.session_id Database.calculation_count].
           rewrite String.eqb_refl, Hzero. cbn [Nat.add INR]. reflexivity.
      * intros x sid' Hx Ex. rewrite map_app. apply in_app_iff.
        apply in_app_iff in Hx. destruct Hx as [Hx | [<- | []]].
        -- left. eapply Hcover; eassumption.
        -- right. rewrite Er in Ex. inversion Ex; subst. left. reflexivity.
  - cbn [fst snd]. unfold sessions_consistent.
    cbn [Database.calculations Database.user_sessions].
    split; [exact Hnd|]. split.
    + intros s Hs. rewrite (calculations_of_app _ calcs sessions n r).
      rewrite Er. cbn [Database.option_string_eqb].
      rewrite Nat.add_0_r. apply Hcount, Hs.
    + intros x sid' Hx Ex. apply in_app_iff in Hx.
      destruct Hx as [Hx | [<- | []]]; [eapply Hcover; eassumption|].
      rewrite Er in Ex. discriminate.
Qed.

Lemma save_all_consistent saves db c :
  sessions_consistent db -> sessions_consistent (fst (save_all saves db c)).
Proof.
  revert db c. induction saves as [|data saves IH]; intros db c H; [exact H|].
  cbn [save_all].
  pose proof (saveCalculation_consistent data db c H) as H'.
  destruct (Database.saveCalculation data db c) as [[i db'] c'].
  apply IH. exact H'.
Qed.

Lemma empty_consistent : sessions_consistent Database.empty.
Proof.
  unfold sessions_consistent, Database.empty. cbn.
  split; [constructor|]. split; intros; contradiction.
Qed.

(** X25. In a store that starts empty, the k-th saved calculation gets
    the id k, and the sessions stay consistent with the calculations: there
    is one entry per session id, its count is the number of stored
    calculations of that session, and every session with a stored
    calculation has an entry. *)
Theorem store_from_empty :
  forall (saves : list Database.CalcData) (c : Database.clock),
    let db := fst (save_all saves Database.empty c) in
    map Database.id (Database.calculations db) = ids_from 1 (length saves)
    /\ sessions_consistent db.
Proof.
  intros saves c. cbv zeta. split.
  - destruct (save_all_ids saves Database.empty c) as [H _]. exact H.
  - apply save_all_consistent, empty_consistent.
Qed.

Lemma In_firstn {A} (n : nat) (l : list A) (x : A) : In x (firstn n l) -> In x l.
Proof.
  intros H. rewrite <- (firstn_skipn n l). apply in_or_app. left. exact H.
Qed.

Lemma In_skipn {A} (n : nat) (l : list A) (x : A) : In x (skipn n l) -> In x l.
Proof.
  intros H. rewrite <- (firstn_skipn n l). apply in_or_app. right. exact H.
Qed.

Lemma slice_incl {A} (l : list A) (a b : Z) (x : A) :
  In x (Database.slice l a b) -> In x l.
Proof.
  unfold Database.slice. cbv zeta. intros H.
  apply In_firstn in H. apply In_skipn in H. exact H.
Qed.

Lemma getRecentCalculations_pages_aux (db : Database.Db) (userSession : option string)
  (offset l1 l2 : Z) :
  (0 <= offset)%Z -> (0 <= l1)%Z -> (0 <= l2)%Z ->
  (Z.of_nat (length (Database.getRecentCalculations l1 offset userSession db))
   <= l1)%Z
  /\ Database.getRecentCalculations l1 offset userSession db
     ++ Database.getRecentCalculations l2 (offset + l1) userSession db
     = Database.getRecentCalculations (l1 + l2) offset userSession db
  /\ (forall r,
        In r (Database.getRecentCalculations l1 offset userSession db) ->
        In r (Database.calculations db)
        /\ (truthy_str userSession = true ->
            Database.user_session r = userSession))
  /\ (userSession = None ->
      Database.getRecentCalculations
        (Z.of_nat (length (Database.calculations db))) 0 userSession db
      = List.rev (Database.calculations db)).
Proof.
  intros Ho H1 H2. unfold Database.getRecentCalculations.
  split; [apply slice_length; exact H1|].
  split; [apply slice_pages; assumption|].
  split.
  - intros r Hr. apply slice_incl in Hr.
    destruct (truthy_str userSession) eqn:T.
    + apply filter_In in Hr. destruct Hr as [Hr Eq].
      split; [apply in_rev in Hr; exact Hr|]. intros _.
      destruct (Database.user_session r) as [x|], userSession as [y|];
        try discriminate.
      cbn in Eq. apply String.eqb_eq in Eq. subst. reflexivity.
    + split; [apply in_rev in Hr; exact Hr | discriminate].
  - intros ->. cbn [truthy_str].
    rewrite (slice_nonneg _ 0 _) by lia.
    cbn [Z.to_nat skipn]. rewrite Nat2Z.id.
    apply firstn_all2. rewrite length_rev. lia.
Qed.

(** X26. Paging through the recent calculations: for an offset and
    limits that are not negative, a page has at most [limit] records, each
    of them is a stored record (of the given session, when one is given),
    and two consecutive pages are together the page of both limits, so
    that paging neither repeats nor skips a record.  Without a session
    filter the page of all records is the stored list in reverse. *)
Theorem getRecentCalculations_pages :
  forall (db : Database.Db) (userSession : option string) (offset l1 l2 : Z),
    (0 <= offset)%Z -> (0 <= l1)%Z -> (0 <= l2)%Z ->
    (Z.of_nat (length (Database.getRecentCalculations l1 offset userSession db))
     <= l1)%Z
    /\ Database.getRecentCalculations l1 offset userSession db
       ++ Database.getRecentCalculations l2 (offset + l1) userSession db
       = Database.getRecentCalculations (l1 + l2) offset userSession db
    /\ (forall r,
          In r (Database.getRecentCalculations l1 offset userSession db) ->
          In r (Database.calculations db)
          /\ (truthy_str userSession = true ->
              Database.user_session r = userSession))
    /\ (userSession = None ->
        Database.getRecentCalculations
          (Z.of_nat (length (Database.calculations db))) 0 userSession db
        = List.rev (Database.calculations db)).
Proof. exact getRecentCalculations_pages_aux. Qed.

Lemma getRecentCalculations_latest_aux (data : Database.CalcData)
  (db : Database.Db) (c : Database.clock) (limit : Z) :
  (1 <= limit)%Z ->
  let '(i, db', _) := Database.saveCalculation data db c in
  exists r,
    Database.getRecentCalculations limit 0 None db'
    = r :: Database.getRecentCalculations (limit - 1) 0 None db
    /\ Database.id r = i.
Proof.
  intros H. pose proof (saveCalculation_spec data db c) as S.
  destruct (Database.saveCalculation data db c) as [[i db'] c'].
  destruct S as (Ei & En & r & Ec & Er & _).
  exists r. split; [|exact Er].
  unfold Database.getRecentCalculations. cbn [truthy_str].
  rewrite Ec, rev_app_distr. cbn [List.rev app].
  rewrite (slice_nonneg _ 0 limit), (slice_nonneg _ 0 (limit - 1)) by lia.
  cbn [Z.to_nat skipn].
  replace (Z.to_nat limit) with (S (Z.to_nat (limit - 1))) by lia.
  reflexivity.
Qed.

(** X27. The newest calculation comes first: right after a save, the
    first page of the recent calculations (limit at least 1, no session
    filter) starts with the record that was just saved, followed by the
    first page of limit - 1 of the store before the save. *)
Theorem getRecentCalculations_latest_first :
  forall (data : Database.CalcData) (db : Database.Db) (c : Database.clock)
         (limit : Z),
    (1 <= limit)%Z ->
    let '(i, db', _) := Database.saveCalculation data db c in
    exists r,
      Database.getRecentCalculations limit 0 None db'
      = r :: Database.getRecentCalculations (limit - 1) 0 None db
      /\ Database.id r = i.
Proof. exact getRecentCalculations_latest_aux. Qed.

(** * Instances of the further theorems with hypotheses *)

Lemma getNutrientLevel_monotone_witness :
  49.9 <= 120
  /\ (level_rank (getNutrientLevel (Fin 49.9) AN)
      <= level_rank (getNutrientLevel (Fin 120) AN) <= 3)%nat
  /\ getNutrientLevel NaN AN = L_very_high.
Proof.
  assert (H : 49.9 <= 120) by lra.
  split; [exact H|]. exact (getNutrientLevel_monotone AN 49.9 120 H).
Defined.

Lemma calculateGrowthStage_unparseable_date_witness :
  iso_Date_parse "not-a-date" = NaN
  /\ calculateGrowthStage iso_Date_parse (Fin 0) "水稻" (Some "not-a-date"%string)
     = mkStage "成熟期" "灌浆成熟"
  /\ can_fertilize
       (generateTimingAdvice "水稻"
          (calculateGrowthStage iso_Date_parse (Fin 0) "水稻"
             (Some "not-a-date"%string))
          {| suitable := true; warning := None |}) = false.
Proof.
  assert (H : iso_Date_parse "not-a-date" = NaN) by reflexivity.
  split; [exact H|].
  destruct (calculateGrowthStage_unparseable_date iso_Date_parse (Fin 0) "水稻"
              (Some "not-a-date"%string) {| suitable := true; warning := None |}
              eq_refl H) as (H1 & H2 & _).
  split; [exact H1 | exact H2].
Defined.

Lemma analyzeWeather_suitable_witness :
  lives rainy_weather = Some (nullish (lives rainy_weather) [])
  /\ suitable
       (analysis (analyzeWeather int_toString int_parseFloat int_parseInt
                    (Some rainy_weather)))
     = risk_eqb
         (rain_level (read_rain int_toString int_parseFloat rainy_weather
                        (nullish (lives rainy_weather) [])))
         risk_low
       && negb (read_temperature int_toString int_parseInt
                  (nullish (lives rainy_weather) []) >? 30)%num
       && negb (read_temperature int_toString int_parseInt
                  (nullish (lives rainy_weather) []) <? 10)%num
       && negb (read_humidity int_toString int_parseInt
                  (nullish (lives rainy_weather) []) >? 85)%num
       && negb (read_humidity int_toString int_parseInt
                  (nullish (lives rainy_weather) []) <? 40)%num
       && negb (read_wind int_toString int_parseInt
                  (nullish (lives rainy_weather) []) >=? 5)%num.
Proof.
  assert (H : lives rainy_weather = Some (nullish (lives rainy_weather) []))
    by reflexivity.
  split; [exact H|].
  exact (proj1 (analyzeWeather_suitable int_toString int_parseFloat int_parseInt
                  rainy_weather (nullish (lives rainy_weather) []) H)).
Defined.

Lemma analyzeWeather_levels_witness :
  lives rainy_weather = Some (nullish (lives rainy_weather) [])
  /\ warning_level
       (analyzeWeather int_toString int_parseFloat int_parseInt (Some rainy_weather))
     = Some (risk_max
               (rain_level (read_rain int_toString int_parseFloat rainy_weather
                              (nullish (lives rainy_weather) [])))
               (risk_max
                  (temperature_level
                     (read_temperature int_toString int_parseInt
                        (nullish (lives rainy_weather) [])))
                  (wind_level
                     (read_wind int_toString int_parseInt
                        (nullish (lives rainy_weather) []))))).
Proof.
  assert (H : lives rainy_weather = Some (nullish (lives rainy_weather) []))
    by reflexivity.
  split; [exact H|].
  exact (proj1 (analyzeWeather_levels int_toString int_parseFloat int_parseInt
                  rainy_weather (nullish (lives rainy_weather) []) H)).
Defined.

Lemma analyzeWeather_temperature_zero_witness :
  parseInt int_toString int_parseInt
    (live_temperature (first_live (nullish (lives rainy_weather) []))) = Fin 0
  /\ report_temperature
       (analyzeWeather int_toString int_parseFloat int_parseInt (Some rainy_weather))
     = Some (Fin 20)
  /\ temperature_risk
       (analyzeWeather int_toString int_parseFloat int_parseInt (Some rainy_weather))
     = Some "低"%string.
Proof.
  assert (H : parseInt int_toString int_parseInt
                (live_temperature (first_live (nullish (lives rainy_weather) [])))
              = Fin 0) by reflexivity.
  split; [exact H|].
  destruct (analyzeWeather_temperature_zero int_toString int_parseFloat int_parseInt
              rainy_weather (nullish (lives rainy_weather) []) eq_refl H)
    as (H1 & H2 & _).
  split; [exact H1 | exact H2].
Defined.

(* the conversions of the host on the integers from 0 to 99 *)
Lemma int_host_round_trip (z : Z) :
  (0 <= z < 100)%Z -> int_parseInt (int_toString (Fin (IZR z))) = Fin (IZR z).
Proof.
  intros H. unfold int_toString. rewrite Int_part_IZR.
  assert (E : exists n : nat, (n < 100)%nat /\ z = Z.of_nat n).
  { exists (Z.to_nat z). split; lia. }
  destruct E as (n & Hn & ->). clear H.
  do 100 (destruct n as [|n]; [vm_compute; reflexivity|]).
  lia.
Qed.

Lemma int_toString_nonempty (x : num) : int_toString x <> ""%string.
Proof.
  destruct x as [r| | |]; try discriminate.
  unfold int_toString. destruct (Z.to_int (Int_part r)) as [u|u];
    destruct u; discriminate.
Qed.

Lemma rng_half_unit (n : nat) : 0 <= rng_half n < 1.
Proof. unfold rng_half. lra. Qed.

Lemma generateSimulatedWeather_never_high_witness :
  let r := analyzeWeather int_toString int_parseFloat int_parseInt
             (Some (fst (generateSimulatedWeather int_toString rng_half))) in
  warning_level r <> Some risk_high
  /\ rain_risk r <> Some "高"%string
  /\ temperature_risk r <> Some "高"%string
  /\ exists t : R, report_temperature r = Some (Fin t) /\ 15 <= t <= 34.
Proof.
  exact (generateSimulatedWeather_never_high int_toString int_parseFloat
           int_parseInt rng_half rng_half_unit int_host_round_trip
           int_toString_nonempty).
Defined.

Lemma saveCalculation_then_getCalculationById_witness :
  let calcs :=
    Database.calculations
      (fst (save_all [sample_calc (Some "s1"%string)] Database.empty sample_clock)) in
  Forall (fun r => safe_integer (Database.id r)) calcs
  /\ safe_integer
       (Database.nextId
          (fst (save_all [sample_calc None] (Database.init calcs []) sample_clock)))
  /\ (let '(db, c1) :=
        save_all [sample_calc None] (Database.init calcs []) sample_clock in
      let '(i, db', _) := Database.saveCalculation (sample_calc None) db c1 in
      (forall r, In r (Database.calculations db) -> Database.id r <> i)
      /\ (exists r,
            Database.getCalculationById i db' = Some r
            /\ Database.id r = i
            /\ Database.crop_type r = Database.data_crop_type (sample_calc None)
            /\ Database.target_yield r
               = Database.data_target_yield (sample_calc None)
            /\ Database.longitude r = Database.data_longitude (sample_calc None)
            /\ Database.latitude r = Database.data_latitude (sample_calc None)
            /\ Database.soil_n r = Database.data_soil_n (sample_calc None)
            /\ Database.soil_p r = Database.data_soil_p (sample_calc None)
            /\ Database.soil_k r = Database.data_soil_k (sample_calc None)
            /\ Database.fertilizer_recommendation r
               = Database.data_fertilizer_recommendation (sample_calc None))
      /\ forall j, j <> i ->
           Database.getCalculationById j db' = Database.getCalculationById j db).
Proof.
  cbv zeta.
  assert (H1 : Forall (fun r => safe_integer (Database.id r))
                 (Database.calculations
                    (fst (save_all [sample_calc (Some "s1"%string)]
                            Database.empty sample_clock)))).
  { repeat constructor; cbn; lia. }
  assert (H2 : safe_integer
                 (Database.nextId
                    (fst (save_all [sample_calc None]
                            (Database.init
                               (Database.calculations
                                  (fst (save_all [sample_calc (Some "s1"%string)]
                                          Database.empty sample_clock))) [])
                            sample_clock)))).
  { split; reflexivity. }
  split; [exact H1|]. split; [exact H2|].
  exact (saveCalculation_then_getCalculationById _ [] [sample_calc None]
           (sample_calc None) sample_clock H1 H2).
Defined.

Lemma getRecentCalculations_pages_witness :
  let db := fst (save_all [sample_calc (Some "s1"%string); sample_calc None]
                   Database.empty sample_clock) in
  (Z.of_nat (length (Database.getRecentCalculations 1 0 None db)) <= 1)%Z
  /\ Database.getRecentCalculations 1 0 None db
     ++ Database.getRecentCalculations 1 (0 + 1) None db
     = Database.getRecentCalculations (1 + 1) 0 None db.
Proof.
  cbv zeta.
  destruct (getRecentCalculations_pages
              (fst (save_all [sample_calc (Some "s1"%string); sample_calc None]
                      Database.empty sample_clock))
              None 0 1 1 ltac:(lia) ltac:(lia) ltac:(lia)) as (H1 & H2 & _).
  split; [exact H1 | exact H2].
Defined.

Lemma getRecentCalculations_latest_first_witness :
  let '(i, db', _) :=
    Database.saveCalculation (sample_calc (Some "s1"%string)) Database.empty
      sample_clock in
  exists r,
    Database.getRecentCalculations 20 0 None db'
    = r :: Database.getRecentCalculations (20 - 1) 0 None Database.empty
    /\ Database.id r = i.
Proof.
  exact (getRecentCalculations_latest_first (sample_calc (Some "s1"%string))
           Database.empty sample_clock 20 ltac:(lia)).
Defined.
